(** * Backend handler of the array library: a shallow embedding

    The development follows [ivy/utils/backend/handler.py]: the registry
    tables, the version resolver, backend inference, the backend stack with
    [set_backend] / [unset_backend], the namespace rebinder, the two phases
    of the dynamic backend converter, [get_backend], the context manager and
    the random choice of a backend.

    Python objects live in a store addressed by references: a dictionary
    value is a reference, so two names can hold the same object.  Module
    namespaces are insertion-ordered dictionaries.  Every handler function
    is a computation in a state-and-exception monad over the process state;
    a call returns, raises, or waits for ever on the backend-setter lock.
    What the handler takes from other files of the library (the function
    wrapper, the device and attribute registry, the array conversions) is a
    parameter of the development.  The messages printed under
    [verbosity.level > 0] are left out, and so are [with_backend] and
    [_handle_backend_specific_vars], which work on a second copy of the
    package made by the import machinery. *)

From Stdlib Require Import ZArith Ascii String List Bool Lia.
From stdpp Require Import base option gmap strings list.

Set Warnings "-register-all".
Local Open Scope string_scope.
Local Open Scope list_scope.

(** ** Python strings *)

Module PyStr.

(** [s.startswith(p)] *)
Fixpoint startswith (p s : string) : bool :=
  match p, s with
  | EmptyString, _ => true
  | String _ _, EmptyString => false
  | String a p', String b s' => if Ascii.eqb a b then startswith p' s' else false
  end.

(** [s.find(p)]: the lowest index at which [p] occurs in [s], [None] for
    Python's [-1]. *)
Fixpoint find (p s : string) : option nat :=
  if startswith p s then Some 0
  else match s with
       | EmptyString => None
       | String _ s' => S <$> find p s'
       end.

(** [p in s] *)
Definition contains (p s : string) : bool :=
  match find p s with Some _ => true | None => false end.

(** [s[i:]] for [0 <= i] *)
Fixpoint drop (i : nat) (s : string) : string :=
  match i, s with
  | O, _ => s
  | S _, EmptyString => EmptyString
  | S i', String _ s' => drop i' s'
  end.

(** [s[:j]] for [0 <= j] *)
Fixpoint take (j : nat) (s : string) : string :=
  match j, s with
  | O, _ => EmptyString
  | S _, EmptyString => EmptyString
  | S j', String a s' => String a (take j' s')
  end.

(** [s[i:j]] for [0 <= i] and [0 <= j]; empty when [j <= i]. *)
Definition slice (i j : nat) (s : string) : string := take (j - i) (drop i s).

(** [s.split(c)] for a one-character separator: never the empty list, and
    [[""]] on the empty string. *)
Fixpoint split (c : ascii) (s : string) : list string :=
  match s with
  | EmptyString => [EmptyString]
  | String a s' =>
      if Ascii.eqb a c then EmptyString :: split c s'
      else match split c s' with
           | [] => [String a EmptyString]
           | w :: ws => String a w :: ws
           end
  end.

(** Characters [str.strip()] removes, within ASCII. *)
Definition is_space (a : ascii) : bool :=
  let n := nat_of_ascii a in
  ((9 <=? n)%nat && (n <=? 13)%nat) || ((28 <=? n)%nat && (n <=? 32)%nat).

Definition digit_of (a : ascii) : option Z :=
  let n := nat_of_ascii a in
  if (48 <=? n)%nat && (n <=? 57)%nat then Some (Z.of_nat (n - 48)) else None.

Fixpoint lstrip (s : string) : string :=
  match s with
  | String a s' => if is_space a then lstrip s' else s
  | EmptyString => EmptyString
  end.

(** [true] when only white space is left. *)
Fixpoint all_space (s : string) : bool :=
  match s with
  | EmptyString => true
  | String a s' => is_space a && all_space s'
  end.

(** The digits of a decimal literal, read left to right: [acc] is the value
    so far and [after_digit] says whether the previous character was a digit
    (an underscore is allowed only between two digits).  Trailing white space
    ends the literal. *)
Fixpoint int_digits (acc : Z) (after_digit : bool) (s : string) : option Z :=
  match s with
  | EmptyString => if after_digit then Some acc else None
  | String a s' =>
      match digit_of a with
      | Some d => int_digits (10 * acc + d) true s'
      | None =>
          if Ascii.eqb a "_" then
            if after_digit then
              match s' with
              | String b _ =>
                  match digit_of b with
                  | Some _ => int_digits acc false s'
                  | None => None
                  end
              | EmptyString => None
              end
            else None
          else if after_digit && all_space s then Some acc else None
      end
  end.

(** [int(s)] in base ten: surrounding white space, an optional sign, decimal
    digits with single underscores between them.  [None] is [ValueError]. *)
Definition int (s : string) : option Z :=
  match lstrip s with
  | String "-" s' => Z.opp <$> int_digits 0 false s'
  | String "+" s' => int_digits 0 false s'
  | s' => int_digits 0 false s'
  end.

(** [tuple(map(int, parts))] *)
Fixpoint ints (parts : list string) : option (list Z) :=
  match parts with
  | [] => Some []
  | w :: ws =>
      match int w with
      | Some z => match ints ws with Some zs => Some (z :: zs) | None => None end
      | None => None
      end
  end.

(** [a <= b] on tuples of integers: lexicographic, a proper prefix is
    smaller. *)
Fixpoint tuple_le (a b : list Z) : bool :=
  match a, b with
  | [], _ => true
  | _ :: _, [] => false
  | x :: a', y :: b' =>
      if (x <? y)%Z then true else if (x =? y)%Z then tuple_le a' b' else false
  end.

End PyStr.

(** ** Exceptions and outcomes *)

Inductive exn : Type :=
| IvyException (message : string)      (* raised by [ivy.utils.assertions] *)
| RuntimeError (message : string)
| ValueError (message : string)
| KeyError (key : string)
| ImportError (path : string)
| RecursionError
| ConversionError.                     (* a payload no converter recognises *)

(** How a call ends: it returns, it raises, or it never returns (a thread
    waiting for a lock that is never released). *)
Inductive outcome (A : Type) : Type :=
| Ret (a : A)
| Raise (e : exn)
| Hang.
Arguments Ret {A} a.
Arguments Raise {A} e.
Arguments Hang {A}.

Definition obind {A B : Type} (o : outcome A) (k : A -> outcome B) : outcome B :=
  match o with
  | Ret a => k a
  | Raise e => Raise e
  | Hang => Hang
  end.

(** ** Insertion-ordered dictionaries *)

Module PyDict.

Definition t (K V : Type) : Type := list (K * V).

Section Ops.
Context {K V : Type} `{EqDecision K}.

(** [d.get(k)] *)
Fixpoint get (k : K) (d : t K V) : option V :=
  match d with
  | [] => None
  | (k', v) :: d' => if decide (k = k') then Some v else get k d'
  end.

(** [k in d] *)
Definition mem (k : K) (d : t K V) : bool :=
  match get k d with Some _ => true | None => false end.

(** [d[k] = v]: an existing key keeps its position, a new key goes last. *)
Fixpoint set (k : K) (v : V) (d : t K V) : t K V :=
  match d with
  | [] => [(k, v)]
  | (k', v') :: d' =>
      if decide (k = k') then (k', v) :: d' else (k', v') :: set k v d'
  end.

(** [del d[k]] for a key that is present. *)
Fixpoint del (k : K) (d : t K V) : t K V :=
  match d with
  | [] => []
  | (k', v') :: d' => if decide (k = k') then d' else (k', v') :: del k d'
  end.

Definition keys (d : t K V) : list K := map fst d.

Definition values (d : t K V) : list V := map snd d.

End Ops.

End PyDict.

(** ** The version resolver *)

Definition index (p s : string) : outcome nat :=
  match PyStr.find p s with
  | Some i => Ret i
  | None => Raise (ValueError "substring not found")
  end.

Definition int_tuple (parts : list string) : outcome (list Z) :=
  match PyStr.ints parts with
  | Some t => Ret t
  | None => Raise (ValueError "invalid literal for int() with base 10")
  end.

(** Lines 142-146: the reported version as a tuple of integers, without the
    local part after a [+]. *)
Definition version_tuple (version : string) : outcome (list Z) :=
  match PyStr.find "+" version with
  | Some i => int_tuple (PyStr.split "." (PyStr.take i version))
  | None => int_tuple (PyStr.split "." version)
  end.

(** [fn_name_from_version_specific_fn_name(name, version)]: the canonical
    name when [version] lies in the range [name] declares, [None] otherwise. *)
Definition fn_name_from_version_specific_fn_name (name version : string)
  : outcome (option string) :=
  obind (version_tuple version) (fun version =>
  if PyStr.contains "_to_" name then
    obind (index "_v_" name) (fun i =>
    obind (index "_to_" name) (fun e =>
    obind (int_tuple (PyStr.split "p" (PyStr.slice (i + 3) e name))) (fun version_start =>
    obind (int_tuple (PyStr.split "p" (PyStr.drop (e + 4) name))) (fun version_end =>
    if PyStr.tuple_le version_start version && PyStr.tuple_le version version_end
    then Ret (Some (PyStr.take i name))
    else Ret None))))
  else if PyStr.contains "_and_above" name then
    obind (index "_v_" name) (fun i =>
    obind (index "_and_" name) (fun e =>
    obind (int_tuple (PyStr.split "p" (PyStr.slice (i + 3) e name))) (fun version_start =>
    if PyStr.tuple_le version_start version
    then Ret (Some (PyStr.take i name))
    else Ret None)))
  else
    obind (index "_v_" name) (fun i =>
    obind (index "_and_" name) (fun e =>
    obind (int_tuple (PyStr.split "p" (PyStr.slice (i + 3) e name))) (fun version_start =>
    if PyStr.tuple_le version version_start
    then Ret (Some (PyStr.take i name))
    else Ret None)))).

(** ** Objects, tracked tensors and the process state *)

(** Object identity, [id(x)]. *)
Definition ref : Type := nat.

(** A module or function object, with the attributes the handler reads.
    [o_backend_str], [o_invalid_dtypes] and [o_version] stand for
    [o.current_backend_str()], [o.invalid_dtypes] and [o.__version__]. *)
Record pyobj : Type := {
  o_name : string;                     (* [__name__] *)
  o_file : string;                     (* [__file__] *)
  o_is_module : bool;                  (* [isinstance(o, types.ModuleType)] *)
  o_dict : PyDict.t string ref;              (* [__dict__] *)
  o_backend_str : string;
  o_invalid_dtypes : list string;
  o_version : string
}.

#[global] Instance pyobj_inhabited : Inhabited pyobj :=
  populate {| o_name := ""; o_file := ""; o_is_module := false; o_dict := [];
              o_backend_str := ""; o_invalid_dtypes := []; o_version := "" |}.

Definition with_dict (d : PyDict.t string ref) (o : pyobj) : pyobj :=
  {| o_name := o_name o; o_file := o_file o; o_is_module := o_is_module o;
     o_dict := d; o_backend_str := o_backend_str o;
     o_invalid_dtypes := o_invalid_dtypes o; o_version := o_version o |}.

Definition with_name (n : string) (o : pyobj) : pyobj :=
  {| o_name := n; o_file := o_file o; o_is_module := o_is_module o;
     o_dict := o_dict o; o_backend_str := o_backend_str o;
     o_invalid_dtypes := o_invalid_dtypes o; o_version := o_version o |}.

(** A backend-native array: its identity and [type(x).__module__]. *)
Record native : Type := { n_id : ref; n_class_module : string }.

(** An instance of the library's array class.  [a_initialized] is the truth
    value of [arr.__dict__]; [a_data] is [arr.data]. *)
Record ivy_array : Type := {
  a_initialized : bool;
  a_data : native;
  a_dynamic_backend : bool
}.

(** A leaf of a container's flat list: an array object or a native array. *)
Inductive leaf : Type :=
| LeafArray (a : ivy_array)
| LeafNative (x : native).

(** An instance of the library's container class, by [cont_to_flat_list()]. *)
Record ivy_container : Type := {
  c_leaves : list leaf;
  c_dynamic_backend : bool
}.

Inductive tracked : Type :=
| TArray (a : ivy_array)
| TContainer (c : ivy_container).

(** Values passed to [current_backend]. *)
Inductive pyval : Type :=
| PIvyArray (cls_module : string) (data : pyval)  (* [isinstance(x, ivy.Array)] *)
| PDict (items : list (string * pyval))           (* [isinstance(x, dict)] *)
| PList (xs : list pyval)                         (* [type(x) is list] *)
| PTuple (xs : list pyval)                        (* [type(x) is tuple] *)
| PObj (cls_module : string).                     (* any other object *)

(** [x.__class__.__module__] *)
Definition class_module (x : pyval) : string :=
  match x with
  | PIvyArray m _ => m
  | PDict _ | PList _ | PTuple _ => "builtins"
  | PObj m => m
  end.

(** The argument of [set_backend]: a name or an already imported module. *)
Inductive backend_arg : Type :=
| BName (name : string)
| BModule (module : ref).

(** The collaborators of the handler that live in other files of the
    library: the device and global-attribute registry of the [ivy] package,
    the function wrapper, and the array conversions of the backends. *)
Class Externals : Type := {
  (** the state behind [ivy.set_default_device] and [ivy.set_global_attr] *)
  G : Type;
  set_default_device : string -> G -> G;
  unset_default_device : G -> G;
  set_global_attr : string -> ref -> G -> G;
  del_global_attr : string -> G -> G;
  (** [ivy.functional.backends.jax.random.RNG] *)
  jax_RNG : ref;
  (** [_wrap_function(key, to_wrap, original, compositional)] *)
  _wrap_function : string -> ref -> ref -> bool -> ref;
  (** the default of [_wrap_function]'s [compositional] parameter *)
  compositional_default : bool;
  (** frames left for the recursion of [_set_backend_as_ivy] *)
  recursion_limit : nat;
  (** [ivy.functional.ivy.gradients]: [_is_variable], [_variable_data],
      [_variable] *)
  _is_variable : native -> bool;
  _variable_data : native -> native;
  _variable : native -> native;
  (** [ivy.to_numpy]; [None] when the payload is not recognised *)
  to_numpy : native -> option native;
  (** [backend.asarray] of the backend module at the given reference *)
  asarray : ref -> native -> option native
}.

(** The [ivy] package object. *)
Definition ivy : ref := 0.

Section Handler.
Context {E : Externals}.

Record state : Type := {
  backend_stack : list ref;            (* last = active *)
  implicit_backend : string;
  ivy_original_dict : PyDict.t string ref;
  lock_held : bool;                    (* [ivy.locks["backend_setter"]] *)
  is_local : bool;                     (* [ivy.is_local()] *)
  objects : gmap ref pyobj;            (* the object store *)
  sys_modules : gmap string ref;       (* what [importlib.import_module] finds *)
  globals : G;
  gc_objects : PyDict.t ref tracked    (* [gc.get_objects()], arrays and containers *)
}.

Definition set_backend_stack (s : list ref) (st : state) : state :=
  {| backend_stack := s; implicit_backend := implicit_backend st;
     ivy_original_dict := ivy_original_dict st; lock_held := lock_held st;
     is_local := is_local st; objects := objects st;
     sys_modules := sys_modules st; globals := globals st;
     gc_objects := gc_objects st |}.

Definition set_implicit_backend (s : string) (st : state) : state :=
  {| backend_stack := backend_stack st; implicit_backend := s;
     ivy_original_dict := ivy_original_dict st; lock_held := lock_held st;
     is_local := is_local st; objects := objects st;
     sys_modules := sys_modules st; globals := globals st;
     gc_objects := gc_objects st |}.

Definition set_ivy_original_dict (d : PyDict.t string ref) (st : state) : state :=
  {| backend_stack := backend_stack st; implicit_backend := implicit_backend st;
     ivy_original_dict := d; lock_held := lock_held st;
     is_local := is_local st; objects := objects st;
     sys_modules := sys_modules st; globals := globals st;
     gc_objects := gc_objects st |}.

Definition set_lock_held (b : bool) (st : state) : state :=
  {| backend_stack := backend_stack st; implicit_backend := implicit_backend st;
     ivy_original_dict := ivy_original_dict st; lock_held := b;
     is_local := is_local st; objects := objects st;
     sys_modules := sys_modules st; globals := globals st;
     gc_objects := gc_objects st |}.

Definition set_objects (h : gmap ref pyobj) (st : state) : state :=
  {| backend_stack := backend_stack st; implicit_backend := implicit_backend st;
     ivy_original_dict := ivy_original_dict st; lock_held := lock_held st;
     is_local := is_local st; objects := h;
     sys_modules := sys_modules st; globals := globals st;
     gc_objects := gc_objects st |}.

Definition set_globals (g : G) (st : state) : state :=
  {| backend_stack := backend_stack st; implicit_backend := implicit_backend st;
     ivy_original_dict := ivy_original_dict st; lock_held := lock_held st;
     is_local := is_local st; objects := objects st;
     sys_modules := sys_modules st; globals := g;
     gc_objects := gc_objects st |}.

Definition set_gc_objects (l : PyDict.t ref tracked) (st : state) : state :=
  {| backend_stack := backend_stack st; implicit_backend := implicit_backend st;
     ivy_original_dict := ivy_original_dict st; lock_held := lock_held st;
     is_local := is_local st; objects := objects st;
     sys_modules := sys_modules st; globals := globals st;
     gc_objects := l |}.

(** ** The state-and-exception monad *)

Definition M (A : Type) : Type := state -> outcome A * state.

Definition ret {A : Type} (a : A) : M A := fun st => (Ret a, st).

Definition bind {A B : Type} (m : M A) (k : A -> M B) : M B :=
  fun st =>
    match m st with
    | (Ret a, st') => k a st'
    | (Raise e, st') => (Raise e, st')
    | (Hang, st') => (Hang, st')
    end.

Definition raise {A : Type} (e : exn) : M A := fun st => (Raise e, st).

Definition gets {A : Type} (f : state -> A) : M A := fun st => (Ret (f st), st).

Definition modify (f : state -> state) : M unit := fun st => (Ret tt, f st).

(** A pure computation that may raise. *)
Definition lift {A : Type} (o : outcome A) : M A := fun st => (o, st).

End Handler.

Notation "x <- c ;; k" := (bind c (fun x => k))
  (at level 100, c at next level, right associativity).
Notation "c ;;; k" := (bind c (fun _ => k))
  (at level 100, right associativity).

(** ** Registry tables (lines 36-61) *)

Definition _array_types : PyDict.t string string :=
  [ ("numpy", "ivy.functional.backends.numpy");
    ("jax.interpreters.xla", "ivy.functional.backends.jax");
    ("jaxlib.xla_extension", "ivy.functional.backends.jax");
    ("tensorflow.python.framework.ops", "ivy.functional.backends.tensorflow");
    ("tensorflow.python.ops.resource_variable_ops", "ivy.functional.backends.tensorflow");
    ("torch", "ivy.functional.backends.torch");
    ("torch.nn.parameter", "ivy.functional.backends.torch");
    ("mindspore", "ivy.functional.backends.mindspore");
    ("mindspore.common.tensor", "ivy.functional.backends.mindspore") ].

Definition _backend_dict : PyDict.t string string :=
  [ ("numpy", "ivy.functional.backends.numpy");
    ("jax", "ivy.functional.backends.jax");
    ("tensorflow", "ivy.functional.backends.tensorflow");
    ("torch", "ivy.functional.backends.torch");
    ("mindspore", "ivy.functional.backends.mindspore") ].

Definition _backend_reverse_dict : PyDict.t string string :=
  [ ("ivy.functional.backends.numpy", "numpy");
    ("ivy.functional.backends.jax", "jax");
    ("ivy.functional.backends.tensorflow", "tensorflow");
    ("ivy.functional.backends.torch", "torch");
    ("ivy.functional.backends.mindspore", "mindspore") ].

(** ** The handler *)

Section HandlerCode.
Context {E : Externals}.

Definition obj (r : ref) (st : state) : pyobj := objects st !!! r.

(** [r.__dict__], read now. *)
Definition dict_of (r : ref) : M (PyDict.t string ref) :=
  gets (fun st => o_dict (obj r st)).

Definition update_obj (r : ref) (f : pyobj -> pyobj) (st : state) : state :=
  set_objects (<[r := f (obj r st)]> (objects st)) st.

(** [r.__dict__[k] = v] *)
Definition setitem (r : ref) (k : string) (v : ref) : M unit :=
  modify (update_obj r (fun o => with_dict (PyDict.set k v (o_dict o)) o)).

(** [del r.__dict__[k]] *)
Definition delitem (r : ref) (k : string) : M unit :=
  modify (update_obj r (fun o => with_dict (PyDict.del k (o_dict o)) o)).

(** [importlib.import_module(path)]: the module installed under [path]. *)
Definition import_module (path : string) : M ref :=
  fun st =>
    match sys_modules st !! path with
    | Some r => (Ret r, st)
    | None => (Raise (ImportError path), st)
    end.

(** [for x in l: body(x)] *)
Fixpoint for_each {A : Type} (l : list A) (body : A -> M unit) : M unit :=
  match l with
  | [] => ret tt
  | x :: l' => body x ;;; for_each l' body
  end.

(** Lines 67-74. *)
Definition prevent_access_locally {A : Type} (fn_name : string) (fn : M A) : M A :=
  loc <- gets is_local ;;
  if loc then raise (RuntimeError ("Calling " +:+ fn_name +:+ " is not allowed on this object."))
  else fn.

(** The last branch of [_determine_backend_from_args] (lines 119-122). *)
Definition backend_of_class_module (m : string) : M (option ref) :=
  match PyDict.get m _array_types with
  | Some module_name => r <- import_module module_name ;; ret (Some r)
  | None => ret None
  end.

(** [_determine_backend_from_args(args)] (lines 101-122).  [type(args)] is
    taken before an array object is replaced by its data, so the data of an
    array object is searched as a sequence never, as a dictionary when it is
    one, and by its class otherwise. *)
Fixpoint _determine_backend_from_args (args : pyval) : M (option ref) :=
  let over_values :=
    fix over_values (items : list (string * pyval)) : M (option ref) :=
      match items with
      | [] => ret None
      | (_, value) :: rest =>
          lib <- _determine_backend_from_args value ;;
          match lib with
          | Some f => ret (Some f)
          | None => over_values rest
          end
      end in
  let over_elements :=
    fix over_elements (xs : list pyval) : M (option ref) :=
      match xs with
      | [] => ret None
      | arg :: rest =>
          lib <- _determine_backend_from_args arg ;;
          match lib with
          | Some f => ret (Some f)
          | None => over_elements rest
          end
      end in
  match args with
  | PIvyArray _ (PDict items) => over_values items
  | PIvyArray _ data => backend_of_class_module (class_module data)
  | PDict items => over_values items
  | PList xs => over_elements xs
  | PTuple xs => over_elements xs
  | PObj m => backend_of_class_module m
  end.

(** [current_backend] on its positional and keyword arguments (lines 230-249). *)
Definition current_backend (args : list pyval) (kwargs : list (string * pyval)) : M ref :=
  loc <- gets is_local ;;
  if loc then ret ivy
  else
    stack <- gets backend_stack ;;
    match last stack with
    | Some f => ret f
    | None =>
        f <- _determine_backend_from_args (PList (args ++ map snd kwargs)) ;;
        match f with
        | Some f =>
            s <- gets (fun st => o_backend_str (obj f st)) ;;
            modify (set_implicit_backend s) ;;;
            ret f
        | None =>
            name <- gets implicit_backend ;;
            match PyDict.get name _backend_dict with
            | Some path => import_module path
            | None => raise (KeyError name)
            end
        end
    end.

(** One turn of the loop of [set_backend_to_specific_version] (lines
    190-194); [if orig_name] holds for a name that is neither [None] nor
    empty. *)
Definition bind_version_specific (backend : ref) (f_version key : string) : M unit :=
  if PyStr.contains "_v_" key then
    orig_name <- lift (fn_name_from_version_specific_fn_name key f_version) ;;
    match orig_name with
    | Some (String a n) =>
        let orig_name := String a n in
        d <- dict_of backend ;;
        match PyDict.get key d with
        | Some v =>
            setitem backend orig_name v ;;;
            modify (update_obj v (with_name orig_name))
        | None => raise (KeyError key)
        end
    | _ => ret tt
    end
  else ret tt.

(** [set_backend_to_specific_version(backend)] (lines 183-194). *)
Definition set_backend_to_specific_version (backend : ref) : M unit :=
  f <- gets (fun st => o_name (obj backend st)) ;;
  i <- lift (index "backends" f) ;;
  f <- import_module (PyStr.drop (i + 9) f) ;;
  f_version <- gets (fun st => o_version (obj f st)) ;;
  keys <- dict_of backend ;;
  for_each (PyDict.keys keys) (bind_version_specific backend f_version).

(** The dictionary a rebinding pass walks: a copy of its own, or the live
    [__dict__] of an object. *)
Inductive dict_src : Type :=
| Detached (d : PyDict.t string ref)
| Live (r : ref).

(** [for k, v in r.__dict__.items(): body(k, v)] over a dictionary the body
    may change: values are read when their turn comes, and a change of size
    ends the loop with [RuntimeError]. *)
Definition for_live_items (r : ref) (body : string -> ref -> M unit) : M unit :=
  d0 <- dict_of r ;;
  for_each (PyDict.keys d0) (fun k =>
    d <- dict_of r ;;
    if Nat.eqb (length d) (length d0) then
      match PyDict.get k d with
      | Some v => body k v
      | None => raise (RuntimeError "dictionary keys changed during iteration")
      end
    else raise (RuntimeError "dictionary changed size during iteration")) ;;;
  d <- dict_of r ;;
  if Nat.eqb (length d) (length d0) then ret tt
  else raise (RuntimeError "dictionary changed size during iteration").

Definition for_items (src : dict_src) (body : string -> ref -> M unit) : M unit :=
  match src with
  | Detached d => for_each d (fun kv => body (fst kv) (snd kv))
  | Live r => for_live_items r body
  end.

(** One turn of the loop of [_set_backend_as_ivy] (lines 260-280); [nested]
    is the recursive call. *)
Definition rebind_entry
    (nested : dict_src -> ref -> ref -> option (list string) -> option string -> M unit)
    (target backend : ref) (invalid_dtypes : list string) (backend_str : string)
    (k : string) (v : ref) : M unit :=
  bd <- dict_of backend ;;
  let compositional := negb (PyDict.mem k bd) in
  td <- dict_of target ;;
  if negb (PyDict.mem k bd) && bool_decide (k ∈ invalid_dtypes) && PyDict.mem k td then
    delitem target k
  else
    (if negb (PyDict.mem k bd) then setitem backend k v else ret tt) ;;;
    bd <- dict_of backend ;;
    match PyDict.get k bd with
    | None => raise (KeyError k)
    | Some to_wrap =>
        setitem target k (_wrap_function k to_wrap v compositional) ;;;
        vo <- gets (obj v) ;;
        if o_is_module vo
           && PyStr.contains "ivy.functional." (o_name vo)
           && negb (PyStr.contains (backend_str +:+ "/__init__.py") (o_file vo))
        then
          td <- dict_of target ;;
          bd <- dict_of backend ;;
          match PyDict.get k td, PyDict.get k bd with
          | Some target', Some backend' =>
              nested (Live v) target' backend' (Some invalid_dtypes) (Some backend_str)
          | _, _ => raise (KeyError k)
          end
        else ret tt
    end.

(** [_set_backend_as_ivy(original_dict, target, backend, invalid_dtypes,
    backend_str)] (lines 252-280); [depth] counts the frames left. *)
Fixpoint _set_backend_as_ivy (depth : nat) (original_dict : dict_src)
    (target backend : ref) (invalid_dtypes : option (list string))
    (backend_str : option string) : M unit :=
  match depth with
  | O => raise RecursionError
  | S depth' =>
      invalid_dtypes <-
        match invalid_dtypes with
        | None => gets (fun st => o_invalid_dtypes (obj backend st))
        | Some l => ret l
        end ;;
      backend_str <-
        match backend_str with
        | None => gets (fun st => o_backend_str (obj backend st))
        | Some s => ret s
        end ;;
      for_items original_dict
        (rebind_entry (_set_backend_as_ivy depth') target backend invalid_dtypes backend_str)
  end.

(** *** The dynamic backend converter *)

Definition arrays_of (gc : PyDict.t ref tracked) : list (ref * ivy_array) :=
  omap (fun o => match snd o with TArray a => Some (fst o, a) | TContainer _ => None end) gc.

Definition containers_of (gc : PyDict.t ref tracked) : list (ref * ivy_container) :=
  omap (fun o => match snd o with TContainer c => Some (fst o, c) | TArray _ => None end) gc.

(** [item.data if isinstance(item, ivy.Array) else item] *)
Definition leaf_native (item : leaf) : native :=
  match item with
  | LeafArray a => a_data a
  | LeafNative x => x
  end.

(** [_remove_intermediate_arrays(arr_list, cont_list)] (lines 320-335): the
    arrays whose payload is no leaf of a container, one per payload. *)
Definition _remove_intermediate_arrays
    (arr_list : list (ref * ivy_array)) (cont_list : list (ref * ivy_container))
  : list (ref * ivy_array) :=
  let cont_list := map (fun cont => c_leaves (snd cont)) cont_list in
  let cont_ids := flat_map (fun cont => map (fun item => n_id (leaf_native item)) cont) cont_list in
  let arr_ids := map (fun item => n_id (a_data (snd item))) arr_list in
  let new_objs :=
    fold_left
      (fun (d : PyDict.t ref (ref * ivy_array)) kv =>
         if bool_decide (fst kv ∈ cont_ids) then d else PyDict.set (fst kv) (snd kv) d)
      (zip arr_ids arr_list) [] in
  PyDict.values new_objs.

(** [_map_fn] and the array branch of [_is_var] (lines 297-318). *)
Definition _map_fn (x : native) : bool :=
  if bool_decide (n_class_module x ∈ ["numpy"; "jax.interpreters.xla"; "jaxlib.xla_extension"])
  then false
  else _is_variable x.

(** [_is_var(obj)] (lines 294-318). *)
Definition _is_var (obj : tracked) : bool :=
  match obj with
  | TContainer c => forallb (fun x => _map_fn (leaf_native x)) (c_leaves c)
  | TArray a => _map_fn (a_data a)
  end.

Definition dynamic_backend (obj : tracked) : bool :=
  match obj with
  | TArray a => a_dynamic_backend a
  | TContainer c => c_dynamic_backend c
  end.

Fixpoint map_M {A B : Type} (f : A -> M B) (l : list A) : M (list B) :=
  match l with
  | [] => ret []
  | x :: l' => y <- f x ;; ys <- map_M f l' ;; ret (y :: ys)
  end.

(** The payload of a tracked object replaced, leaf by leaf, by [conv] of it;
    nothing is stored when a conversion raises. *)
Definition convert_in_place (conv : native -> M native) (r : ref) (obj : tracked) : M unit :=
  match obj with
  | TArray a =>
      y <- conv (a_data a) ;;
      modify (fun st => set_gc_objects
        (PyDict.set r (TArray {| a_initialized := a_initialized a; a_data := y;
                                 a_dynamic_backend := a_dynamic_backend a |})
                    (gc_objects st)) st)
  | TContainer c =>
      ys <- map_M (fun item => conv (leaf_native item)) (c_leaves c) ;;
      modify (fun st => set_gc_objects
        (PyDict.set r (TContainer {| c_leaves := map LeafNative ys;
                                     c_dynamic_backend := c_dynamic_backend c |})
                    (gc_objects st)) st)
  end.

(** The result of a conversion, or the error of an unrecognised payload. *)
Definition converted (o : option native) : M native :=
  match o with
  | Some y => ret y
  | None => raise ConversionError
  end.

Definition tracked_object (r : ref) : M tracked :=
  o <- gets (fun st => PyDict.get r (gc_objects st)) ;;
  match o with
  | Some obj => ret obj
  | None => raise (RuntimeError "object is not alive")
  end.

(** The loop of lines 352-367 over the references [new_objs]. *)
Fixpoint export_loop (new_objs : list ref) (variable_ids numpy_objs : list ref)
  : M (list ref * list ref) :=
  match new_objs with
  | [] => ret (variable_ids, numpy_objs)
  | r :: rest =>
      obj <- tracked_object r ;;
      if dynamic_backend obj then
        let numpy_objs := numpy_objs ++ [r] in
        if _is_var obj then
          let variable_ids :=
            if bool_decide (r ∈ variable_ids) then variable_ids else variable_ids ++ [r] in
          convert_in_place (fun x => converted (to_numpy (_variable_data x))) r obj ;;;
          export_loop rest variable_ids numpy_objs
        else
          convert_in_place (fun x => converted (to_numpy x)) r obj ;;;
          export_loop rest variable_ids numpy_objs
      else export_loop rest variable_ids numpy_objs
  end.

(** The objects the export phase visits (lines 338-348): the arrays that
    [_remove_intermediate_arrays] keeps, then every container. *)
Definition export_candidates (gc : PyDict.t ref tracked) : list ref :=
  let array_list := arrays_of gc in
  let container_list := containers_of gc in
  let array_list := filter (fun arr => a_initialized (snd arr) = true) array_list in
  let new_objs := _remove_intermediate_arrays array_list container_list in
  map fst new_objs ++ map fst container_list.

(** [convert_from_source_backend_to_numpy(variable_ids, numpy_objs)] (lines
    290-369). *)
Definition convert_from_source_backend_to_numpy (variable_ids numpy_objs : list ref)
  : M (list ref * list ref) :=
  gc <- gets gc_objects ;;
  export_loop (export_candidates gc) variable_ids numpy_objs.

(** [convert_from_numpy_to_target_backend(variable_ids, numpy_objs)] (lines
    372-395). *)
Definition convert_from_numpy_to_target_backend (variable_ids numpy_objs : list ref)
  : M unit :=
  for_each numpy_objs (fun r =>
    obj <- tracked_object r ;;
    f <- current_backend [] [] ;;
    convert_in_place
      (fun x => converted
         ((fun y => if bool_decide (r ∈ variable_ids) then _variable y else y)
            <$> asarray f x)) r obj).

(** *** The backend stack *)

(** The device and random-generator registration of a backend that becomes
    active (lines 447-450 and 592-595). *)
Definition register_backend_globals (backend_str : string) : M unit :=
  if decide (backend_str = "numpy") then
    modify (fun st => set_globals (set_default_device "cpu" (globals st)) st)
  else if decide (backend_str = "jax") then
    modify (fun st => set_globals (set_global_attr "RNG" jax_RNG (globals st)) st)
  else ret tt.

(** [unset_backend] after the pop (lines 583-605): the registrations of the
    popped and of the new active backend, then the public namespace rebound
    to the new active backend, or to the snapshot when none is left. *)
Definition restore_namespace (backend : ref) : M unit :=
  s <- gets (fun st => o_backend_str (obj backend st)) ;;
  (if decide (s = "numpy") then
     modify (fun st => set_globals (unset_default_device (globals st)) st)
   else if decide (s = "jax") then
     modify (fun st => set_globals (del_global_attr "RNG" (globals st)) st)
   else ret tt) ;;;
  stack <- gets backend_stack ;;
  (match last stack with
   | Some new_backend =>
       s <- gets (fun st => o_backend_str (obj new_backend st)) ;;
       register_backend_globals s
   | None => ret tt
   end) ;;;
  new_backend_dict <-
    match last stack with
    | Some new_backend => dict_of new_backend
    | None => gets ivy_original_dict
    end ;;
  for_each new_backend_dict (fun kv =>
    original <- gets ivy_original_dict ;;
    match PyDict.get (fst kv) original with
    | Some orig =>
        let v :=
          match last stack with
          | Some _ => _wrap_function (fst kv) (snd kv) orig compositional_default
          | None => snd kv
          end in
        setitem ivy (fst kv) v
    | None => ret tt
    end).

(** The body of [unset_backend] (lines 579-608). *)
Definition unset_backend_body : M (option ref) :=
  stack <- gets backend_stack ;;
  match last stack with
  | None => ret None
  | Some backend =>
      modify (set_backend_stack (removelast stack)) ;;;
      restore_namespace backend ;;;
      ret (Some backend)
  end.

Definition unset_backend : M (option ref) :=
  prevent_access_locally "unset_backend" unset_backend_body.

(** [while backend_stack: temp_stack.append(unset_backend())] (lines
    442-443).  Every turn pops one entry, so [fuel] turns are enough when
    [fuel] is the height of the stack. *)
Fixpoint unwind_stack (fuel : nat) (temp_stack : list ref) : M (list ref) :=
  stack <- gets backend_stack ;;
  match stack with
  | [] => ret temp_stack
  | _ :: _ =>
      match fuel with
      | O => lift Hang
      | S fuel' =>
          fw <- unset_backend ;;
          match fw with
          | Some fw => unwind_stack fuel' (temp_stack ++ [fw])
          | None => unwind_stack fuel' temp_stack
          end
      end
  end.

(** [clear_backend_stack()] (lines 611-614). *)
Definition clear_backend_stack : M unit :=
  prevent_access_locally "clear_backend_stack"
    (stack <- gets backend_stack ;;
     unwind_stack (length stack) [] ;;; ret tt).

(** Modelled from the spec: [ivy.locks] is not part of the handler; the
    backend-setter lock is a process-wide mutual-exclusion lock that is not
    re-entrant, so acquiring it while it is held never returns. *)
Definition acquire : M unit :=
  fun st => if lock_held st then (Hang, st) else (Ret tt, set_lock_held true st).

Definition release : M unit :=
  fun st =>
    if lock_held st then (Ret tt, set_lock_held false st)
    else (Raise (RuntimeError "release unlocked lock"), st).

(** [str(list(d.keys()))] *)
Definition repr_keys (d : PyDict.t string string) : string :=
  "[" +:+ String.concat ", " (map (fun k => "'" +:+ k +:+ "'") (PyDict.keys d)) +:+ "]".

(** The exception of the registry check of [set_backend] (lines 421-424),
    which the spec names [InvalidBackendError]. *)
Definition InvalidBackendError : exn :=
  IvyException ("backend must be one from " +:+ repr_keys _backend_dict).

(** Modelled from the spec: [ivy.utils.assertions.check_false] is not part
    of the handler; it raises the error of its message when [expression]
    holds. *)
Definition check_false (expression : bool) (e : exn) : M unit :=
  if expression then raise e else ret tt.

(** [set_backend] before the critical section (lines 421-433): the registry
    check and the export phase. *)
Definition set_backend_export (backend : backend_arg) (dynamic : bool)
  : M (list ref * list ref) :=
  check_false
    (match backend with
     | BName name => negb (PyDict.mem name _backend_dict)
     | BModule _ => false
     end) InvalidBackendError ;;;
  let variable_ids : list ref := [] in
  let numpy_objs : list ref := [] in
  if dynamic then convert_from_source_backend_to_numpy variable_ids numpy_objs
  else ret (variable_ids, numpy_objs).

(** [set_backend] inside the critical section, first part (lines 437-451):
    the snapshot, the unwinding and replay of the stack around the import of
    the requested module, its registrations, and the push. *)
Definition set_backend_push (backend : backend_arg) : M ref :=
  stack <- gets backend_stack ;;
  (match stack with
   | [] => modify (fun st => set_ivy_original_dict (o_dict (obj ivy st)) st)
   | _ :: _ => ret tt
   end) ;;;
  backend <-
    match backend with
    | BName name =>
        stack <- gets backend_stack ;;
        temp_stack <- unwind_stack (length stack) [] ;;
        backend <-
          match PyDict.get name _backend_dict with
          | Some path => import_module path
          | None => raise (KeyError name)
          end ;;
        modify (fun st => set_backend_stack (backend_stack st ++ rev temp_stack) st) ;;;
        ret backend
    | BModule m => ret m
    end ;;
  s <- gets (fun st => o_backend_str (obj backend st)) ;;
  register_backend_globals s ;;;
  modify (fun st => set_backend_stack (backend_stack st ++ [backend]) st) ;;;
  ret backend.

(** [set_backend] inside the critical section, second part (lines 452-456):
    version resolution, the rebinding of the public namespace, and the
    import phase of a dynamic switch. *)
Definition set_backend_rebind (backend : ref) (dynamic : bool)
    (variable_ids numpy_objs : list ref) : M unit :=
  set_backend_to_specific_version backend ;;;
  original <- gets ivy_original_dict ;;
  _set_backend_as_ivy recursion_limit (Detached original) ivy backend None None ;;;
  if dynamic then convert_from_numpy_to_target_backend variable_ids numpy_objs
  else ret tt.

(** [set_backend(backend, dynamic)] (lines 398-460). *)
Definition set_backend (backend : backend_arg) (dynamic : bool) : M unit :=
  prevent_access_locally "set_backend"
    (exported <- set_backend_export backend dynamic ;;
     acquire ;;;
     module <- set_backend_push backend ;;
     set_backend_rebind module dynamic (fst exported) (snd exported) ;;;
     release).

(** [np.random.choice(a)] on a list, [draw] being the random number behind
    the choice; an empty list is refused. *)
Definition random_choice (draw : nat) (a : list string) : M string :=
  match a with
  | [] => raise (ValueError "a must be non-empty")
  | x :: _ => ret (nth (draw mod length a) a x)
  end.

(** [choose_random_backend(excluded)] (lines 617-636).  The choice is one of
    the registry's keys and so never [None]: the loop returns in its first
    turn. *)
Definition choose_random_backend (draw : nat) (excluded : list string) : M string :=
  prevent_access_locally "choose_random_backend"
    (check_false (Nat.eqb (length excluded) 4)
       (IvyException
          "Unable to select backend, all backends are excluded,            or not installed.") ;;;
     random_choice draw
       (filter (fun f_srt => f_srt ∉ excluded) (PyDict.keys _backend_dict))).

End HandlerCode.

(** ** The rest of the handler *)

Section HandlerRest.
Context {E : Externals}.

(** [ContextManager] (lines 25-33): [__enter__] sets the module as the
    backend, [__exit__] unsets the top of the stack and returns [None], so an
    exception of the body propagates. *)
Record ContextManager : Type := { module : backend_arg }.

Definition __enter__ (self : ContextManager) : M unit :=
  set_backend (module self) false.

Definition __exit__ (self : ContextManager) (exc : option exn) : M unit :=
  unset_backend ;;; ret tt.

(** Lines 463-491. *)
Definition set_numpy_backend : M unit := set_backend (BName "numpy") false.
Definition set_jax_backend : M unit := set_backend (BName "jax") false.
Definition set_tensorflow_backend : M unit := set_backend (BName "tensorflow") false.
Definition set_torch_backend : M unit := set_backend (BName "torch") false.
Definition set_mindspore_backend : M unit := set_backend (BName "mindspore") false.

(** What [get_backend] returns: a module, or a string. *)
Inductive module_or_str : Type :=
| AModule (m : ref)
| AStr (s : string).

(** The loop of lines 541-543: the names of the snapshot that [backend]
    lacks are added to its namespace. *)
Definition fill_from_original (backend : ref) : M unit :=
  original <- gets ivy_original_dict ;;
  for_each original (fun kv =>
    bd <- dict_of backend ;;
    if PyDict.mem (fst kv) bd then ret tt else setitem backend (fst kv) (snd kv)).

(** [get_backend(backend)] (lines 528-544).  [ivy.current_backend] is the
    handler's [current_backend], which the package exports. *)
Definition get_backend (backend : option backend_arg) : M module_or_str :=
  loc <- gets is_local ;;
  if loc then ret (AModule ivy)
  else
    stack <- gets backend_stack ;;
    (match stack with
     | [] => modify (fun st => set_ivy_original_dict (o_dict (obj ivy st)) st)
     | _ :: _ => ret tt
     end) ;;;
    match backend with
    | None =>
        backend <- current_backend [] [] ;;
        stack <- gets backend_stack ;;
        match stack with
        | [] => ret (AStr "")
        | _ :: _ => fill_from_original backend ;;; ret (AModule backend)
        end
    | Some (BName name) =>
        backend <-
          match PyDict.get name _backend_dict with
          | Some path => import_module path
          | None => raise (KeyError name)
          end ;;
        fill_from_original backend ;;; ret (AModule backend)
    | Some (BModule m) => fill_from_original m ;;; ret (AModule m)
    end.

End HandlerRest.

(** * A small installation for the examples

    Two backends are installed, torch and numpy, with their frameworks; the
    public namespace has three names; three tensors are alive. *)

Module Examples.

(** Collaborators for the examples: the registry of the package is a log of
    the calls made to it, a wrapper is a new object whose identity encodes
    what it wraps, and a converted payload is a new payload whose identity
    encodes its source.  The backend at reference 40 recognises no payload. *)
Definition demo_externals : Externals := {|
  G := list string;
  set_default_device := fun d g => g ++ ["set_default_device " +:+ d];
  unset_default_device := fun g => g ++ ["unset_default_device"];
  set_global_attr := fun n _ g => g ++ ["set_global_attr " +:+ n];
  del_global_attr := fun n g => g ++ ["del_global_attr " +:+ n];
  jax_RNG := 99;
  _wrap_function := fun _ to_wrap _ c => 100 + 2 * to_wrap + (if c then 1 else 0);
  compositional_default := false;
  recursion_limit := 50;
  _is_variable := fun _ => false;
  _variable_data := fun x => x;
  _variable := fun x => x;
  to_numpy := fun x => Some {| n_id := 1000 + n_id x; n_class_module := "numpy" |};
  asarray := fun b x =>
    if decide (b = 40) then None
    else Some {| n_id := 2000 + n_id x; n_class_module := "native" |}
|}.

#[local] Existing Instance demo_externals.

Definition module_object (name : string) (d : PyDict.t string ref) (backend_str : string)
    (invalid_dtypes : list string) (version : string) : pyobj :=
  {| o_name := name; o_file := "/ivy/" +:+ name +:+ "/__init__.py"; o_is_module := true;
     o_dict := d; o_backend_str := backend_str; o_invalid_dtypes := invalid_dtypes;
     o_version := version |}.

Definition array_object (payload : ref) (class_module : string) (dynamic : bool) : tracked :=
  TArray {| a_initialized := true;
            a_data := {| n_id := payload; n_class_module := class_module |};
            a_dynamic_backend := dynamic |}.

(** The torch backend declares two version-specific implementations of
    [op]; [torch_version] is what the framework reports.  The array 50 shares
    its payload 60 with the container 51, whose flag is not set. *)
Definition installation (torch_version : string) : state := {|
  backend_stack := [];
  implicit_backend := "numpy";
  ivy_original_dict := [];
  lock_held := false;
  is_local := false;
  objects := list_to_map [
    (ivy, module_object "ivy" [("add", 1); ("uint16", 2); ("mul", 3)] "" [] "");
    (10, module_object "ivy.functional.backends.numpy" [("add", 11)] "numpy" ["bfloat16"] "");
    (20, module_object "ivy.functional.backends.torch"
           [("add", 21); ("op_v_1p0_to_1p5", 22); ("op_v_1p6_and_above", 23)]
           "torch" ["uint16"] "");
    (40, module_object "ivy.functional.backends.mindspore" [("add", 41)] "mindspore" [] "");
    (31, module_object "numpy" [] "" [] "1.24.0");
    (32, module_object "torch" [] "" [] torch_version);
    (33, module_object "mindspore" [] "" [] "2.0.0")
  ];
  sys_modules := list_to_map [
    ("ivy.functional.backends.numpy", 10); ("ivy.functional.backends.torch", 20);
    ("ivy.functional.backends.mindspore", 40);
    ("numpy", 31); ("torch", 32); ("mindspore", 33)
  ];
  globals := [];
  gc_objects := [
    (50, array_object 60 "numpy" true);
    (51, TContainer {| c_leaves := [LeafNative {| n_id := 60; n_class_module := "numpy" |}];
                       c_dynamic_backend := false |});
    (52, array_object 61 "numpy" true)
  ]
|}.

Definition start : state := installation "2.0.0+cu118".

End Examples.

(** * More states for the examples *)

Module MoreExamples.
Import Examples.
#[local] Existing Instance demo_externals.

(** The example installation seen from a local package. *)
Definition local_start : state := {|
  backend_stack := backend_stack start;
  implicit_backend := implicit_backend start;
  ivy_original_dict := ivy_original_dict start;
  lock_held := lock_held start;
  is_local := true;
  objects := objects start;
  sys_modules := sys_modules start;
  globals := globals start;
  gc_objects := gc_objects start
|}.

(** The installation after [set_backend("torch")], and after
    [set_backend("numpy")] on top of it. *)
Definition torch_set : state := (set_backend (BName "torch") false start).2.

Definition numpy_on_torch : state := (set_backend (BName "numpy") false torch_set).2.

(** Two more backend modules: the module 45 has a name with [_v_] and no
    range; the framework of the module 47 is not installed. *)
Definition odd_backends : state :=
  set_objects
    (<[45 := module_object "ivy.functional.backends.numpy" [("op_v_2", 46)] "numpy" [] ""]>
       (<[47 := module_object "ivy.functional.backends.jax" [] "jax" [] ""]>
          (objects start)))
    start.

(** Two array objects on one payload. *)
Definition twins : state :=
  set_gc_objects [(50, array_object 60 "numpy" true); (53, array_object 60 "numpy" true)] start.

(** No tracked object has its flag set. *)
Definition all_static : state :=
  set_gc_objects
    [(50, array_object 60 "numpy" false);
     (51, TContainer {| c_leaves := [LeafNative {| n_id := 61; n_class_module := "numpy" |}];
                        c_dynamic_backend := false |})]
    start.

End MoreExamples.

(** * Vocabulary of the properties *)

Section Vocabulary.
Context {E : Externals}.

(** [frame P m]: from a state in [P], [m] ends, by returning or raising, and
    in a state in [P]. *)
Definition frame {A : Type} (P : state -> Prop) (m : M A) : Prop :=
  forall st, P st -> P (m st).2 /\ (m st).1 <> Hang.

(** [runs P m]: from a state in [P], [m] returns, in a state in [P]. *)
Definition runs {A : Type} (P : state -> Prop) (m : M A) : Prop :=
  forall st, P st -> exists a st', m st = (Ret a, st') /\ P st'.

(** A function on objects that touches [__dict__] and [__name__] only. *)
Definition keeps_attrs (f : pyobj -> pyobj) : Prop :=
  forall o, o_backend_str (f o) = o_backend_str o /\
            o_invalid_dtypes (f o) = o_invalid_dtypes o.

(** Predicates on the state that do not look at the namespaces, the device
    and attribute registry, or the tracked tensors. *)
Record closed (P : state -> Prop) : Prop := {
  closed_obj : forall st r f, keeps_attrs f -> P st -> P (update_obj r f st);
  closed_globals : forall st g, P st -> P (set_globals g st);
  closed_gc : forall st l, P st -> P (set_gc_objects l st)
}.

Definition gc_closed (P : state -> Prop) : Prop :=
  forall st l, P st -> P (set_gc_objects l st).

Definition stack_closed (P : state -> Prop) : Prop :=
  forall st s, P st -> P (set_backend_stack s st).

Definition original_closed (P : state -> Prop) : Prop :=
  forall st d, P st -> P (set_ivy_original_dict d st).

(** [post m st Q]: running [m] from [st] ends in an outcome and a state that
    satisfy [Q]. *)
Definition post {A : Type} (m : M A) (st : state) (Q : outcome A -> state -> Prop) : Prop :=
  Q (m st).1 (m st).2.

(** The module a [set_backend] argument stands for, given what is
    installed. *)
Definition resolves (sm : gmap string ref) (backend : backend_arg) (m : ref) : Prop :=
  match backend with
  | BName name =>
      exists path, PyDict.get name _backend_dict = Some path /\ sm !! path = Some m
  | BModule m' => m = m'
  end.

(** [same_env st0 l st]: [st] is a state of the global package with the
    installed modules, the implicit backend and the backend attributes of
    [st0], and with the lock in state [l]. *)
Definition same_env (st0 : state) (l : bool) (st : state) : Prop :=
  is_local st = false /\
  sys_modules st = sys_modules st0 /\
  implicit_backend st = implicit_backend st0 /\
  lock_held st = l /\
  forall r, o_backend_str (obj r st) = o_backend_str (obj r st0) /\
            o_invalid_dtypes (obj r st) = o_invalid_dtypes (obj r st0).

(** [set_backend] called for each name of [calls], in order. *)
Definition set_backends (calls : list (string * bool)) : M unit :=
  for_each calls (fun c => set_backend (BName (fst c)) (snd c)).

(** [unset_backend] called [k] times; the list of what the calls returned. *)
Fixpoint unset_backends (k : nat) : M (list (option ref)) :=
  match k with
  | O => ret []
  | S k' => b <- unset_backend ;; bs <- unset_backends k' ;; ret (b :: bs)
  end.

(** [current_backend()] called [n] times; the list of what the calls
    returned. *)
Fixpoint current_backends (n : nat) : M (list ref) :=
  match n with
  | O => ret []
  | S n' => f <- current_backend [] [] ;; fs <- current_backends n' ;; ret (f :: fs)
  end.

(** The leaf identities [_remove_intermediate_arrays] compares with. *)
Definition cont_ids (cont_list : list (ref * ivy_container)) : list ref :=
  flat_map (fun cont => map (fun item => n_id (leaf_native item)) cont)
           (map (fun cont => c_leaves (snd cont)) cont_list).

(** The dictionary [new_objs] of [_remove_intermediate_arrays], by the
    entries seen so far. *)
Definition new_objs_from (ids : list ref) (pairs : list (ref * (ref * ivy_array)))
    (d : PyDict.t ref (ref * ivy_array)) : PyDict.t ref (ref * ivy_array) :=
  fold_left
    (fun (d : PyDict.t ref (ref * ivy_array)) kv =>
       if bool_decide (fst kv ∈ ids) then d else PyDict.set (fst kv) (snd kv) d)
    pairs d.

(** [dynamic_at gc r]: the object at [r] has its [dynamic_backend] flag set. *)
Definition dynamic_at (gc : PyDict.t ref tracked) (r : ref) : bool :=
  match PyDict.get r gc with
  | Some obj => dynamic_backend obj
  | None => false
  end.

(** The conversion the export phase applies to the payloads of [obj]. *)
Definition export_conversion (obj : tracked) (x : native) : option native :=
  if _is_var obj then to_numpy (_variable_data x) else to_numpy x.

(** [exported obj obj']: [obj'] is [obj] with the payload of every leaf
    replaced by its conversion. *)
Definition exported (obj obj' : tracked) : Prop :=
  match obj, obj' with
  | TArray a, TArray a' =>
      a_initialized a' = a_initialized a /\
      a_dynamic_backend a' = a_dynamic_backend a /\
      export_conversion obj (a_data a) = Some (a_data a')
  | TContainer c, TContainer c' =>
      c_dynamic_backend c' = c_dynamic_backend c /\
      exists ys, c_leaves c' = map LeafNative ys /\
                 Forall2 (fun item y => export_conversion obj (leaf_native item) = Some y)
                         (c_leaves c) ys
  | _, _ => False
  end.

(** [wrapped_binding k st]: the public namespace binds [k] to what
    [_wrap_function] made of an implementation, which is the original
    itself when the binding is marked compositional. *)
Definition wrapped_binding (k : string) (st : state) : Prop :=
  exists impl orig c,
    PyDict.get k (o_dict (obj ivy st)) = Some (_wrap_function k impl orig c) /\
    (c = true -> impl = orig).

End Vocabulary.

(** * Vocabulary of the further properties *)

Section MoreVocabulary.
Context {E : Externals}.

(** [keeps_but_namespace st st']: from [st] to [st'] nothing changed but,
    possibly, the stack, the device and attribute registry, and the package
    object. *)
Definition keeps_but_namespace (st st' : state) : Prop :=
  implicit_backend st' = implicit_backend st /\
  ivy_original_dict st' = ivy_original_dict st /\
  lock_held st' = lock_held st /\
  is_local st' = is_local st /\
  sys_modules st' = sys_modules st /\
  gc_objects st' = gc_objects st /\
  forall r, r <> ivy -> obj r st' = obj r st.

(** One turn of the loop of lines 601-605 on the dictionary of the package:
    [top] is the new active backend, if any. *)
Definition restore_step (top : option ref) (original : PyDict.t string ref)
    (d : PyDict.t string ref) (kv : string * ref) : PyDict.t string ref :=
  match PyDict.get (fst kv) original with
  | Some orig =>
      PyDict.set (fst kv)
        (match top with
         | Some _ => _wrap_function (fst kv) (snd kv) orig compositional_default
         | None => snd kv
         end) d
  | None => d
  end.

(** [registered_backend sm f]: [f] is the module installed for a path that
    the three registry tables agree on: the backend of some array type,
    registered under a name that the reverse table gives back. *)
Definition registered_backend (sm : gmap string ref) (f : ref) : Prop :=
  exists cm path name,
    PyDict.get cm _array_types = Some path /\
    sm !! path = Some f /\
    PyDict.get name _backend_dict = Some path /\
    PyDict.get path _backend_reverse_dict = Some name.

(** [variable_at gc r]: the object at [r] has its flag set and is a
    variable for [_is_var]. *)
Definition variable_at (gc : PyDict.t ref tracked) (r : ref) : bool :=
  match PyDict.get r gc with
  | Some obj => dynamic_backend obj && _is_var obj
  | None => false
  end.

(** The conversion the import phase applies to the payloads of the object
    at [r], under the active backend [f]. *)
Definition import_conversion (f : ref) (variable_ids : list ref) (r : ref) (x : native)
  : option native :=
  (fun y => if bool_decide (r ∈ variable_ids) then _variable y else y) <$> asarray f x.

(** [imported f variable_ids r obj obj']: [obj'] is [obj] with the payload
    of every leaf replaced by its conversion to the backend [f]. *)
Definition imported (f : ref) (variable_ids : list ref) (r : ref) (obj obj' : tracked) : Prop :=
  match obj, obj' with
  | TArray a, TArray a' =>
      a_initialized a' = a_initialized a /\
      a_dynamic_backend a' = a_dynamic_backend a /\
      import_conversion f variable_ids r (a_data a) = Some (a_data a')
  | TContainer c, TContainer c' =>
      c_dynamic_backend c' = c_dynamic_backend c /\
      exists ys, c_leaves c' = map LeafNative ys /\
                 Forall2 (fun item y => import_conversion f variable_ids r (leaf_native item) = Some y)
                         (c_leaves c) ys
  | _, _ => False
  end.

(** The snapshot [get_backend] and [set_backend] work with: taken anew when
    the stack is empty. *)
Definition snapshot_for (st : state) : PyDict.t string ref :=
  match backend_stack st with
  | [] => o_dict (obj ivy st)
  | _ :: _ => ivy_original_dict st
  end.

(** One turn of the loop of lines 541-543 on the dictionary of the
    backend. *)
Definition fill_step (d : PyDict.t string ref) (kv : string * ref) : PyDict.t string ref :=
  if PyDict.mem (fst kv) d then d else PyDict.set (fst kv) (snd kv) d.

(** The test of lines 269-273: [v] is a module of the functional part of
    the library that is not the backend's own package. *)
Definition is_nested_module (backend_str : string) (v : ref) (st : state) : bool :=
  o_is_module (obj v st)
  && PyStr.contains "ivy.functional." (o_name (obj v st))
  && negb (PyStr.contains (backend_str +:+ "/__init__.py") (o_file (obj v st))).

(** [same_attrs st st']: every object has in [st'] the attributes it has in
    [st], its [__dict__] left aside. *)
Definition same_attrs (st st' : state) : Prop :=
  forall r, with_dict [] (obj r st') = with_dict [] (obj r st).

(** What a rebinding pass without nested modules leaves for the name [k],
    in the target and in the backend; [bd] and [td] are the namespaces of
    the backend and of the target before the pass. *)
Definition rebound_target (original bd td : PyDict.t string ref) (invalid : list string)
    (k : string) : option ref :=
  match PyDict.get k original with
  | Some v =>
      match PyDict.get k bd with
      | Some impl => Some (_wrap_function k impl v false)
      | None =>
          if bool_decide (k ∈ invalid) && PyDict.mem k td then None
          else Some (_wrap_function k v v true)
      end
  | None => PyDict.get k td
  end.

Definition rebound_backend (original bd td : PyDict.t string ref) (invalid : list string)
    (k : string) : option ref :=
  match PyDict.get k bd with
  | Some impl => Some impl
  | None =>
      match PyDict.get k original with
      | Some v => if bool_decide (k ∈ invalid) && PyDict.mem k td then None else Some v
      | None => None
      end
  end.

(** Predicates on the state that do not look at the object store. *)
Definition store_closed (P : state -> Prop) : Prop :=
  forall st r f, P st -> P (update_obj r f st).

(** The registry of the package after the registrations of a backend that
    becomes active (lines 447-450), and after those of a backend that is
    popped (lines 583-586). *)
Definition registered (backend_str : string) (g : G) : G :=
  if decide (backend_str = "numpy") then set_default_device "cpu" g
  else if decide (backend_str = "jax") then set_global_attr "RNG" jax_RNG g
  else g.

Definition unregistered (backend_str : string) (g : G) : G :=
  if decide (backend_str = "numpy") then unset_default_device g
  else if decide (backend_str = "jax") then del_global_attr "RNG" g
  else g.

End MoreVocabulary.

(** * Properties *)

(** ** Dictionaries *)

Section DictFacts.
Context {K V : Type} `{EqDecision K}.
Implicit Types (d : PyDict.t K V) (k : K) (v : V).

Lemma get_set_eq d k v : PyDict.get k (PyDict.set k v d) = Some v.
Proof.
  induction d as [|[k' v'] d IH]; simpl.
  - by rewrite decide_True.
  - destruct (decide (k = k')) as [->|Hne]; simpl.
    + by rewrite decide_True.
    + by rewrite decide_False.
Qed.

Lemma get_set_ne d k k' v : k ≠ k' -> PyDict.get k' (PyDict.set k v d) = PyDict.get k' d.
Proof.
  intros Hne. induction d as [|[k0 v0] d IH]; simpl.
  - by rewrite decide_False.
  - destruct (decide (k = k0)) as [->|Hne0]; simpl.
    + by rewrite !decide_False.
    + destruct (decide (k' = k0)); [done | apply IH].
Qed.

Lemma get_del_ne d k k' : k ≠ k' -> PyDict.get k' (PyDict.del k d) = PyDict.get k' d.
Proof.
  intros Hne. induction d as [|[k0 v0] d IH]; simpl; [done|].
  destruct (decide (k = k0)) as [->|Hne0]; simpl.
  - by rewrite decide_False.
  - destruct (decide (k' = k0)); [done | apply IH].
Qed.

Lemma mem_true d k : PyDict.mem k d = true <-> exists v, PyDict.get k d = Some v.
Proof.
  unfold PyDict.mem. destruct (PyDict.get k d); split; eauto; try done.
  by intros [? ?].
Qed.

Lemma mem_false d k : PyDict.mem k d = false <-> PyDict.get k d = None.
Proof. unfold PyDict.mem. by destruct (PyDict.get k d). Qed.

Lemma get_Some_elem d k v : PyDict.get k d = Some v -> (k, v) ∈ d.
Proof.
  induction d as [|[k' v'] d IH]; simpl; [done|].
  destruct (decide (k = k')) as [->|Hne].
  - intros [= ->]. apply list_elem_of_here.
  - intros Hg. apply list_elem_of_further, IH, Hg.
Qed.

Lemma get_keys_None d k : k ∉ PyDict.keys d -> PyDict.get k d = None.
Proof.
  induction d as [|[k' v'] d IH]; simpl; [done|].
  intros Hn. apply not_elem_of_cons in Hn as [Hne Hn].
  rewrite decide_False by done. by apply IH.
Qed.

Lemma get_NoDup d k v :
  NoDup (PyDict.keys d) -> (k, v) ∈ d -> PyDict.get k d = Some v.
Proof.
  induction d as [|[k' v'] d IH]; simpl; intros Hnd Hin.
  - by apply elem_of_nil in Hin.
  - apply NoDup_cons in Hnd as [Hk Hnd].
    apply elem_of_cons in Hin as [[= -> ->]|Hin].
    + by rewrite decide_True.
    + destruct (decide (k = k')) as [->|Hne]; [|by apply IH].
      exfalso. apply Hk. unfold PyDict.keys.
      apply list_elem_of_fmap. by exists (k', v).
Qed.

Lemma keys_set_NoDup d k v : NoDup (PyDict.keys d) -> NoDup (PyDict.keys (PyDict.set k v d)).
Proof.
  induction d as [|[k' v'] d IH]; simpl; intros Hnd.
  - apply NoDup_singleton.
  - apply NoDup_cons in Hnd as [Hk Hnd].
    destruct (decide (k = k')) as [->|Hne]; simpl.
    + by apply NoDup_cons.
    + apply NoDup_cons. split; [|by apply IH].
      intros Hin. apply Hk. clear IH Hnd Hk.
      induction d as [|[k0 v0] d IHd]; simpl in *.
      * apply list_elem_of_singleton in Hin. congruence.
      * destruct (decide (k = k0)) as [->|Hne0]; simpl in *; [done|].
        apply elem_of_cons in Hin as [->|Hin]; [apply list_elem_of_here|].
        apply list_elem_of_further. by apply IHd.
Qed.

Lemma keys_set d k v :
  PyDict.keys (PyDict.set k v d) =
  if PyDict.mem k d then PyDict.keys d else PyDict.keys d ++ [k].
Proof.
  unfold PyDict.mem.
  induction d as [|[k' v'] d IH]; simpl; [done|].
  destruct (decide (k = k')) as [->|Hne]; simpl; [done|].
  rewrite IH. by destruct (PyDict.get k d).
Qed.

End DictFacts.

(** ** The version resolver never hangs *)

Lemma index_ends p s : index p s <> Hang.
Proof. unfold index. by destruct (PyStr.find p s). Qed.

Lemma int_tuple_ends parts : int_tuple parts <> Hang.
Proof. unfold int_tuple. by destruct (PyStr.ints parts). Qed.

Lemma obind_ends {A B} (o : outcome A) (k : A -> outcome B) :
  o <> Hang -> (forall a, k a <> Hang) -> obind o k <> Hang.
Proof. intros Ho Hk. destruct o; simpl; [apply Hk | done..]. Qed.

Lemma fn_name_ends name version :
  fn_name_from_version_specific_fn_name name version <> Hang.
Proof.
  unfold fn_name_from_version_specific_fn_name, version_tuple.
  apply obind_ends.
  { destruct (PyStr.find "+" version); apply int_tuple_ends. }
  intros v.
  repeat match goal with
  | |- (if ?b then _ else _) <> Hang => destruct b
  | |- obind _ _ <> Hang => apply obind_ends; [|intros ?]
  | |- index _ _ <> Hang => apply index_ends
  | |- int_tuple _ <> Hang => apply int_tuple_ends
  | |- Ret _ <> Hang => done
  end.
Qed.

(** ** Reasoning about computations *)

Section Frames.
Context {E : Externals}.

Lemma frame_ret {A} P (a : A) : frame P (ret a).
Proof. by intros st HP. Qed.

Lemma frame_raise {A} P e : frame P (raise (A := A) e).
Proof. by intros st HP. Qed.

Lemma frame_gets {A} P (f : state -> A) : frame P (gets f).
Proof. by intros st HP. Qed.

Lemma frame_lift {A} P (o : outcome A) : o <> Hang -> frame P (lift o).
Proof. by intros Ho st HP. Qed.

Lemma frame_modify P f : (forall st, P st -> P (f st)) -> frame P (modify f).
Proof. intros Hf st HP. split; [by apply Hf | done]. Qed.

Lemma frame_bind {A B} P (m : M A) (k : A -> M B) :
  frame P m -> (forall a, frame P (k a)) -> frame P (bind m k).
Proof.
  intros Hm Hk st HP. unfold bind.
  destruct (Hm st HP) as [HP1 Hh]. destruct (m st) as [[a|e|] st1]; simpl in *; [|done..].
  by apply Hk.
Qed.

Lemma frame_bind_ret {A B} P (a : A) (k : A -> M B) :
  frame P (k a) -> frame P (bind (ret a) k).
Proof. done. Qed.

Lemma frame_for_each {A} P (l : list A) body :
  (forall x, frame P (body x)) -> frame P (for_each l body).
Proof.
  intros Hb. induction l as [|x l IH]; simpl.
  - apply frame_ret.
  - apply frame_bind; [apply Hb | intros _; apply IH].
Qed.

Lemma frame_map_M {A B} P (f : A -> M B) (l : list A) :
  (forall x, frame P (f x)) -> frame P (map_M f l).
Proof.
  intros Hf. induction l as [|x l IH]; simpl.
  - apply frame_ret.
  - apply frame_bind; [apply Hf | intros y].
    apply frame_bind; [apply IH | intros ys; apply frame_ret].
Qed.

Lemma frame_import_module P path : frame P (import_module path).
Proof. intros st HP. unfold import_module. by destruct (sys_modules st !! path). Qed.

Lemma frame_prevent_access_locally {A} P name (m : M A) :
  frame P m -> frame P (prevent_access_locally name m).
Proof.
  intros Hm. unfold prevent_access_locally.
  apply frame_bind; [apply frame_gets | intros []]; [apply frame_raise | done].
Qed.

Lemma runs_ret {A} P (a : A) : runs P (ret a).
Proof. intros st HP. by exists a, st. Qed.

Lemma runs_gets {A} P (f : state -> A) : runs P (gets f).
Proof. intros st HP. by exists (f st), st. Qed.

Lemma runs_modify P f : (forall st, P st -> P (f st)) -> runs P (modify f).
Proof. intros Hf st HP. exists tt, (f st). split; [done | by apply Hf]. Qed.

Lemma runs_bind {A B} P (m : M A) (k : A -> M B) :
  runs P m -> (forall a, runs P (k a)) -> runs P (bind m k).
Proof.
  intros Hm Hk st HP. unfold bind.
  destruct (Hm st HP) as (a & st1 & -> & HP1). by apply Hk.
Qed.

Lemma runs_for_each {A} P (l : list A) body :
  (forall x, runs P (body x)) -> runs P (for_each l body).
Proof.
  intros Hb. induction l as [|x l IH]; simpl.
  - apply runs_ret.
  - apply runs_bind; [apply Hb | intros _; apply IH].
Qed.

Lemma runs_frame {A} P (m : M A) : runs P m -> frame P m.
Proof. intros Hm st HP. by destruct (Hm st HP) as (a & st1 & -> & HP1). Qed.

Lemma keeps_attrs_with_dict (g : pyobj -> PyDict.t string ref) :
  keeps_attrs (fun o => with_dict (g o) o).
Proof. by intros o. Qed.

Lemma keeps_attrs_with_name n : keeps_attrs (with_name n).
Proof. by intros o. Qed.

Lemma frame_setitem P r k v : closed P -> frame P (setitem r k v).
Proof.
  intros HP. apply frame_modify. intros st.
  apply (closed_obj P HP), keeps_attrs_with_dict.
Qed.

Lemma frame_delitem P r k : closed P -> frame P (delitem r k).
Proof.
  intros HP. apply frame_modify. intros st.
  apply (closed_obj P HP), keeps_attrs_with_dict.
Qed.

Lemma runs_setitem P r k v : closed P -> runs P (setitem r k v).
Proof.
  intros HP. apply runs_modify. intros st.
  apply (closed_obj P HP), keeps_attrs_with_dict.
Qed.

Lemma frame_dict_of P r : frame P (dict_of r).
Proof. apply frame_gets. Qed.

Lemma frame_set_backend_to_specific_version P backend :
  closed P -> frame P (set_backend_to_specific_version backend).
Proof.
  intros HP. unfold set_backend_to_specific_version.
  apply frame_bind; [apply frame_gets | intros f].
  apply frame_bind; [apply frame_lift, index_ends | intros i].
  apply frame_bind; [apply frame_import_module | intros fm].
  apply frame_bind; [apply frame_gets | intros ver].
  apply frame_bind; [apply frame_dict_of | intros d].
  apply frame_for_each. intros key. unfold bind_version_specific.
  destruct (PyStr.contains "_v_" key); [|apply frame_ret].
  apply frame_bind; [apply frame_lift, fn_name_ends | intros [[|a n]|]]; try apply frame_ret.
  apply frame_bind; [apply frame_dict_of | intros d'].
  destruct (PyDict.get key d') as [v|]; [|apply frame_raise].
  apply frame_bind; [by apply frame_setitem | intros _].
  apply frame_modify. intros st. apply (closed_obj P HP), keeps_attrs_with_name.
Qed.

Lemma frame_for_items P src body :
  (forall k v, frame P (body k v)) -> frame P (for_items src body).
Proof.
  intros Hb. destruct src as [d|r]; simpl.
  - apply frame_for_each. intros [k v]. apply Hb.
  - unfold for_live_items.
    apply frame_bind; [apply frame_dict_of | intros d0].
    apply frame_bind.
    + apply frame_for_each. intros k.
      apply frame_bind; [apply frame_dict_of | intros d].
      destruct (Nat.eqb _ _); [|apply frame_raise].
      destruct (PyDict.get k d); [apply Hb | apply frame_raise].
    + intros _. apply frame_bind; [apply frame_dict_of | intros d].
      destruct (Nat.eqb _ _); [apply frame_ret | apply frame_raise].
Qed.

Lemma frame_rebind_entry P nested target backend invalid bstr k v :
  closed P ->
  (forall src t b i s, frame P (nested src t b i s)) ->
  frame P (rebind_entry nested target backend invalid bstr k v).
Proof.
  intros HP Hn. unfold rebind_entry.
  apply frame_bind; [apply frame_dict_of | intros bd].
  apply frame_bind; [apply frame_dict_of | intros td].
  destruct (_ && _ && _); [by apply frame_delitem|].
  apply frame_bind.
  { destruct (negb _); [by apply frame_setitem | apply frame_ret]. }
  intros _. apply frame_bind; [apply frame_dict_of | intros bd'].
  destruct (PyDict.get k bd') as [to_wrap|]; [|apply frame_raise].
  apply frame_bind; [by apply frame_setitem | intros _].
  apply frame_bind; [apply frame_gets | intros vo].
  destruct (_ && _ && _); [|apply frame_ret].
  apply frame_bind; [apply frame_dict_of | intros td'].
  apply frame_bind; [apply frame_dict_of | intros bd''].
  destruct (PyDict.get k td'), (PyDict.get k bd''); try apply frame_raise.
  apply Hn.
Qed.

Lemma frame_set_backend_as_ivy P depth src target backend invalid bstr :
  closed P -> frame P (_set_backend_as_ivy depth src target backend invalid bstr).
Proof.
  intros HP. revert src target backend invalid bstr.
  induction depth as [|depth IH]; intros src target backend invalid bstr; simpl.
  - apply frame_raise.
  - apply frame_bind.
    { destruct invalid; [apply frame_ret | apply frame_gets]. }
    intros invalid'. apply frame_bind.
    { destruct bstr; [apply frame_ret | apply frame_gets]. }
    intros bstr'. apply frame_for_items. intros k v.
    by apply frame_rebind_entry.
Qed.

(** *** Inference and [current_backend] *)

Lemma frame_backend_of_class_module P m : frame P (backend_of_class_module m).
Proof.
  unfold backend_of_class_module. destruct (PyDict.get m _array_types); [|apply frame_ret].
  apply frame_bind; [apply frame_import_module | intros r; apply frame_ret].
Qed.

Lemma frame_determine_backend_from_args P : forall args, frame P (_determine_backend_from_args args).
Proof.
  fix IH 1. intros args.
  assert (Hvalues : forall items : list (string * pyval),
    frame P ((fix over_values (items : list (string * pyval)) : M (option ref) :=
      match items with
      | [] => ret None
      | (_, value) :: rest =>
          lib <- _determine_backend_from_args value ;;
          match lib with
          | Some f => ret (Some f)
          | None => over_values rest
          end
      end) items)).
  { clear args. fix IHl 1. intros [|[key value] rest].
    - apply frame_ret.
    - apply frame_bind; [apply IH | intros [f|]]; [apply frame_ret | apply IHl]. }
  assert (Helements : forall xs : list pyval,
    frame P ((fix over_elements (xs : list pyval) : M (option ref) :=
      match xs with
      | [] => ret None
      | arg :: rest =>
          lib <- _determine_backend_from_args arg ;;
          match lib with
          | Some f => ret (Some f)
          | None => over_elements rest
          end
      end) xs)).
  { clear args Hvalues. fix IHl 1. intros [|arg rest].
    - apply frame_ret.
    - apply frame_bind; [apply IH | intros [f|]]; [apply frame_ret | apply IHl]. }
  destruct args as [m data|items|xs|xs|m]; simpl.
  - destruct data; try apply frame_backend_of_class_module. apply Hvalues.
  - apply Hvalues.
  - apply Helements.
  - apply Helements.
  - apply frame_backend_of_class_module.
Qed.

(** Inference reads the state and never writes it. *)
Lemma determine_backend_from_args_state args st :
  (_determine_backend_from_args args st).2 = st.
Proof. by apply (frame_determine_backend_from_args (fun s => s = st)). Qed.

(** Without arguments there is nothing to infer from: the state stays. *)
Lemma current_backend_noargs_state st : (current_backend [] [] st).2 = st.
Proof.
  unfold current_backend, bind, gets, ret, raise. cbn -[PyDict.get].
  destruct (is_local st); [done|].
  destruct (last (backend_stack st)); [done|]. cbn -[PyDict.get].
  destruct (PyDict.get (implicit_backend st) _backend_dict); [|done].
  unfold import_module. by destruct (sys_modules st !! _).
Qed.

Lemma current_backend_noargs_ends st : (current_backend [] [] st).1 <> Hang.
Proof.
  unfold current_backend, bind, gets, ret, raise. cbn -[PyDict.get].
  destruct (is_local st); [done|].
  destruct (last (backend_stack st)); [done|]. cbn -[PyDict.get].
  destruct (PyDict.get (implicit_backend st) _backend_dict); [|done].
  unfold import_module. by destruct (sys_modules st !! _).
Qed.

Lemma frame_current_backend_noargs P : frame P (current_backend [] []).
Proof.
  intros st HP. rewrite current_backend_noargs_state.
  split; [done | apply current_backend_noargs_ends].
Qed.

(** *** The converter touches the tracked tensors only *)

Lemma frame_converted P o : frame P (converted o).
Proof. destruct o; [apply frame_ret | apply frame_raise]. Qed.

Lemma frame_convert_in_place P conv r obj :
  gc_closed P -> (forall x, frame P (conv x)) -> frame P (convert_in_place conv r obj).
Proof.
  intros HP Hc. destruct obj as [a|c]; simpl.
  - apply frame_bind; [apply Hc | intros y]. apply frame_modify. intros st. apply HP.
  - apply frame_bind; [apply frame_map_M; intros x; apply Hc | intros ys].
    apply frame_modify. intros st. apply HP.
Qed.

Lemma frame_tracked_object P r : frame P (tracked_object r).
Proof.
  unfold tracked_object. apply frame_bind; [apply frame_gets | intros [o|]];
    [apply frame_ret | apply frame_raise].
Qed.

Lemma frame_export_loop P new_objs variable_ids numpy_objs :
  gc_closed P -> frame P (export_loop new_objs variable_ids numpy_objs).
Proof.
  intros HP. revert variable_ids numpy_objs.
  induction new_objs as [|r rest IH]; intros variable_ids numpy_objs; simpl.
  - apply frame_ret.
  - apply frame_bind; [apply frame_tracked_object | intros obj].
    destruct (dynamic_backend obj); [|apply IH].
    destruct (_is_var obj).
    + apply frame_bind; [|intros _; apply IH].
      apply frame_convert_in_place; [done | intros x; apply frame_converted].
    + apply frame_bind; [|intros _; apply IH].
      apply frame_convert_in_place; [done | intros x; apply frame_converted].
Qed.

Lemma frame_convert_from_source_backend_to_numpy P variable_ids numpy_objs :
  gc_closed P -> frame P (convert_from_source_backend_to_numpy variable_ids numpy_objs).
Proof.
  intros HP. unfold convert_from_source_backend_to_numpy.
  apply frame_bind; [apply frame_gets | intros gc]. by apply frame_export_loop.
Qed.

Lemma frame_convert_from_numpy_to_target_backend P variable_ids numpy_objs :
  gc_closed P -> frame P (convert_from_numpy_to_target_backend variable_ids numpy_objs).
Proof.
  intros HP. unfold convert_from_numpy_to_target_backend.
  apply frame_for_each. intros r.
  apply frame_bind; [apply frame_tracked_object | intros obj].
  apply frame_bind; [apply frame_current_backend_noargs | intros f].
  apply frame_convert_in_place; [done | intros x; apply frame_converted].
Qed.

(** *** The stack *)

Lemma runs_register_backend_globals P s : closed P -> runs P (register_backend_globals s).
Proof.
  intros HP. unfold register_backend_globals.
  destruct (decide (s = "numpy")).
  { apply runs_modify. intros st. apply (closed_globals P HP). }
  destruct (decide (s = "jax")); [|apply runs_ret].
  apply runs_modify. intros st. apply (closed_globals P HP).
Qed.

Lemma last_snoc_removelast {A} (l : list A) (x : A) :
  last (l ++ [x]) = Some x /\ removelast (l ++ [x]) = l.
Proof. split; [apply last_snoc | apply removelast_last]. Qed.

Lemma runs_restore_namespace P backend : closed P -> runs P (restore_namespace backend).
Proof.
  intros HP. unfold restore_namespace.
  apply runs_bind; [apply runs_gets | intros s].
  apply runs_bind.
  { destruct (decide (s = "numpy")).
    { apply runs_modify. intros s0. apply (closed_globals P HP). }
    destruct (decide (s = "jax")); [|apply runs_ret].
    apply runs_modify. intros s0. apply (closed_globals P HP). }
  intros _. apply runs_bind; [apply runs_gets | intros stack'].
  apply runs_bind.
  { destruct (last stack'); [|apply runs_ret].
    apply runs_bind; [apply runs_gets | intros s']. by apply runs_register_backend_globals. }
  intros _. apply runs_bind.
  { destruct (last stack'); apply runs_gets. }
  intros d. apply runs_for_each. intros kv.
  apply runs_bind; [apply runs_gets | intros orig].
  destruct (PyDict.get kv.1 orig); [by apply runs_setitem | apply runs_ret].
Qed.

Lemma closed_and_stack P stack :
  closed P -> closed (fun s => P s /\ backend_stack s = stack).
Proof.
  intros HP. split.
  - intros s r f Hf [H1 H2]. split; [by apply (closed_obj P HP) | done].
  - intros s g [H1 H2]. split; [by apply (closed_globals P HP) | done].
  - intros s l [H1 H2]. split; [by apply (closed_gc P HP) | done].
Qed.

(** Popping a non-empty stack returns its top and leaves the rest. *)
Lemma unset_backend_body_some P stack b st :
  closed P -> stack_closed P -> P st -> backend_stack st = stack ++ [b] ->
  exists st', unset_backend_body st = (Ret (Some b), st') /\
              backend_stack st' = stack /\ P st'.
Proof.
  intros HP HPs HPst Hstack.
  destruct (last_snoc_removelast stack b) as [Hlast Hrem].
  destruct (runs_restore_namespace _ b (closed_and_stack P stack HP)
              (set_backend_stack stack st)) as (a & st' & Hrun & HPst' & Hst').
  { split; [by apply HPs | done]. }
  exists st'. split; [|done].
  unfold unset_backend_body, bind at 1, gets at 1. rewrite Hstack, Hlast, Hrem.
  unfold bind, modify. by rewrite Hrun.
Qed.

Lemma unset_backend_body_none st :
  backend_stack st = [] -> unset_backend_body st = (Ret None, st).
Proof. intros Hstack. unfold unset_backend_body, bind, gets. by rewrite Hstack. Qed.

Lemma prevent_access_locally_global {A} name (m : M A) st :
  is_local st = false -> prevent_access_locally name m st = m st.
Proof. intros Hl. unfold prevent_access_locally, bind, gets. by rewrite Hl. Qed.

(** The unwinding loop of [set_backend] empties the stack and returns its
    entries, top first. *)
Lemma unwind_stack_spec P :
  closed P -> stack_closed P -> (forall st, P st -> is_local st = false) ->
  forall stack temp st, P st -> backend_stack st = stack ->
  exists st', unwind_stack (length stack) temp st = (Ret (temp ++ rev stack), st') /\
              backend_stack st' = [] /\ P st'.
Proof.
  intros HP HPs Hloc stack.
  induction stack as [|b stack IH] using rev_ind; intros temp st HPst Hstack.
  - exists st. simpl. unfold bind, gets. rewrite Hstack. simpl.
    by rewrite app_nil_r.
  - rewrite length_app, Nat.add_comm. simpl.
    destruct (unset_backend_body_some P stack b st HP HPs HPst Hstack)
      as (st1 & Hun & Hstack1 & HPst1).
    destruct (IH (temp ++ [b]) st1 HPst1 Hstack1) as (st' & Hrun & Hstack' & HPst').
    exists st'. split; [|done].
    rewrite rev_app_distr. simpl. rewrite <- app_assoc in Hrun. simpl in Hrun.
    unfold bind at 1, gets at 1. rewrite Hstack.
    destruct (stack ++ [b]) eqn:Hsb; [by destruct stack|].
    unfold bind at 1, unset_backend.
    rewrite prevent_access_locally_global by by apply Hloc.
    by rewrite Hun, Hrun.
Qed.

(** *** Postconditions *)

Lemma post_intro {A} (m : M A) st (Q : outcome A -> state -> Prop) o st' :
  m st = (o, st') -> post m st Q -> Q o st'.
Proof. unfold post. by intros ->. Qed.

Lemma post_ret {A} (a : A) st (Q : outcome A -> state -> Prop) :
  Q (Ret a) st -> post (ret a) st Q.
Proof. done. Qed.

Lemma post_raise {A} e st (Q : outcome A -> state -> Prop) :
  Q (Raise e) st -> post (raise e) st Q.
Proof. done. Qed.

Lemma post_gets {A} (f : state -> A) st (Q : outcome A -> state -> Prop) :
  Q (Ret (f st)) st -> post (gets f) st Q.
Proof. done. Qed.

Lemma post_modify f st (Q : outcome unit -> state -> Prop) :
  Q (Ret tt) (f st) -> post (modify f) st Q.
Proof. done. Qed.

Lemma post_bind {A B} (m : M A) (k : A -> M B) st (Q : outcome B -> state -> Prop) :
  post m st (fun o st1 =>
    match o with
    | Ret a => post (k a) st1 Q
    | Raise e => Q (Raise e) st1
    | Hang => Q Hang st1
    end) ->
  post (bind m k) st Q.
Proof. unfold post, bind. by destruct (m st) as [[a|e|] st1]. Qed.

Lemma post_conseq {A} (m : M A) st (Q Q' : outcome A -> state -> Prop) :
  post m st Q -> (forall o st', Q o st' -> Q' o st') -> post m st Q'.
Proof. unfold post. intros H HQ. by apply HQ. Qed.

Lemma post_frame {A} P (m : M A) st (Q : outcome A -> state -> Prop) :
  frame P m -> P st -> (forall o st', P st' -> o <> Hang -> Q o st') -> post m st Q.
Proof. intros Hm HP HQ. destruct (Hm st HP). by apply HQ. Qed.

Lemma post_runs {A} P (m : M A) st (Q : outcome A -> state -> Prop) :
  runs P m -> P st -> (forall a st', P st' -> Q (Ret a) st') -> post m st Q.
Proof.
  intros Hm HP HQ. unfold post.
  destruct (Hm st HP) as (a & st' & -> & HP'). by apply HQ.
Qed.

Lemma post_import_module path st (Q : outcome ref -> state -> Prop) :
  (forall m, sys_modules st !! path = Some m -> Q (Ret m) st) ->
  (sys_modules st !! path = None -> Q (Raise (ImportError path)) st) ->
  post (import_module path) st Q.
Proof.
  intros H1 H2. unfold post, import_module.
  destruct (sys_modules st !! path); [by apply H1 | by apply H2].
Qed.

Lemma post_prevent_access_locally {A} name (m : M A) st (Q : outcome A -> state -> Prop) :
  is_local st = false -> post m st Q -> post (prevent_access_locally name m) st Q.
Proof. intros Hl. unfold post. by rewrite prevent_access_locally_global. Qed.

Lemma set_backend_push_spec P sm :
  closed P -> stack_closed P -> original_closed P ->
  (forall s, P s -> is_local s = false /\ sys_modules s = sm) ->
  forall b st, P st ->
  post (set_backend_push b) st (fun o st' =>
    match o with
    | Ret m => P st' /\ resolves sm b m /\ backend_stack st' = backend_stack st ++ [m]
    | Raise _ => P st'
    | Hang => False
    end).
Proof.
  intros HP HPs HPo Hloc b st HPst.
  pose proof (closed_and_stack P (backend_stack st) HP) as HP'.
  unfold set_backend_push.
  apply post_bind, post_gets, post_bind.
  apply (post_conseq _ _ (fun o st1 => o = Ret tt /\ P st1 /\ backend_stack st1 = backend_stack st)).
  { destruct (backend_stack st) eqn:Hs.
    - apply post_modify. split; [done|]. split; [by apply HPo | done].
    - by apply post_ret. }
  intros o st1 (-> & HPst1 & Hst1).
  apply post_bind.
  apply (post_conseq _ _ (fun o st3 =>
    match o with
    | Ret m => P st3 /\ resolves sm b m /\ backend_stack st3 = backend_stack st
    | Raise _ => P st3
    | Hang => False
    end)).
  { destruct b as [name|m].
    - apply post_bind, post_gets, post_bind.
      destruct (unwind_stack_spec P HP HPs (fun s H => proj1 (Hloc s H))
                  (backend_stack st1) [] st1 HPst1 eq_refl) as (st2 & Hun & Hs2 & HPst2).
      unfold post at 1. rewrite Hun. cbn [fst snd app].
      apply post_bind.
      destruct (PyDict.get name _backend_dict) as [path|] eqn:Hname; [|by apply post_raise].
      apply post_import_module; [|done].
      intros m Hm. apply post_bind, post_modify, post_ret.
      split; [by apply HPs|]. split.
      + exists path. split; [done|]. by rewrite <- (proj2 (Hloc st2 HPst2)).
      + simpl. by rewrite Hs2, rev_involutive, Hst1.
    - by apply post_ret. }
  intros [m|e|] st3; [|done..]. intros (HPst3 & Hres & Hst3).
  apply post_bind, post_gets, post_bind.
  apply (post_runs _ _ _ _ (runs_register_backend_globals _ _ HP')); [done|].
  intros _ st4 [HPst4 Hst4].
  apply post_bind, post_modify, post_ret.
  split; [by apply HPs|]. split; [done|]. simpl. by rewrite Hst4.
Qed.

Lemma frame_set_backend_rebind P backend dynamic variable_ids numpy_objs :
  closed P -> frame P (set_backend_rebind backend dynamic variable_ids numpy_objs).
Proof.
  intros HP. unfold set_backend_rebind.
  apply frame_bind; [by apply frame_set_backend_to_specific_version | intros _].
  apply frame_bind; [apply frame_gets | intros original].
  apply frame_bind; [by apply frame_set_backend_as_ivy | intros _].
  destruct dynamic; [|apply frame_ret].
  apply frame_convert_from_numpy_to_target_backend. exact (closed_gc P HP).
Qed.

(** *** What [set_backend] and [unset_backend] leave alone *)

Lemma same_env_refl st : is_local st = false -> same_env st (lock_held st) st.
Proof. by intros Hl. Qed.

Lemma obj_update_obj r f st r' :
  obj r' (update_obj r f st) = if decide (r = r') then f (obj r st) else obj r' st.
Proof.
  unfold obj, update_obj. simpl. destruct (decide (r = r')) as [->|Hne].
  - by rewrite lookup_total_insert_eq.
  - by rewrite lookup_total_insert_ne.
Qed.

Lemma same_env_closed st0 l : closed (same_env st0 l).
Proof.
  split.
  - intros st r f Hf (H1 & H2 & H3 & H4 & H5). repeat (split; [done|]).
    intros r'. rewrite obj_update_obj. destruct (decide (r = r')) as [->|Hne]; [|apply H5].
    destruct (Hf (obj r' st)) as [-> ->]. apply H5.
  - by intros st g H.
  - by intros st g H.
Qed.

Lemma same_env_stack_closed st0 l : stack_closed (same_env st0 l).
Proof. by intros st s H. Qed.

Lemma same_env_original_closed st0 l : original_closed (same_env st0 l).
Proof. by intros st s H. Qed.

Lemma same_env_gc_closed st0 l : gc_closed (same_env st0 l).
Proof. by intros st s H. Qed.

Lemma same_env_lock st0 l l' st :
  same_env st0 l st -> same_env st0 l' (set_lock_held l' st).
Proof. by intros (H1 & H2 & H3 & H4 & H5). Qed.

Lemma frame_set_backend_export P backend dynamic :
  gc_closed P -> frame P (set_backend_export backend dynamic).
Proof.
  intros HP. unfold set_backend_export, check_false.
  apply frame_bind.
  { destruct (match backend with BName _ => _ | BModule _ => _ end);
      [apply frame_raise | apply frame_ret]. }
  intros _. destruct dynamic; [|apply frame_ret].
  by apply frame_convert_from_source_backend_to_numpy.
Qed.

(** How a call of [set_backend] ends when the caller is the global package
    and the lock is free. *)
Lemma set_backend_spec backend dynamic st :
  is_local st = false -> lock_held st = false ->
  post (set_backend backend dynamic) st (fun o st' =>
    match o with
    | Ret _ =>
        same_env st false st' /\
        exists m, resolves (sys_modules st) backend m /\
                  backend_stack st' = backend_stack st ++ [m]
    | Raise _ =>
        (exists x st1, set_backend_export backend dynamic st = (Ret x, st1)) /\
          same_env st true st' \/
        (forall x st1, set_backend_export backend dynamic st <> (Ret x, st1)) /\
          same_env st false st' /\ backend_stack st' = backend_stack st
    | Hang => False
    end).
Proof.
  intros Hloc Hlock.
  assert (Henv : same_env st false st) by (rewrite <- Hlock; by apply same_env_refl).
  apply post_prevent_access_locally; [done|].
  apply post_bind.
  pose (P0 := fun s => same_env st false s /\ backend_stack s = backend_stack st).
  assert (HP0 : gc_closed P0) by (by intros s l [H1 H2]).
  destruct (frame_set_backend_export P0 backend dynamic HP0 st) as [[Henv1 Hst1] Hh];
    [done|].
  unfold post at 1.
  destruct (set_backend_export backend dynamic st) as [[x|e|] st1] eqn:Hexp;
    simpl in Henv1, Hst1, Hh; cbn [fst snd]; [| |done].
  2: { right. split; [|done]. intros x' st1'. congruence. }
  apply post_bind. unfold post at 1, acquire.
  destruct Henv1 as (H1 & H2 & H3 & H4 & H5). rewrite H4. cbn [fst snd].
  assert (Henv2 : same_env st true (set_lock_held true st1)) by done.
  apply post_bind.
  eapply post_conseq.
  { apply (set_backend_push_spec (same_env st true) (sys_modules st)).
    - apply same_env_closed.
    - apply same_env_stack_closed.
    - apply same_env_original_closed.
    - by intros s (Hs1 & Hs2 & _).
    - exact Henv2. }
  intros [m|e|] st3; [|intros ?; left; split; [by exists x, st1 | done]|done].
  intros (Henv3 & Hres & Hst3). simpl in Hst3. rewrite Hst1 in Hst3.
  apply post_bind.
  pose (P3 := fun s => same_env st true s /\ backend_stack s = backend_stack st ++ [m]).
  apply (post_frame P3).
  { apply frame_set_backend_rebind, closed_and_stack, same_env_closed. }
  { done. }
  intros [[]|e|] st4 [Henv4 Hst4] Hh4; [|left; split; [by exists x, st1 | done]|done].
  unfold post, release. destruct Henv4 as (H1' & H2' & H3' & H4' & H5').
  rewrite H4'. cbn [fst snd]. split; [done|]. by exists m.
Qed.

Lemma frame_unset_backend P :
  closed P -> stack_closed P -> frame P unset_backend.
Proof.
  intros HP HPs. apply frame_prevent_access_locally.
  unfold unset_backend_body.
  apply frame_bind; [apply frame_gets | intros stack].
  destruct (last stack); [|apply frame_ret].
  apply frame_bind; [apply frame_modify; intros st; apply HPs | intros _].
  apply frame_bind; [by apply runs_frame, runs_restore_namespace | intros _].
  apply frame_ret.
Qed.

End Frames.

(** ** The backend stack, the lock and inference *)

Section StackClaims.
Context {E : Externals}.

(** A call of [set_backend] that returns was made by the global package with
    the lock free. *)
Lemma set_backend_returns_inv backend dynamic st st' :
  set_backend backend dynamic st = (Ret tt, st') ->
  is_local st = false /\ lock_held st = false.
Proof.
  intros Hrun. destruct (is_local st) eqn:Hloc.
  { unfold set_backend, prevent_access_locally, bind, gets in Hrun.
    by rewrite Hloc in Hrun. }
  split; [done|]. destruct (lock_held st) eqn:Hlock; [|done]. exfalso.
  unfold set_backend in Hrun. rewrite prevent_access_locally_global in Hrun by done.
  unfold bind at 1 in Hrun.
  destruct (frame_set_backend_export (fun s => lock_held s = true) backend dynamic
              (fun s l H => H) st Hlock) as [Hl _].
  destruct (set_backend_export backend dynamic st) as [[x|e|] st1]; [|done..].
  simpl in Hl. unfold bind at 1, acquire in Hrun. by rewrite Hl in Hrun.
Qed.

(** C7.  For a name that is not registered, [set_backend] raises
    [InvalidBackendError] at once, whatever [dynamic] is, and the whole
    process state (stack, namespaces, tracked payloads) is as before. *)
Theorem set_backend_unregistered st name dynamic :
  is_local st = false ->
  name ∉ PyDict.keys _backend_dict ->
  set_backend (BName name) dynamic st = (Raise InvalidBackendError, st).
Proof.
  intros Hloc Hname. unfold set_backend.
  rewrite prevent_access_locally_global by done.
  unfold bind at 1, set_backend_export, bind at 1, check_false.
  assert (Hmem : PyDict.mem name _backend_dict = false).
  { apply mem_false. by apply get_keys_None. }
  by rewrite Hmem.
Qed.


Lemma set_backends_spec calls : forall st st1,
  is_local st = false ->
  set_backends calls st = (Ret tt, st1) ->
  exists mods,
    Forall2 (fun c m => resolves (sys_modules st) (BName (fst c)) m) calls mods /\
    backend_stack st1 = backend_stack st ++ mods /\
    is_local st1 = false /\ sys_modules st1 = sys_modules st /\
    implicit_backend st1 = implicit_backend st.
Proof.
  induction calls as [|[name dynamic] calls IH]; intros st st1 Hloc Hrun.
  - injection Hrun as <-. exists []. by rewrite app_nil_r.
  - unfold set_backends in Hrun. simpl in Hrun. unfold bind at 1 in Hrun.
    destruct (set_backend (BName name) dynamic st) as [[[]|e|] st0] eqn:Hset; [|done..].
    destruct (set_backend_returns_inv _ _ _ _ Hset) as [_ Hlock].
    pose proof (set_backend_spec (BName name) dynamic st Hloc Hlock) as Hspec.
    apply (post_intro _ _ _ _ _ Hset) in Hspec.
    destruct Hspec as [(Hl0 & Hsm0 & Himp0 & _) (m & Hres & Hstack)].
    destruct (IH st0 st1 Hl0 Hrun) as (mods & Hall & Hstack1 & Hl1 & Hsm1 & Himp1).
    exists (m :: mods). split; [|split; [|split; [done|split; congruence]]].
    + constructor; [done|]. by rewrite <- Hsm0.
    + by rewrite Hstack1, Hstack, <- app_assoc.
Qed.

Lemma unset_backends_spec stack : forall st,
  is_local st = false -> backend_stack st = stack ->
  exists st', unset_backends (length stack) st = (Ret (map Some (rev stack)), st') /\
              backend_stack st' = [] /\ is_local st' = false /\
              sys_modules st' = sys_modules st /\
              implicit_backend st' = implicit_backend st.
Proof.
  induction stack as [|b stack IH] using rev_ind; intros st Hloc Hstack.
  - by exists st.
  - rewrite length_app, Nat.add_comm, rev_app_distr. simpl.
    destruct (unset_backend_body_some (same_env st (lock_held st)) stack b st)
      as (st1 & Hun & Hstack1 & Hl1 & Hsm1 & Himp1 & _);
      [apply same_env_closed | apply same_env_stack_closed | by apply same_env_refl | done |].
    destruct (IH st1 Hl1 Hstack1) as (st' & Hrun & Hstack' & Hl' & Hsm' & Himp').
    exists st'. split; [|split; [done|split; [done|split; congruence]]].
    unfold bind at 1, unset_backend. rewrite prevent_access_locally_global by done.
    rewrite Hun. unfold bind at 1. by rewrite Hrun.
Qed.

(** With an empty stack and no argument, [current_backend] imports the
    module registered for the implicit backend. *)
Lemma current_backend_default st path r :
  is_local st = false -> backend_stack st = [] ->
  PyDict.get (implicit_backend st) _backend_dict = Some path ->
  sys_modules st !! path = Some r ->
  current_backend [] [] st = (Ret r, st).
Proof.
  intros Hloc Hstack Hpath Hr.
  unfold current_backend, bind, gets, ret. cbn -[PyDict.get].
  rewrite Hloc, Hstack. cbn -[PyDict.get]. rewrite Hpath.
  unfold import_module. by rewrite Hr.
Qed.

(** C1.  After calls of [set_backend] with the names [n1 .. nk] that all
    returned, starting from an empty stack, [k] calls of [unset_backend]
    return the modules of [nk], ..., [n1] in that order; the stack is then
    empty and [current_backend()] imports the module of the implicit
    default backend, which the calls did not change. *)
Theorem stack_lifo calls st0 st1 :
  is_local st0 = false ->
  backend_stack st0 = [] ->
  set_backends calls st0 = (Ret tt, st1) ->
  exists mods st2,
    Forall2 (fun c m => resolves (sys_modules st0) (BName (fst c)) m) calls mods /\
    unset_backends (length calls) st1 = (Ret (map Some (rev mods)), st2) /\
    backend_stack st2 = [] /\
    forall path r,
      PyDict.get (implicit_backend st0) _backend_dict = Some path ->
      sys_modules st0 !! path = Some r ->
      current_backend [] [] st2 = (Ret r, st2).
Proof.
  intros Hloc Hstack Hrun.
  destruct (set_backends_spec calls st0 st1 Hloc Hrun)
    as (mods & Hall & Hstack1 & Hl1 & Hsm1 & Himp1).
  rewrite Hstack in Hstack1. simpl in Hstack1.
  destruct (unset_backends_spec mods st1 Hl1 Hstack1)
    as (st2 & Hun & Hstack2 & Hl2 & Hsm2 & Himp2).
  exists mods, st2. split; [done|]. split.
  { by rewrite (Forall2_length _ _ _ Hall). }
  split; [done|]. intros path r Hpath Hr.
  apply (current_backend_default st2 path r); [done | done | congruence | congruence].
Qed.

(** What [current_backend] does under an empty stack when inference finds a
    backend, and when it finds none. *)
Lemma current_backend_inferred st args kwargs b :
  is_local st = false -> backend_stack st = [] ->
  (_determine_backend_from_args (PList (args ++ map snd kwargs)) st).1 = Ret (Some b) ->
  current_backend args kwargs st =
    (Ret b, set_implicit_backend (o_backend_str (obj b st)) st).
Proof.
  intros Hloc Hstack Hinf.
  pose proof (determine_backend_from_args_state (PList (args ++ map snd kwargs)) st) as Hst.
  unfold current_backend. unfold bind at 1, gets at 1. rewrite Hloc.
  unfold bind at 1, gets at 1. rewrite Hstack. cbn [last]. unfold bind at 1.
  destruct (_determine_backend_from_args (PList (args ++ map snd kwargs)) st) as [o st1].
  simpl in Hinf, Hst. by subst.
Qed.

Lemma current_backend_not_inferred st args kwargs path r :
  is_local st = false -> backend_stack st = [] ->
  (_determine_backend_from_args (PList (args ++ map snd kwargs)) st).1 = Ret None ->
  PyDict.get (implicit_backend st) _backend_dict = Some path ->
  sys_modules st !! path = Some r ->
  current_backend args kwargs st = (Ret r, st).
Proof.
  intros Hloc Hstack Hinf Hpath Hr.
  pose proof (determine_backend_from_args_state (PList (args ++ map snd kwargs)) st) as Hst.
  unfold current_backend. unfold bind at 1, gets at 1. rewrite Hloc.
  unfold bind at 1, gets at 1. rewrite Hstack. cbn [last]. unfold bind at 1.
  destruct (_determine_backend_from_args (PList (args ++ map snd kwargs)) st) as [o st1].
  simpl in Hinf, Hst. subst. unfold bind, gets. rewrite Hpath.
  unfold import_module. by rewrite Hr.
Qed.

Lemma current_backend_top st args kwargs stack m :
  is_local st = false -> backend_stack st = stack ++ [m] ->
  current_backend args kwargs st = (Ret m, st).
Proof.
  intros Hloc Hstack. unfold current_backend, bind, gets.
  by rewrite Hloc, Hstack, last_snoc.
Qed.

(** A native array whose class lives in a module of [_array_types] is
    recognised as an array of the backend registered for that module. *)
Lemma determine_native_array st cm path r :
  PyDict.get cm _array_types = Some path ->
  sys_modules st !! path = Some r ->
  _determine_backend_from_args (PList [PObj cm]) st = (Ret (Some r), st).
Proof.
  intros Hcm Hr. simpl. unfold bind at 1, backend_of_class_module. rewrite Hcm.
  unfold bind at 1, import_module. by rewrite Hr.
Qed.

(** C4.  Resolution order of [current_backend]: the top of the stack, then
    inference from the arguments, then the implicit default.  (1) With an
    empty stack, a native array of backend B gives B's module.  (2) Once
    [set_backend C] has returned, every call gives C's module, whatever the
    arguments.  (3) With an empty stack and nothing inferred, the call gives
    the module of the implicit default. *)
Theorem inference_precedence :
  (forall st cm path r,
     is_local st = false -> backend_stack st = [] ->
     PyDict.get cm _array_types = Some path ->
     sys_modules st !! path = Some r ->
     (current_backend [PObj cm] [] st).1 = Ret r) /\
  (forall st c dynamic st' args kwargs,
     set_backend c dynamic st = (Ret tt, st') ->
     exists m, resolves (sys_modules st) c m /\
               current_backend args kwargs st' = (Ret m, st')) /\
  (forall st args kwargs path r,
     is_local st = false -> backend_stack st = [] ->
     (_determine_backend_from_args (PList (args ++ map snd kwargs)) st).1 = Ret None ->
     PyDict.get (implicit_backend st) _backend_dict = Some path ->
     sys_modules st !! path = Some r ->
     current_backend args kwargs st = (Ret r, st)).
Proof.
  split; [|split].
  - intros st cm path r Hloc Hstack Hcm Hr.
    rewrite (current_backend_inferred st [PObj cm] [] r); [done..|].
    change ([PObj cm] ++ map snd []) with [PObj cm].
    by rewrite (determine_native_array st cm path r).
  - intros st c dynamic st' args kwargs Hrun.
    destruct (set_backend_returns_inv _ _ _ _ Hrun) as [Hloc Hlock].
    pose proof (set_backend_spec c dynamic st Hloc Hlock) as Hspec.
    apply (post_intro _ _ _ _ _ Hrun) in Hspec.
    destruct Hspec as [(Hl' & _) (m & Hres & Hstack)].
    exists m. split; [done|]. by apply (current_backend_top st' args kwargs (backend_stack st)).
  - apply current_backend_not_inferred.
Qed.

(** C10.  With an empty stack, a call of [current_backend] that infers the
    module [b] from its arguments also stores [b]'s name as the implicit
    backend; when that name is the one [b] is registered under, every later
    call without arguments returns [b] and changes nothing. *)
Theorem inference_sets_implicit_default st args kwargs b path :
  is_local st = false -> backend_stack st = [] ->
  (_determine_backend_from_args (PList (args ++ map snd kwargs)) st).1 = Ret (Some b) ->
  PyDict.get (o_backend_str (obj b st)) _backend_dict = Some path ->
  sys_modules st !! path = Some b ->
  exists st1,
    current_backend args kwargs st = (Ret b, st1) /\
    implicit_backend st1 = o_backend_str (obj b st) /\
    forall n, current_backends n st1 = (Ret (replicate n b), st1).
Proof.
  intros Hloc Hstack Hinf Hpath Hb.
  eexists. split; [by apply current_backend_inferred|]. split; [done|].
  induction n as [|n IH]; [done|]. simpl. unfold bind at 1.
  rewrite (current_backend_default _ path b); [|done..].
  unfold bind at 1. by rewrite IH.
Qed.


(** C6 at the input [["numpy"; "jax"; "tensorflow"; "torch"]]: the call
    raises although "mindspore" is registered and not excluded. *)
Theorem choose_random_backend_four_excluded draw st :
  is_local st = false ->
  ("mindspore" ∈ PyDict.keys _backend_dict) /\
  ("mindspore" ∉ ["numpy"; "jax"; "tensorflow"; "torch"]) /\
  (choose_random_backend draw ["numpy"; "jax"; "tensorflow"; "torch"] st =
    (Raise (IvyException
       "Unable to select backend, all backends are excluded,            or not installed."),
     st)).
Proof.
  intros Hloc. split; [|split].
  - by apply (bool_decide_unpack _).
  - by apply (bool_decide_unpack _).
  - unfold choose_random_backend. by rewrite prevent_access_locally_global.
Qed.

End StackClaims.

(** ** The export phase and shared payloads *)

Section ConverterClaims.
Context {E : Externals}.

Lemma elem_of_zip_map {A B} (f : A -> B) (l : list A) k v :
  (k, v) ∈ zip (map f l) l -> k = f v /\ v ∈ l.
Proof.
  induction l as [|x l IH]; simpl; intros Hin.
  - by apply elem_of_nil in Hin.
  - apply elem_of_cons in Hin as [[= -> ->]|Hin].
    + split; [done | apply list_elem_of_here].
    + destruct (IH Hin) as [-> Hv]. split; [done | by apply list_elem_of_further].
Qed.

Lemma elem_of_dict_set {K V} `{EqDecision K} (d : PyDict.t K V) k v kv :
  kv ∈ PyDict.set k v d -> kv = (k, v) \/ kv ∈ d.
Proof.
  induction d as [|[k' v'] d IH]; simpl; intros Hin.
  - apply list_elem_of_singleton in Hin. by left.
  - destruct (decide (k = k')) as [->|Hne].
    + apply elem_of_cons in Hin as [->|Hin]; [by left|].
      right. by apply list_elem_of_further.
    + apply elem_of_cons in Hin as [->|Hin]; [right; apply list_elem_of_here|].
      destruct (IH Hin) as [->|Hd]; [by left|]. right. by apply list_elem_of_further.
Qed.

Lemma new_objs_from_inv ids (Q : ref * (ref * ivy_array) -> Prop) pairs : forall d,
  (forall kv, kv ∈ d -> Q kv) ->
  (forall kv, kv ∈ pairs -> fst kv ∉ ids -> Q kv) ->
  forall kv, kv ∈ new_objs_from ids pairs d -> Q kv.
Proof.
  induction pairs as [|[k v] pairs IH]; simpl; intros d Hd Hp kv Hin; [by apply Hd|].
  apply (IH _) in Hin; [done| |].
  - intros kv' Hkv'. destruct (bool_decide (k ∈ ids)) eqn:Hk; [by apply Hd|].
    apply elem_of_dict_set in Hkv' as [->|Hkv']; [|by apply Hd].
    apply Hp; [apply list_elem_of_here|]. simpl. by apply bool_decide_eq_false in Hk.
  - intros kv' Hkv'. apply Hp. by apply list_elem_of_further.
Qed.

Lemma new_objs_from_NoDup ids pairs : forall d,
  NoDup (PyDict.keys d) -> NoDup (PyDict.keys (new_objs_from ids pairs d)).
Proof.
  induction pairs as [|[k v] pairs IH]; simpl; intros d Hd; [done|].
  apply IH. destruct (bool_decide (k ∈ ids)); [done | by apply keys_set_NoDup].
Qed.

(** What [_remove_intermediate_arrays] keeps is an array of its list whose
    payload is no leaf of a container. *)
Lemma remove_intermediate_arrays_elem arr_list cont_list x :
  x ∈ _remove_intermediate_arrays arr_list cont_list ->
  x ∈ arr_list /\ n_id (a_data (snd x)) ∉ cont_ids cont_list.
Proof.
  unfold _remove_intermediate_arrays. fold (cont_ids cont_list).
  intros Hin. apply list_elem_of_fmap in Hin as ([k v] & -> & Hin). simpl.
  revert Hin.
  apply (new_objs_from_inv (cont_ids cont_list)
           (fun kv => snd kv ∈ arr_list /\ n_id (a_data (snd (snd kv))) ∉ cont_ids cont_list)).
  - intros kv Hkv. by apply elem_of_nil in Hkv.
  - intros [k' v'] Hkv Hk. apply elem_of_zip_map in Hkv as [-> Hv']. by split.
Qed.

Lemma NoDup_fmap_eq {A B} (f : A -> B) (l : list A) x y :
  NoDup (map f l) -> x ∈ l -> y ∈ l -> f x = f y -> x = y.
Proof.
  induction l as [|z l IH]; simpl; intros Hnd Hx Hy Heq.
  - by apply elem_of_nil in Hx.
  - apply NoDup_cons in Hnd as [Hz Hnd].
    apply elem_of_cons in Hx as [->|Hx], Hy as [->|Hy]; [done| | |by apply IH].
    + exfalso. apply Hz. rewrite Heq. by apply list_elem_of_fmap_2.
    + exfalso. apply Hz. rewrite <- Heq. by apply list_elem_of_fmap_2.
Qed.

Lemma remove_intermediate_arrays_NoDup arr_list cont_list :
  NoDup (map fst arr_list) ->
  NoDup (map fst (_remove_intermediate_arrays arr_list cont_list)).
Proof.
  intros Hnd.
  set (pairs := zip (map (fun item : ref * ivy_array => n_id (a_data (snd item))) arr_list)
                    arr_list).
  change (_remove_intermediate_arrays arr_list cont_list)
    with (PyDict.values (new_objs_from (cont_ids cont_list) pairs [])).
  set (d := new_objs_from (cont_ids cont_list) pairs []).
  assert (Hkeys : NoDup (PyDict.keys d)).
  { apply (new_objs_from_NoDup (cont_ids cont_list) pairs []). constructor. }
  assert (Hinv : forall kv, kv ∈ d ->
            fst kv = n_id (a_data (snd (snd kv))) /\ snd kv ∈ arr_list).
  { apply (new_objs_from_inv (cont_ids cont_list)
             (fun kv => fst kv = n_id (a_data (snd (snd kv))) /\ snd kv ∈ arr_list)).
    - intros kv Hkv. by apply elem_of_nil in Hkv.
    - intros [k v] Hkv _. by apply elem_of_zip_map in Hkv. }
  unfold PyDict.values. rewrite map_map.
  apply NoDup_fmap_2_strong; [|by apply NoDup_fmap_1 in Hkeys].
  intros [k1 v1] [k2 v2] H1 H2 Heq. simpl in Heq.
  destruct (Hinv _ H1) as [Hk1 Hv1], (Hinv _ H2) as [Hk2 Hv2]. simpl in *.
  assert (v1 = v2) as -> by by apply (NoDup_fmap_eq fst arr_list).
  congruence.
Qed.

Lemma elem_of_arrays_of gc r a : (r, a) ∈ arrays_of gc <-> (r, TArray a) ∈ gc.
Proof.
  unfold arrays_of. rewrite list_elem_of_omap. split.
  - intros ([r' [a'|c']] & Hin & Heq); simpl in Heq; [|done]. by injection Heq as -> ->.
  - intros Hin. by exists (r, TArray a).
Qed.

Lemma elem_of_containers_of gc r c : (r, c) ∈ containers_of gc <-> (r, TContainer c) ∈ gc.
Proof.
  unfold containers_of. rewrite list_elem_of_omap. split.
  - intros ([r' [a'|c']] & Hin & Heq); simpl in Heq; [done|]. by injection Heq as -> ->.
  - intros Hin. by exists (r, TContainer c).
Qed.

Lemma elem_of_keys {K V} (d : PyDict.t K V) k v : (k, v) ∈ d -> k ∈ PyDict.keys d.
Proof. intros Hin. unfold PyDict.keys. by apply (list_elem_of_fmap_2 fst) in Hin. Qed.

Lemma arrays_of_NoDup gc : NoDup (PyDict.keys gc) -> NoDup (map fst (arrays_of gc)).
Proof.
  induction gc as [|[r [a|c]] gc IH]; simpl; intros Hnd; [constructor|..];
    apply NoDup_cons in Hnd as [Hr Hnd].
  - unfold arrays_of. simpl. fold (arrays_of gc). apply NoDup_cons. split; [|by apply IH].
    intros Hin. apply list_elem_of_fmap in Hin as ([r' a'] & -> & Hin).
    apply elem_of_arrays_of in Hin. apply Hr. by apply elem_of_keys in Hin.
  - unfold arrays_of. simpl. fold (arrays_of gc). by apply IH.
Qed.

Lemma containers_of_NoDup gc : NoDup (PyDict.keys gc) -> NoDup (map fst (containers_of gc)).
Proof.
  induction gc as [|[r [a|c]] gc IH]; simpl; intros Hnd; [constructor|..];
    apply NoDup_cons in Hnd as [Hr Hnd].
  - unfold containers_of. simpl. fold (containers_of gc). by apply IH.
  - unfold containers_of. simpl. fold (containers_of gc). apply NoDup_cons.
    split; [|by apply IH].
    intros Hin. apply list_elem_of_fmap in Hin as ([r' c'] & -> & Hin).
    apply elem_of_containers_of in Hin. apply Hr. by apply elem_of_keys in Hin.
Qed.

Lemma filter_fst_NoDup {A B} (P : A * B -> Prop) `{forall x, Decision (P x)} (l : list (A * B)) :
  NoDup (map fst l) -> NoDup (map fst (filter P l)).
Proof.
  intros Hnd. apply NoDup_fmap_2_strong.
  - intros x y Hx Hy Heq. apply list_elem_of_filter in Hx as [_ Hx], Hy as [_ Hy].
    by apply (NoDup_fmap_eq fst l).
  - apply NoDup_filter. by apply NoDup_fmap_1 in Hnd.
Qed.

(** The export phase visits no object twice. *)
Lemma export_candidates_NoDup gc :
  NoDup (PyDict.keys gc) -> NoDup (export_candidates gc).
Proof.
  intros Hnd. unfold export_candidates. apply NoDup_app. split; [|split].
  - apply remove_intermediate_arrays_NoDup, filter_fst_NoDup. by apply arrays_of_NoDup.
  - intros r Hr Hc.
    apply list_elem_of_fmap in Hr as ([r1 a] & -> & Hr).
    apply remove_intermediate_arrays_elem in Hr as [Hr _].
    apply list_elem_of_filter in Hr as [_ Hr]. apply elem_of_arrays_of in Hr.
    apply list_elem_of_fmap in Hc as ([r2 c] & Heq & Hc). simpl in Heq. subst r2.
    apply elem_of_containers_of in Hc.
    apply (get_NoDup _ _ _ Hnd) in Hr, Hc. congruence.
  - by apply containers_of_NoDup.
Qed.

Lemma map_M_converted {A} (f : A -> option native) (l : list A) st ys st' :
  map_M (fun x => converted (f x)) l st = (Ret ys, st') ->
  st' = st /\ Forall2 (fun x y => f x = Some y) l ys.
Proof.
  revert ys st'. induction l as [|x l IH]; simpl; intros ys st' Hrun.
  - injection Hrun as <- <-. split; [done | constructor].
  - unfold bind at 1 in Hrun. destruct (f x) as [y|] eqn:Hfx; simpl in Hrun; [|done].
    unfold bind at 1 in Hrun.
    destruct (map_M (fun x => converted (f x)) l st) as [[ys0|e|] st0] eqn:Hl; [|done..].
    destruct (IH ys0 st0 eq_refl) as [-> Hall].
    injection Hrun as <- <-. split; [done | by constructor].
Qed.

Lemma convert_in_place_spec (f : native -> option native) r obj st st' :
  convert_in_place (fun x => converted (f x)) r obj st = (Ret tt, st') ->
  exists obj',
    st' = set_gc_objects (PyDict.set r obj' (gc_objects st)) st /\
    match obj, obj' with
    | TArray a, TArray a' =>
        a_initialized a' = a_initialized a /\
        a_dynamic_backend a' = a_dynamic_backend a /\
        f (a_data a) = Some (a_data a')
    | TContainer c, TContainer c' =>
        c_dynamic_backend c' = c_dynamic_backend c /\
        exists ys, c_leaves c' = map LeafNative ys /\
                   Forall2 (fun item y => f (leaf_native item) = Some y) (c_leaves c) ys
    | _, _ => False
    end.
Proof.
  destruct obj as [a|c]; simpl; intros Hrun.
  - unfold bind at 1 in Hrun. destruct (f (a_data a)) as [y|] eqn:Hf; simpl in Hrun; [|done].
    injection Hrun as <-. eexists (TArray _). split; [done|]. by simpl.
  - unfold bind at 1 in Hrun.
    destruct (map_M _ (c_leaves c) st) as [[ys|e|] st0] eqn:Hl; [|done..].
    apply (map_M_converted (fun item => f (leaf_native item))) in Hl as [-> Hall].
    injection Hrun as <-. eexists (TContainer _). split; [done|]. simpl.
    split; [done|]. by exists ys.
Qed.

Lemma filter_dynamic_ext gc gc' (l : list ref) :
  (forall r, r ∈ l -> PyDict.get r gc' = PyDict.get r gc) ->
  filter (fun r => dynamic_at gc' r = true) l = filter (fun r => dynamic_at gc r = true) l.
Proof.
  induction l as [|x l IH]; intros Hl; [done|].
  rewrite !filter_cons.
  assert (Hx : dynamic_at gc' x = dynamic_at gc x).
  { unfold dynamic_at. by rewrite (Hl x) by apply list_elem_of_here. }
  rewrite Hx, IH; [done|]. intros r Hr. apply Hl. by apply list_elem_of_further.
Qed.

(** The loop of the export phase: it records the visited objects whose flag
    is set, in order, converts exactly those, and leaves the others as they
    are. *)
Lemma export_loop_spec cands :
  NoDup cands ->
  forall variable_ids numpy_objs st variable_ids' numpy_objs' st',
  export_loop cands variable_ids numpy_objs st = (Ret (variable_ids', numpy_objs'), st') ->
  numpy_objs' = numpy_objs ++ filter (fun r => dynamic_at (gc_objects st) r = true) cands /\
  (forall r, r ∉ cands \/ dynamic_at (gc_objects st) r = false ->
             PyDict.get r (gc_objects st') = PyDict.get r (gc_objects st)) /\
  (forall r obj, r ∈ cands -> PyDict.get r (gc_objects st) = Some obj ->
                 dynamic_backend obj = true ->
                 exists obj', PyDict.get r (gc_objects st') = Some obj' /\ exported obj obj').
Proof.
  induction cands as [|r rest IH]; intros Hnd vids nobjs st vids' nobjs' st' Hrun.
  - injection Hrun as <- <- <-. rewrite app_nil_r. split; [done|]. split; [done|].
    intros r obj Hr. by apply elem_of_nil in Hr.
  - apply NoDup_cons in Hnd as [Hr Hnd]. simpl in Hrun.
    unfold bind at 1, tracked_object, bind at 1, gets at 1 in Hrun.
    destruct (PyDict.get r (gc_objects st)) as [obj|] eqn:Hobj; simpl in Hrun; [|done].
    rewrite filter_cons.
    assert (Hat : dynamic_at (gc_objects st) r = dynamic_backend obj).
    { unfold dynamic_at. by rewrite Hobj. }
    rewrite Hat.
    destruct (dynamic_backend obj) eqn:Hdyn.
    + assert (Hstep : exists st1 vids1 obj',
                export_loop rest vids1 (nobjs ++ [r]) st1 = (Ret (vids', nobjs'), st') /\
                st1 = set_gc_objects (PyDict.set r obj' (gc_objects st)) st /\
                exported obj obj').
      { unfold exported, export_conversion.
        destruct (_is_var obj) eqn:Hvar; unfold bind at 1 in Hrun.
        - destruct (convert_in_place _ r obj st) as [[[]|e|] st1] eqn:Hconv; [|done..].
          apply (convert_in_place_spec (fun x => to_numpy (_variable_data x))) in Hconv
            as (obj' & -> & Hexp).
          eexists _, _, obj'. split; [exact Hrun|]. split; [done|].
          destruct obj, obj'; try done.
        - destruct (convert_in_place _ r obj st) as [[[]|e|] st1] eqn:Hconv; [|done..].
          apply (convert_in_place_spec to_numpy) in Hconv as (obj' & -> & Hexp).
          eexists _, _, obj'. split; [exact Hrun|]. split; [done|].
          destruct obj, obj'; try done. }
      destruct Hstep as (st1 & vids1 & obj' & Hrest & -> & Hexp).
      destruct (IH Hnd _ _ _ _ _ _ Hrest) as (Hn & Hsame & Hconv). simpl in Hn, Hsame, Hconv.
      assert (Hother : forall r', r' <> r ->
                PyDict.get r' (PyDict.set r obj' (gc_objects st)) = PyDict.get r' (gc_objects st)).
      { intros r' Hne. by apply get_set_ne. }
      split; [|split].
      * rewrite Hn, <- app_assoc. simpl. f_equal. f_equal. apply filter_dynamic_ext.
        intros r' Hr'. apply Hother. intros ->. done.
      * intros r' [Hr'|Hr'].
        -- apply not_elem_of_cons in Hr' as [Hne Hr']. rewrite Hsame by by left. by apply Hother.
        -- assert (Hne : r' <> r).
           { intros ->. unfold dynamic_at in Hr'. rewrite Hobj in Hr'. congruence. }
           rewrite Hsame; [by apply Hother|]. right. unfold dynamic_at. by rewrite Hother.
      * intros r' obj0 Hr' Hobj0 Hdyn0. apply elem_of_cons in Hr' as [->|Hr'].
        -- rewrite Hsame by by left. rewrite get_set_eq. exists obj'.
           split; [done|]. congruence.
        -- apply Hconv; [done| |done]. rewrite Hother; [done|]. by intros ->.
    + destruct (IH Hnd _ _ _ _ _ _ Hrun) as (Hn & Hsame & Hconv).
      split; [done|]. split.
      * intros r' [Hr'|Hr'].
        -- apply not_elem_of_cons in Hr' as [Hne Hr']. apply Hsame. by left.
        -- apply Hsame. by right.
      * intros r' obj0 Hr' Hobj0 Hdyn0. apply elem_of_cons in Hr' as [->|Hr'].
        -- congruence.
        -- by apply Hconv.
Qed.

(** C9, as the code has it.  In the export phase, an array whose payload
    is also a leaf of a container is not in the standalone list, is not
    recorded for the import phase, and keeps its payload.  The container is
    recorded, once, exactly when its own [dynamic_backend] flag is set; then
    each of its leaves is replaced by its conversion, and otherwise the
    container stays as it is, the shared payload with it. *)
Theorem shared_payload_export st variable_ids numpy_objs st' r a rc c item :
  NoDup (PyDict.keys (gc_objects st)) ->
  convert_from_source_backend_to_numpy [] [] st = (Ret (variable_ids, numpy_objs), st') ->
  PyDict.get r (gc_objects st) = Some (TArray a) ->
  PyDict.get rc (gc_objects st) = Some (TContainer c) ->
  item ∈ c_leaves c ->
  n_id (leaf_native item) = n_id (a_data a) ->
  (r ∉ map fst (_remove_intermediate_arrays
                  (filter (fun arr => a_initialized (snd arr) = true) (arrays_of (gc_objects st)))
                  (containers_of (gc_objects st)))) /\
  (r ∉ numpy_objs) /\
  PyDict.get r (gc_objects st') = Some (TArray a) /\
  NoDup numpy_objs /\
  (rc ∈ numpy_objs <-> c_dynamic_backend c = true) /\
  (c_dynamic_backend c = false ->
   PyDict.get rc (gc_objects st') = Some (TContainer c)) /\
  (c_dynamic_backend c = true ->
   exists c', PyDict.get rc (gc_objects st') = Some (TContainer c') /\
              exported (TContainer c) (TContainer c')).
Proof.
  intros Hnd Hrun Hr Hrc Hitem Hid.
  unfold convert_from_source_backend_to_numpy, bind at 1, gets at 1 in Hrun.
  pose proof (export_candidates_NoDup _ Hnd) as Hcands.
  destruct (export_loop_spec _ Hcands _ _ _ _ _ _ Hrun) as (Hn & Hsame & Hconv).
  simpl in Hn.
  assert (Hleaf : n_id (a_data a) ∈ cont_ids (containers_of (gc_objects st))).
  { unfold cont_ids. apply list_elem_of_In, in_flat_map. exists (c_leaves c). split.
    - apply list_elem_of_In, list_elem_of_fmap. exists (rc, c). split; [done|].
      by apply elem_of_containers_of, get_Some_elem.
    - apply list_elem_of_In, list_elem_of_fmap. by exists item. }
  assert (Hstandalone : r ∉ map fst (_remove_intermediate_arrays
            (filter (fun arr => a_initialized (snd arr) = true) (arrays_of (gc_objects st)))
            (containers_of (gc_objects st)))).
  { intros Hin. apply list_elem_of_fmap in Hin as ([r1 a1] & -> & Hin).
    apply remove_intermediate_arrays_elem in Hin as [Hin Hnot].
    apply list_elem_of_filter in Hin as [_ Hin]. apply elem_of_arrays_of in Hin.
    apply (get_NoDup _ _ _ Hnd) in Hin. simpl in *. congruence. }
  assert (Hrcand : r ∉ export_candidates (gc_objects st)).
  { unfold export_candidates. intros Hin. apply elem_of_app in Hin as [Hin|Hin]; [done|].
    apply list_elem_of_fmap in Hin as ([r2 c2] & Heq & Hin). simpl in Heq. subst r2.
    apply elem_of_containers_of, (get_NoDup _ _ _ Hnd) in Hin. congruence. }
  assert (Hrccand : rc ∈ export_candidates (gc_objects st)).
  { unfold export_candidates. apply elem_of_app. right.
    apply list_elem_of_fmap. exists (rc, c). split; [done|].
    by apply elem_of_containers_of, get_Some_elem. }
  assert (Hat : dynamic_at (gc_objects st) rc = c_dynamic_backend c).
  { unfold dynamic_at. by rewrite Hrc. }
  split; [done|]. split.
  { rewrite Hn. intros Hin. by apply list_elem_of_filter in Hin as [_ Hin]. }
  split.
  { rewrite Hsame by by left. done. }
  split.
  { rewrite Hn. by apply NoDup_filter. }
  split.
  { rewrite Hn, list_elem_of_filter, Hat. tauto. }
  split.
  { intros Hdyn. rewrite Hsame; [done|]. right. by rewrite Hat. }
  intros Hdyn. destruct (Hconv rc (TContainer c) Hrccand Hrc Hdyn) as ([a'|c'] & Hget & Hexp);
    [done|]. by exists c'.
Qed.

End ConverterClaims.

(** ** The public namespace after a rebinding *)

Section NamespaceClaims.
Context {E : Externals}.

Lemma ivy_dict_update r g st :
  o_dict (obj ivy (update_obj r (fun o => with_dict (g o) o) st)) =
  if decide (r = ivy) then g (obj ivy st) else o_dict (obj ivy st).
Proof.
  rewrite obj_update_obj. by destruct (decide (r = ivy)) as [->|Hne].
Qed.

Lemma wrapped_binding_setitem_other k r k0 v st :
  k0 <> k -> wrapped_binding k st ->
  wrapped_binding k (update_obj r (fun o => with_dict (PyDict.set k0 v (o_dict o)) o) st).
Proof.
  intros Hne (impl & orig & c & Hget & Hc). exists impl, orig, c. split; [|done].
  rewrite (ivy_dict_update r (fun o => PyDict.set k0 v (o_dict o))).
  destruct (decide (r = ivy)); [|done]. by rewrite get_set_ne.
Qed.

Lemma wrapped_binding_delitem_other k r k0 st :
  k0 <> k -> wrapped_binding k st ->
  wrapped_binding k (update_obj r (fun o => with_dict (PyDict.del k0 (o_dict o)) o) st).
Proof.
  intros Hne (impl & orig & c & Hget & Hc). exists impl, orig, c. split; [|done].
  rewrite (ivy_dict_update r (fun o => PyDict.del k0 (o_dict o))).
  destruct (decide (r = ivy)); [|done]. by rewrite get_del_ne.
Qed.

Lemma wrapped_binding_elsewhere k r g st :
  r <> ivy -> wrapped_binding k st ->
  wrapped_binding k (update_obj r (fun o => with_dict (g o) o) st).
Proof.
  intros Hne (impl & orig & c & Hget & Hc). exists impl, orig, c. split; [|done].
  rewrite (ivy_dict_update r g). by rewrite decide_False.
Qed.

Lemma post_dict_of r st (Q : outcome (PyDict.t string ref) -> state -> Prop) :
  Q (Ret (o_dict (obj r st))) st -> post (dict_of r) st Q.
Proof. done. Qed.

Lemma post_setitem r k v st (Q : outcome unit -> state -> Prop) :
  Q (Ret tt) (update_obj r (fun o => with_dict (PyDict.set k v (o_dict o)) o) st) ->
  post (setitem r k v) st Q.
Proof. done. Qed.

Lemma post_delitem r k st (Q : outcome unit -> state -> Prop) :
  Q (Ret tt) (update_obj r (fun o => with_dict (PyDict.del k (o_dict o)) o) st) ->
  post (delitem r k) st Q.
Proof. done. Qed.

(** What one turn of the rebinding loop does to the binding of a name [k]
    that is no invalid dtype: it keeps a wrapped binding, and at the public
    namespace the turn of [k] itself makes one. *)
Lemma rebind_entry_spec k nested target backend invalid bstr k0 v st :
  k ∉ invalid ->
  (forall src t b s, frame (wrapped_binding k) (nested src t b (Some invalid) s)) ->
  post (rebind_entry nested target backend invalid bstr k0 v) st (fun o st' =>
    (wrapped_binding k st -> wrapped_binding k st' /\ o <> Hang) /\
    (o = Ret tt -> target = ivy -> k0 = k -> wrapped_binding k st')).
Proof.
  intros Hk Hnested.
  set (Q := fun (o : outcome unit) st' =>
    (wrapped_binding k st -> wrapped_binding k st' /\ o <> Hang) /\
    (o = Ret tt -> target = ivy -> k0 = k -> wrapped_binding k st')).
  assert (Hraise : forall e st2,
    (wrapped_binding k st -> wrapped_binding k st2) -> Q (Raise e) st2).
  { intros e st2 Hkeep. split; [|done]. intros Hw. split; [by apply Hkeep | done]. }
  assert (Htail : forall st2,
    (wrapped_binding k st -> wrapped_binding k st2) ->
    (target = ivy -> k0 = k -> wrapped_binding k st2) ->
    post (vo <- gets (obj v) ;;
          if o_is_module vo
             && PyStr.contains "ivy.functional." (o_name vo)
             && negb (PyStr.contains (bstr +:+ "/__init__.py") (o_file vo))
          then
            td <- dict_of target ;;
            bd <- dict_of backend ;;
            match PyDict.get k0 td, PyDict.get k0 bd with
            | Some target', Some backend' =>
                nested (Live v) target' backend' (Some invalid) (Some bstr)
            | _, _ => raise (KeyError k0)
            end
          else ret tt) st2 Q).
  { intros st2 Hkeep Hmake. apply post_bind, post_gets.
    destruct (_ && _ && _).
    - apply post_bind, post_dict_of, post_bind, post_dict_of.
      destruct (PyDict.get k0 (o_dict (obj target st2))) as [target'|];
        [|by apply post_raise, Hraise].
      destruct (PyDict.get k0 (o_dict (obj backend st2))) as [backend'|];
        [|by apply post_raise, Hraise].
      unfold post. split.
      + intros Hw. by apply Hnested, Hkeep.
      + intros _ Ht Hk0. by apply Hnested, Hmake.
    - apply post_ret. split.
      + intros Hw. split; [by apply Hkeep | done].
      + intros _. apply Hmake. }
  unfold rebind_entry.
  apply post_bind, post_dict_of, post_bind, post_dict_of.
  destruct (PyDict.mem k0 (o_dict (obj backend st))) eqn:Hmem; cbn [negb andb].
  - (* the backend defines [k0] *)
    apply post_bind, post_ret, post_bind, post_dict_of.
    destruct (PyDict.get k0 (o_dict (obj backend st))) as [to_wrap|] eqn:Hget;
      [|by apply post_raise, Hraise].
    apply post_bind, post_setitem. apply Htail.
    + intros Hw. destruct (decide (k0 = k)) as [->|Hne];
        [|by apply wrapped_binding_setitem_other].
      destruct (decide (target = ivy)) as [->|Ht];
        [|by apply wrapped_binding_elsewhere].
      exists to_wrap, v, false. split; [|done].
      rewrite (ivy_dict_update ivy (fun o => PyDict.set k _ (o_dict o))).
      rewrite decide_True by done. by rewrite get_set_eq.
    + intros -> ->. exists to_wrap, v, false. split; [|done].
      rewrite (ivy_dict_update ivy (fun o => PyDict.set k _ (o_dict o))).
      rewrite decide_True by done. by rewrite get_set_eq.
  - (* the backend does not define [k0] *)
    apply mem_false in Hmem.
    destruct (bool_decide (k0 ∈ invalid) && PyDict.mem k0 (o_dict (obj target st))) eqn:Hdel.
    + apply andb_true_iff in Hdel as [Hinv _]. apply bool_decide_eq_true in Hinv.
      assert (Hne : k0 <> k) by (by intros ->).
      apply post_delitem. split; [|done].
      intros Hw. split; [by apply wrapped_binding_delitem_other | done].
    + apply post_bind, post_setitem, post_bind, post_dict_of.
      rewrite (obj_update_obj backend _ st backend), decide_True by done.
      cbn [o_dict with_dict]. rewrite get_set_eq.
      apply post_bind, post_setitem. apply Htail.
      * intros Hw. destruct (decide (k0 = k)) as [->|Hne];
          [|by apply wrapped_binding_setitem_other, wrapped_binding_setitem_other].
        assert (Hb : backend <> ivy).
        { intros ->. destruct Hw as (? & ? & ? & Hget & _). congruence. }
        destruct (decide (target = ivy)) as [->|Ht];
          [|by apply wrapped_binding_elsewhere, wrapped_binding_elsewhere].
        exists v, v, true. split; [|done].
        rewrite (ivy_dict_update ivy (fun o => PyDict.set k _ (o_dict o))).
        rewrite decide_True by done. by rewrite get_set_eq.
      * intros -> ->. exists v, v, true. split; [|done].
        rewrite (ivy_dict_update ivy (fun o => PyDict.set k _ (o_dict o))).
        rewrite decide_True by done. by rewrite get_set_eq.
Qed.

Lemma frame_rebind_entry_wrapped k nested target backend invalid bstr k0 v :
  k ∉ invalid ->
  (forall src t b s, frame (wrapped_binding k) (nested src t b (Some invalid) s)) ->
  frame (wrapped_binding k) (rebind_entry nested target backend invalid bstr k0 v).
Proof.
  intros Hk Hnested st Hw.
  by apply (rebind_entry_spec k nested target backend invalid bstr k0 v st Hk Hnested).
Qed.

(** A nested rebinding pass never unbinds a name that is no invalid dtype. *)
Lemma frame_set_backend_as_ivy_wrapped k invalid :
  k ∉ invalid ->
  forall depth src target backend bstr,
  frame (wrapped_binding k)
        (_set_backend_as_ivy depth src target backend (Some invalid) bstr).
Proof.
  intros Hk. induction depth as [|depth IH]; intros src target backend bstr; simpl.
  - apply frame_raise.
  - apply frame_bind_ret. apply frame_bind.
    { destruct bstr; [apply frame_ret | apply frame_gets]. }
    intros bstr'. apply frame_for_items. intros k0 v.
    apply frame_rebind_entry_wrapped; [done|]. intros src' t b s. apply IH.
Qed.

Lemma bind_Ret_inv {A B} (m : M A) (k : A -> M B) st b st' :
  bind m k st = (Ret b, st') ->
  exists a st1, m st = (Ret a, st1) /\ k a st1 = (Ret b, st').
Proof.
  unfold bind. destruct (m st) as [[a|e|] st1]; [|done..]. intros Hk. by exists a, st1.
Qed.

Lemma for_each_makes {A} (P : state -> Prop) (l : list A) body x st st' :
  x ∈ l ->
  for_each l body st = (Ret tt, st') ->
  (forall y, frame P (body y)) ->
  (forall st1 st2, body x st1 = (Ret tt, st2) -> P st2) ->
  P st'.
Proof.
  intros Hx Hrun Hkeep Hmake. revert st Hrun.
  induction l as [|y l IH]; intros st Hrun; [by apply elem_of_nil in Hx|].
  simpl in Hrun. apply bind_Ret_inv in Hrun as ([] & st1 & Hy & Hrest).
  apply elem_of_cons in Hx as [->|Hx].
  - destruct (frame_for_each P l body Hkeep st1 (Hmake _ _ Hy)) as [HP _].
    by rewrite Hrest in HP.
  - by apply (IH Hx st1).
Qed.

(** The pass over the snapshot binds every name that is no invalid dtype of
    the backend. *)
Lemma set_backend_as_ivy_binds depth original backend st st' k v :
  _set_backend_as_ivy depth (Detached original) ivy backend None None st = (Ret tt, st') ->
  (k, v) ∈ original ->
  k ∉ o_invalid_dtypes (obj backend st) ->
  wrapped_binding k st'.
Proof.
  intros Hrun Hkv Hk. destruct depth as [|depth]; [done|]. simpl in Hrun.
  unfold bind at 1, gets at 1, bind at 1, gets at 1 in Hrun. simpl in Hrun.
  set (invalid := o_invalid_dtypes (obj backend st)) in *.
  assert (Hnested : forall src t b s,
    frame (wrapped_binding k) (_set_backend_as_ivy depth src t b (Some invalid) s)).
  { intros src t b s. by apply frame_set_backend_as_ivy_wrapped. }
  apply (for_each_makes (wrapped_binding k) _ _ (k, v) _ _ Hkv Hrun).
  - intros [k0 v0]. by apply frame_rebind_entry_wrapped.
  - intros st1 st2 Hentry. simpl in Hentry.
    pose proof (rebind_entry_spec k (_set_backend_as_ivy depth) ivy backend invalid
                  (o_backend_str (obj backend st)) k v st1 Hk Hnested) as Hspec.
    apply (post_intro _ _ _ _ _ Hentry) in Hspec. by apply Hspec.
Qed.

(** Predicates that look at the snapshot and at the attributes of the
    modules only. *)
Lemma snapshot_attrs_closed d (inv : ref -> list string) :
  closed (fun s => ivy_original_dict s = d /\
                   forall r, o_invalid_dtypes (obj r s) = inv r).
Proof.
  split.
  - intros st r f Hf [H1 H2]. split; [done|]. intros r'. rewrite obj_update_obj.
    destruct (decide (r = r')) as [->|Hne]; [|apply H2].
    destruct (Hf (obj r' st)) as [_ ->]. apply H2.
  - by intros st g H.
  - by intros st g H.
Qed.

Lemma set_backend_rebind_binds m dynamic variable_ids numpy_objs st st' :
  set_backend_rebind m dynamic variable_ids numpy_objs st = (Ret tt, st') ->
  ivy_original_dict st' = ivy_original_dict st /\
  (forall r, o_invalid_dtypes (obj r st') = o_invalid_dtypes (obj r st)) /\
  forall k v, (k, v) ∈ ivy_original_dict st' ->
              k ∉ o_invalid_dtypes (obj m st') -> wrapped_binding k st'.
Proof.
  intros Hrun.
  pose (P := fun s => ivy_original_dict s = ivy_original_dict st /\
                      forall r, o_invalid_dtypes (obj r s) = o_invalid_dtypes (obj r st)).
  assert (HP : closed P) by apply snapshot_attrs_closed.
  destruct (frame_set_backend_rebind P m dynamic variable_ids numpy_objs HP st)
    as [[Horig Hattr] _]; [done|].
  rewrite Hrun in Horig, Hattr. simpl in Horig, Hattr.
  split; [done|]. split; [done|]. intros k v Hkv Hk.
  unfold set_backend_rebind in Hrun.
  apply bind_Ret_inv in Hrun as ([] & st1 & Hver & Hrun).
  apply bind_Ret_inv in Hrun as (original & st1' & Hget & Hrun).
  injection Hget as <- <-.
  apply bind_Ret_inv in Hrun as ([] & st2 & Hrebind & Hrun).
  destruct (frame_set_backend_to_specific_version P m HP st) as [[Horig1 Hattr1] _]; [done|].
  rewrite Hver in Horig1, Hattr1. simpl in Horig1, Hattr1.
  assert (Hw : wrapped_binding k st2).
  { apply (set_backend_as_ivy_binds _ _ _ _ _ k v Hrebind).
    - by rewrite Horig1, <- Horig.
    - by rewrite Hattr1, <- Hattr. }
  assert (Hobj : objects st' = objects st2).
  { destruct dynamic; [|by injection Hrun as <-].
    destruct (frame_convert_from_numpy_to_target_backend (fun s => objects s = objects st2)
                variable_ids numpy_objs (fun s l H => H) st2 eq_refl) as [Ho _].
    by rewrite Hrun in Ho. }
  destruct Hw as (impl & orig & c & Hget & Hc). exists impl, orig, c. split; [|done].
  unfold obj. by rewrite Hobj.
Qed.


End NamespaceClaims.

(** ** The version resolver *)

Section VersionClaims.

Lemma drop_add_app s t j :
  PyStr.drop (String.length s + j) (s +:+ t) = PyStr.drop j t.
Proof. induction s as [|a s IH]; simpl; [done | apply IH]. Qed.

Lemma drop_length_app s t : PyStr.drop (String.length s) (s +:+ t) = t.
Proof.
  rewrite <- (Nat.add_0_r (String.length s)), drop_add_app. by destruct t.
Qed.

Lemma take_length_app s t : PyStr.take (String.length s) (s +:+ t) = s.
Proof. induction s as [|a s IH]; simpl; [by destruct t | by rewrite IH]. Qed.

Lemma length_append s t :
  String.length (s +:+ t) = String.length s + String.length t.
Proof. induction s as [|a s IH]; simpl; [done | by rewrite IH]. Qed.

Lemma tuple_le_refl a : PyStr.tuple_le a a = true.
Proof.
  induction a as [|x a IH]; simpl; [done|].
  by rewrite Z.ltb_irrefl, Z.eqb_refl.
Qed.

(** A name that ends in a closed range. *)
Lemma fn_name_closed_range n sa sb version a b v :
  let name := n +:+ "_v_" +:+ sa +:+ "_to_" +:+ sb in
  PyStr.find "_v_" name = Some (String.length n) ->
  PyStr.find "_to_" name = Some (String.length n + 3 + String.length sa) ->
  PyStr.ints (PyStr.split "p" sa) = Some a ->
  PyStr.ints (PyStr.split "p" sb) = Some b ->
  version_tuple version = Ret v ->
  fn_name_from_version_specific_fn_name name version =
    Ret (if PyStr.tuple_le a v && PyStr.tuple_le v b then Some n else None).
Proof.
  intros name Hv Hto Ha Hb Hver. unfold fn_name_from_version_specific_fn_name.
  rewrite Hver. cbn [obind]. unfold PyStr.contains, index. rewrite Hto, Hv. cbn [obind].
  assert (Hstart : PyStr.slice (String.length n + 3) (String.length n + 3 + String.length sa) name = sa).
  { unfold PyStr.slice, name.
    replace (String.length n + 3 + String.length sa - (String.length n + 3))
      with (String.length sa) by lia.
    rewrite drop_add_app.
    change (PyStr.take (String.length sa) (sa +:+ "_to_" +:+ sb) = sa).
    apply take_length_app. }
  assert (Hend : PyStr.drop (String.length n + 3 + String.length sa + 4) name = sb).
  { unfold name.
    replace (String.length n + 3 + String.length sa + 4)
      with (String.length n + (3 + (String.length sa + 4))) by lia.
    rewrite drop_add_app.
    change (PyStr.drop (String.length sa + 4) (sa +:+ "_to_" +:+ sb) = sb).
    rewrite drop_add_app. by destruct sb. }
  rewrite Hstart, Hend. unfold int_tuple. rewrite Ha, Hb. cbn [obind].
  unfold name at 1. rewrite take_length_app. by destruct (_ && _).
Qed.

Lemma find_occurrence p s i :
  PyStr.startswith p (PyStr.drop i s) = true -> i <= String.length s ->
  PyStr.find p s <> None.
Proof.
  revert i. induction s as [|a s IH]; intros i Hocc Hi.
  - destruct i; simpl in *; by rewrite Hocc.
  - destruct i as [|i].
    + simpl in Hocc. cbn [PyStr.find PyStr.drop]. by rewrite Hocc.
    + cbn [PyStr.find]. destruct (PyStr.startswith p (String a s)); [done|].
      simpl in Hocc, Hi. specialize (IH i Hocc ltac:(lia)).
      by destruct (PyStr.find p s).
Qed.

(** A name that ends in a range open above. *)
Lemma fn_name_open_range n sa version a v :
  let name := n +:+ "_v_" +:+ sa +:+ "_and_above" in
  PyStr.find "_to_" name = None ->
  PyStr.find "_v_" name = Some (String.length n) ->
  PyStr.find "_and_" name = Some (String.length n + 3 + String.length sa) ->
  PyStr.ints (PyStr.split "p" sa) = Some a ->
  version_tuple version = Ret v ->
  fn_name_from_version_specific_fn_name name version =
    Ret (if PyStr.tuple_le a v then Some n else None).
Proof.
  intros name Hto Hv Hand Ha Hver. unfold fn_name_from_version_specific_fn_name.
  rewrite Hver. cbn [obind]. unfold PyStr.contains, index. rewrite Hto.
  assert (Habove : PyStr.find "_and_above" name <> None).
  { apply (find_occurrence _ _ (String.length n + (3 + String.length sa))).
    - unfold name. rewrite drop_add_app.
      change (PyStr.startswith "_and_above"
                (PyStr.drop (String.length sa) (sa +:+ "_and_above")) = true).
      by rewrite drop_length_app.
    - unfold name. rewrite !length_append. cbn [String.length]. lia. }
  destruct (PyStr.find "_and_above" name); [|done].
  rewrite Hv, Hand. cbn [obind].
  assert (Hstart : PyStr.slice (String.length n + 3) (String.length n + 3 + String.length sa) name = sa).
  { unfold PyStr.slice, name.
    replace (String.length n + 3 + String.length sa - (String.length n + 3))
      with (String.length sa) by lia.
    rewrite drop_add_app.
    change (PyStr.take (String.length sa) (sa +:+ "_and_above") = sa).
    apply take_length_app. }
  rewrite Hstart. unfold int_tuple. rewrite Ha. cbn [obind].
  unfold name at 1. rewrite take_length_app. by destruct (PyStr.tuple_le a v).
Qed.

Lemma find_char_app c s t :
  PyStr.find (String c "") s = None ->
  PyStr.find (String c "") (s +:+ String c t) = Some (String.length s).
Proof.
  induction s as [|a s IH]; simpl.
  - by rewrite Ascii.eqb_refl.
  - destruct (Ascii.eqb c a); [done|].
    destruct (PyStr.find (String c "") s); [done|]. intros _. by rewrite IH.
Qed.

(** The local part of a version, after the first [+], is not read. *)
Lemma version_tuple_local base loc :
  PyStr.find "+" base = None ->
  version_tuple (base +:+ "+" +:+ loc) = version_tuple base.
Proof.
  intros Hbase. unfold version_tuple. rewrite Hbase.
  change (base +:+ "+" +:+ loc) with (base +:+ String "+" loc).
  rewrite (find_char_app _ _ _ Hbase). by rewrite take_length_app.
Qed.

(** One turn of the resolver binds the canonical name to the implementation
    of a version-specific name exactly when the resolver returns a name. *)
Lemma bind_version_specific_spec {E : Externals} st backend f_version key v :
  PyStr.contains "_v_" key = true ->
  PyDict.get key (o_dict (obj backend st)) = Some v ->
  (forall n, n <> "" ->
     fn_name_from_version_specific_fn_name key f_version = Ret (Some n) ->
     exists st', bind_version_specific backend f_version key st = (Ret tt, st') /\
                 PyDict.get n (o_dict (obj backend st')) = Some v /\
                 o_name (obj v st') = n) /\
  (fn_name_from_version_specific_fn_name key f_version = Ret None ->
   bind_version_specific backend f_version key st = (Ret tt, st)).
Proof.
  intros Hkey Hv. unfold bind_version_specific. rewrite Hkey. split.
  - intros n Hn Hname. unfold bind at 1, lift. rewrite Hname.
    destruct n as [|a n]; [done|].
    unfold bind at 1, dict_of, gets. rewrite Hv.
    unfold bind, setitem, modify. eexists. split; [reflexivity|].
    split.
    + rewrite (obj_update_obj v).
      assert (Hset : PyDict.get (String a n)
                (o_dict (obj backend
                   (update_obj backend
                      (fun o => with_dict (PyDict.set (String a n) v (o_dict o)) o) st))) =
              Some v).
      { rewrite obj_update_obj, decide_True by done. apply get_set_eq. }
      by destruct (decide (v = backend)) as [->|Hne].
    + by rewrite obj_update_obj, decide_True.
  - intros Hname. unfold bind, lift. by rewrite Hname.
Qed.


End VersionClaims.

(** * Further properties of the handler *)

(** ** The stack, the snapshot and the package namespace *)

Section StackMore.
Context {E : Externals}.

Lemma keeps_but_namespace_refl st : keeps_but_namespace st st.
Proof. by repeat split. Qed.

Lemma keeps_but_namespace_trans st1 st2 st3 :
  keeps_but_namespace st1 st2 -> keeps_but_namespace st2 st3 -> keeps_but_namespace st1 st3.
Proof.
  intros (H1 & H2 & H3 & H4 & H5 & H6 & H7) (K1 & K2 & K3 & K4 & K5 & K6 & K7).
  repeat split; try congruence. intros r Hr. by rewrite K7, H7.
Qed.

Lemma for_each_inv {A} (I : list A -> state -> Prop) (l : list A) body st :
  I [] st ->
  (forall seen x st1, I seen st1 ->
     exists st2, body x st1 = (Ret tt, st2) /\ I (seen ++ [x]) st2) ->
  exists st', for_each l body st = (Ret tt, st') /\ I l st'.
Proof.
  intros H0 Hstep.
  assert (Hgen : forall seen st0, I seen st0 ->
            exists st', for_each l body st0 = (Ret tt, st') /\ I (seen ++ l) st').
  { induction l as [|x l IH]; intros seen st0 HI.
    - exists st0. by rewrite app_nil_r.
    - destruct (Hstep seen x st0 HI) as (st2 & Hb & HI2).
      destruct (IH (seen ++ [x]) st2 HI2) as (st' & Hrun & HI').
      exists st'. simpl. unfold bind at 1. rewrite Hb.
      split; [done|]. by rewrite <- app_assoc in HI'. }
  exact (Hgen [] st H0).
Qed.

(** What the package namespace binds after the loop of lines 601-605 over a
    dictionary [l]. *)
Lemma get_restore_fold top original (l d : PyDict.t string ref) k :
  NoDup (PyDict.keys l) ->
  PyDict.get k (fold_left (restore_step top original) l d) =
  match PyDict.get k l, PyDict.get k original with
  | Some x, Some orig =>
      Some (match top with
            | Some _ => _wrap_function k x orig compositional_default
            | None => x
            end)
  | _, _ => PyDict.get k d
  end.
Proof.
  revert d. induction l as [|[k0 x0] l IH]; intros d Hnd; [done|].
  simpl in Hnd. apply NoDup_cons in Hnd as [Hk0 Hnd].
  cbn [fold_left PyDict.get]. rewrite IH by done.
  unfold restore_step. cbn [fst snd].
  destruct (decide (k = k0)) as [->|Hne].
  - rewrite (get_keys_None l k0) by done.
    destruct (PyDict.get k0 original); [by rewrite get_set_eq | done].
  - destruct (PyDict.get k l), (PyDict.get k original); try done;
      destruct (PyDict.get k0 original); try done; by rewrite get_set_ne.
Qed.

Lemma restore_loop_spec top l st :
  exists st',
    for_each l (fun kv =>
      original <- gets ivy_original_dict ;;
      match PyDict.get (fst kv) original with
      | Some orig =>
          let v :=
            match top with
            | Some _ => _wrap_function (fst kv) (snd kv) orig compositional_default
            | None => snd kv
            end in
          setitem ivy (fst kv) v
      | None => ret tt
      end) st = (Ret tt, st') /\
    keeps_but_namespace st st' /\
    backend_stack st' = backend_stack st /\
    o_dict (obj ivy st') =
      fold_left (restore_step top (ivy_original_dict st)) l (o_dict (obj ivy st)).
Proof.
  apply (for_each_inv (fun seen s =>
    keeps_but_namespace st s /\ backend_stack s = backend_stack st /\
    o_dict (obj ivy s) =
      fold_left (restore_step top (ivy_original_dict st)) seen (o_dict (obj ivy st)))).
  { split; [apply keeps_but_namespace_refl | done]. }
  intros seen [k v] s (Hk & Hs & Hd).
  unfold bind at 1, gets at 1. cbn [fst snd].
  rewrite fold_left_app. cbn [fold_left]. unfold restore_step at 1. cbn [fst snd].
  destruct Hk as (H1 & H2 & H3 & H4 & H5 & H6 & H7). rewrite H2.
  destruct (PyDict.get k (ivy_original_dict st)) as [orig|]; [|by exists s].
  eexists. split; [reflexivity|]. split; [|split; [done|]].
  - repeat split; try done. intros r Hr. rewrite obj_update_obj.
    rewrite decide_False by done. by apply H7.
  - rewrite ivy_dict_update. rewrite decide_True by done. by rewrite Hd.
Qed.

Lemma set_globals_same st : set_globals (globals st) st = st.
Proof. by destruct st. Qed.

(** [unset_backend] after the pop: the namespace of the package is rebound
    item by item, and nothing else changes but the registry. *)
Lemma restore_namespace_spec backend st :
  exists st',
    restore_namespace backend st = (Ret tt, st') /\
    keeps_but_namespace st st' /\
    backend_stack st' = backend_stack st /\
    o_dict (obj ivy st') =
      fold_left (restore_step (last (backend_stack st)) (ivy_original_dict st))
        (match last (backend_stack st) with
         | Some new_backend => o_dict (obj new_backend st)
         | None => ivy_original_dict st
         end)
        (o_dict (obj ivy st)).
Proof.
  unfold restore_namespace.
  assert (Hpre : exists g,
    (if decide (o_backend_str (obj backend st) = "numpy")
     then modify (fun st => set_globals (unset_default_device (globals st)) st)
     else if decide (o_backend_str (obj backend st) = "jax")
     then modify (fun st => set_globals (del_global_attr "RNG" (globals st)) st)
     else ret tt) st = (Ret tt, set_globals g st)).
  { destruct (decide _); [by eexists|]. destruct (decide _); [by eexists|].
    exists (globals st). by rewrite set_globals_same. }
  destruct Hpre as (g & Hpre).
  unfold bind at 1, gets at 1. unfold bind at 1. rewrite Hpre.
  unfold bind at 1, gets at 1. cbn [backend_stack set_globals].
  assert (Hreg : exists g',
    (match last (backend_stack st) with
     | Some new_backend =>
         s <- gets (fun st => o_backend_str (obj new_backend st)) ;;
         register_backend_globals s
     | None => ret tt
     end) (set_globals g st) = (Ret tt, set_globals g' st)).
  { destruct (last (backend_stack st)) as [nb|]; [|by exists g].
    clear Hpre. unfold bind, gets, register_backend_globals.
    destruct (decide _); [by exists (set_default_device "cpu" g)|].
    destruct (decide _); [by exists (set_global_attr "RNG" jax_RNG g)|].
    by exists g. }
  destruct Hreg as (g' & Hreg). unfold bind at 1. rewrite Hreg.
  unfold bind at 1.
  assert (Hd : (match last (backend_stack st) with
                | Some new_backend => dict_of new_backend
                | None => gets ivy_original_dict
                end) (set_globals g' st) =
               (Ret (match last (backend_stack st) with
                     | Some new_backend => o_dict (obj new_backend st)
                     | None => ivy_original_dict st
                     end), set_globals g' st)).
  { by destruct (last (backend_stack st)). }
  rewrite Hd.
  destruct (restore_loop_spec (last (backend_stack st))
              (match last (backend_stack st) with
               | Some new_backend => o_dict (obj new_backend st)
               | None => ivy_original_dict st
               end) (set_globals g' st)) as (st' & Hrun & Hk & Hs & Hdict).
  exists st'. split; [exact Hrun|]. split; [|split; [done|done]].
  eapply keeps_but_namespace_trans; [|exact Hk]. by repeat split.
Qed.

Lemma unset_backend_pop st stack b :
  is_local st = false -> backend_stack st = stack ++ [b] ->
  exists st',
    unset_backend st = (Ret (Some b), st') /\
    keeps_but_namespace st st' /\
    backend_stack st' = stack /\
    o_dict (obj ivy st') =
      fold_left (restore_step (last stack) (ivy_original_dict st))
        (match last stack with
         | Some new_backend => o_dict (obj new_backend st)
         | None => ivy_original_dict st
         end)
        (o_dict (obj ivy st)).
Proof.
  intros Hloc Hstack.
  destruct (last_snoc_removelast stack b) as [Hlast Hrem].
  destruct (restore_namespace_spec b (set_backend_stack stack st))
    as (st' & Hrun & Hk & Hs & Hd).
  exists st'. split; [|split; [|split; [done|done]]].
  - unfold unset_backend. rewrite prevent_access_locally_global by done.
    unfold unset_backend_body, bind at 1, gets at 1. rewrite Hstack, Hlast, Hrem.
    unfold bind, modify. by rewrite Hrun.
  - eapply keeps_but_namespace_trans; [|exact Hk]. by repeat split.
Qed.


(** The unwinding loop pops every entry; the last pop rebinds the names of
    the snapshot to what the snapshot holds. *)
Lemma unwind_stack_restores stack : forall temp st,
  is_local st = false -> backend_stack st = stack ->
  NoDup (PyDict.keys (ivy_original_dict st)) ->
  exists out st',
    unwind_stack (length stack) temp st = (Ret out, st') /\
    backend_stack st' = [] /\
    keeps_but_namespace st st' /\
    (stack = [] -> st' = st) /\
    (stack <> [] -> forall k v, (k, v) ∈ ivy_original_dict st ->
                                PyDict.get k (o_dict (obj ivy st')) = Some v).
Proof.
  induction stack as [|b stack IH] using rev_ind; intros temp st Hloc Hstack Hnd.
  - exists temp, st. simpl. unfold bind, gets. rewrite Hstack.
    split; [done|]. split; [done|]. split; [apply keeps_but_namespace_refl|]. by split.
  - rewrite length_app, Nat.add_comm. simpl.
    destruct (unset_backend_pop st stack b Hloc Hstack) as (st1 & Hun & Hk1 & Hs1 & Hd1).
    pose proof Hk1 as (_ & Ho1 & _ & Hl1 & _).
    destruct (IH (temp ++ [b]) st1) as (out & st' & Hrun & Hs' & Hk' & Hsame & Hrest);
      [congruence | done | by rewrite Ho1 |].
    exists out, st'. split; [|split; [done|split; [|split]]].
    + unfold bind at 1, gets at 1. rewrite Hstack.
      destruct (stack ++ [b]) eqn:Hsb; [by destruct stack|].
      unfold bind at 1. by rewrite Hun.
    + by eapply keeps_but_namespace_trans.
    + by destruct stack.
    + intros _ k v Hkv. destruct stack as [|b0 stack0].
      * rewrite (Hsame eq_refl), Hd1. cbn [last].
        rewrite get_restore_fold by done. by rewrite (get_NoDup _ _ _ Hnd Hkv).
      * apply Hrest; [done|]. by rewrite Ho1.
Qed.

Lemma closed_and_original P d :
  closed P -> closed (fun s => P s /\ ivy_original_dict s = d).
Proof.
  intros HP. split.
  - intros s r f Hf [H1 H2]. split; [by apply (closed_obj P HP) | done].
  - intros s g [H1 H2]. split; [by apply (closed_globals P HP) | done].
  - intros s l [H1 H2]. split; [by apply (closed_gc P HP) | done].
Qed.

(** The critical section up to the push, for a predicate that holds once
    the snapshot is decided. *)
Lemma set_backend_push_post P sm :
  closed P -> stack_closed P ->
  (forall s, P s -> is_local s = false /\ sys_modules s = sm) ->
  forall b st,
  P (match backend_stack st with
     | [] => set_ivy_original_dict (o_dict (obj ivy st)) st
     | _ :: _ => st
     end) ->
  post (set_backend_push b) st (fun o st' =>
    match o with
    | Ret m => P st' /\ resolves sm b m /\ backend_stack st' = backend_stack st ++ [m]
    | Raise _ => P st'
    | Hang => False
    end).
Proof.
  intros HP HPs Hloc b st HPst.
  pose proof (closed_and_stack P (backend_stack st) HP) as HP'.
  unfold set_backend_push.
  apply post_bind, post_gets, post_bind.
  apply (post_conseq _ _ (fun o st1 => o = Ret tt /\ P st1 /\ backend_stack st1 = backend_stack st)).
  { destruct (backend_stack st) eqn:Hs.
    - apply post_modify. by split.
    - by apply post_ret. }
  intros o st1 (-> & HPst1 & Hst1).
  apply post_bind.
  apply (post_conseq _ _ (fun o st3 =>
    match o with
    | Ret m => P st3 /\ resolves sm b m /\ backend_stack st3 = backend_stack st
    | Raise _ => P st3
    | Hang => False
    end)).
  { destruct b as [name|m].
    - apply post_bind, post_gets, post_bind.
      destruct (unwind_stack_spec P HP HPs (fun s H => proj1 (Hloc s H))
                  (backend_stack st1) [] st1 HPst1 eq_refl) as (st2 & Hun & Hs2 & HPst2).
      unfold post at 1. rewrite Hun. cbn [fst snd app].
      apply post_bind.
      destruct (PyDict.get name _backend_dict) as [path|] eqn:Hname; [|by apply post_raise].
      apply post_import_module; [|done].
      intros m Hm. apply post_bind, post_modify, post_ret.
      split; [by apply HPs|]. split.
      + exists path. split; [done|]. by rewrite <- (proj2 (Hloc st2 HPst2)).
      + simpl. by rewrite Hs2, rev_involutive, Hst1.
    - by apply post_ret. }
  intros [m|e|] st3; [|done..]. intros (HPst3 & Hres & Hst3).
  apply post_bind, post_gets, post_bind.
  apply (post_runs _ _ _ _ (runs_register_backend_globals _ _ HP')); [done|].
  intros _ st4 [HPst4 Hst4].
  apply post_bind, post_modify, post_ret.
  split; [by apply HPs|]. split; [done|]. simpl. by rewrite Hst4.
Qed.

(** The snapshot a call of [set_backend] that returned leaves behind. *)
Lemma set_backend_snapshot_of backend dynamic st st' :
  set_backend backend dynamic st = (Ret tt, st') ->
  ivy_original_dict st' =
    match backend_stack st with
    | [] => o_dict (obj ivy st)
    | _ :: _ => ivy_original_dict st
    end.
Proof.
  intros Hrun.
  destruct (set_backend_returns_inv _ _ _ _ Hrun) as [Hloc Hlock].
  unfold set_backend in Hrun. rewrite prevent_access_locally_global in Hrun by done.
  apply bind_Ret_inv in Hrun as (exported & st1 & Hexp & Hrun).
  apply bind_Ret_inv in Hrun as ([] & st2 & Hacq & Hrun).
  apply bind_Ret_inv in Hrun as (m & st3 & Hpush & Hrun).
  apply bind_Ret_inv in Hrun as ([] & st4 & Hrebind & Hrel).
  set (d := match backend_stack st with
            | [] => o_dict (obj ivy st)
            | _ :: _ => ivy_original_dict st
            end).
  pose (P0 := fun s => same_env st false s /\ objects s = objects st /\
                       ivy_original_dict s = ivy_original_dict st /\
                       backend_stack s = backend_stack st).
  destruct (frame_set_backend_export P0 backend dynamic) with (st := st) as [HP1 _].
  { by intros s l (H1 & H2 & H3 & H4). }
  { split; [|done]. rewrite <- Hlock. by apply same_env_refl. }
  rewrite Hexp in HP1. destruct HP1 as (Henv1 & Hobj1 & Hor1 & Hst1). simpl in *.
  unfold acquire in Hacq. destruct Henv1 as (E1 & E2 & E3 & E4 & E5).
  rewrite E4 in Hacq. injection Hacq as <-.
  pose (P := fun s => same_env st true s /\ ivy_original_dict s = d).
  pose proof (set_backend_push_post P (sys_modules st)) as Hpost.
  specialize (Hpost (closed_and_original _ d (same_env_closed st true))).
  specialize (Hpost (fun s stk H => H)).
  specialize (Hpost (fun s H => conj (proj1 (proj1 H)) (proj1 (proj2 (proj1 H))))).
  specialize (Hpost backend (set_lock_held true st1)).
  apply (post_intro _ _ _ _ _ Hpush) in Hpost.
  2: { cbn [backend_stack set_lock_held]. rewrite Hst1. unfold d, obj.
       destruct (backend_stack st).
       - split; [done|]. cbn. by rewrite Hobj1.
       - split; [done|]. by cbn. }
  destruct Hpost as ((_ & Hd3) & _).
  destruct (set_backend_rebind_binds _ _ _ _ _ _ Hrebind) as (Hor4 & _).
  unfold release in Hrel. destruct (lock_held st4); [|done].
  injection Hrel as <-. cbn. congruence.
Qed.

(** ** More about the stack *)

(** X1.  For the global package [unset_backend] never raises.  It returns
    the top of the stack and leaves the entries below it, or returns [None]
    on an empty stack and then changes nothing.  The implicit backend, the
    snapshot, the lock, the tracked tensors and every object but the package
    are as before. *)
Theorem unset_backend_pops st :
  is_local st = false ->
  exists st',
    unset_backend st = (Ret (last (backend_stack st)), st') /\
    backend_stack st' = removelast (backend_stack st) /\
    keeps_but_namespace st st' /\
    (backend_stack st = [] -> st' = st).
Proof.
  intros Hloc. destruct (backend_stack st) as [|b stack _] eqn:Hstack using rev_ind.
  - exists st. split; [|split; [done|split; [apply keeps_but_namespace_refl|done]]].
    unfold unset_backend. rewrite prevent_access_locally_global by done.
    by apply unset_backend_body_none.
  - destruct (unset_backend_pop st stack b Hloc Hstack) as (st' & Hun & Hk & Hs & _).
    exists st'. rewrite last_snoc, removelast_last.
    split; [done|]. split; [done|]. split; [done|]. intros Hnil. by destruct stack.
Qed.

(** X2.  Unsetting the only backend of the stack gives the package back its
    own implementations: every name of the snapshot is bound to what the
    snapshot holds, names outside the snapshot keep their binding, and no
    other object changes. *)
Theorem unset_last_backend_restores st b :
  is_local st = false -> backend_stack st = [b] ->
  NoDup (PyDict.keys (ivy_original_dict st)) ->
  exists st',
    unset_backend st = (Ret (Some b), st') /\
    backend_stack st' = [] /\
    ivy_original_dict st' = ivy_original_dict st /\
    (forall k v, (k, v) ∈ ivy_original_dict st ->
                 PyDict.get k (o_dict (obj ivy st')) = Some v) /\
    (forall k, k ∉ PyDict.keys (ivy_original_dict st) ->
               PyDict.get k (o_dict (obj ivy st')) = PyDict.get k (o_dict (obj ivy st))) /\
    (forall r, r <> ivy -> obj r st' = obj r st).
Proof.
  intros Hloc Hstack Hnd.
  destruct (unset_backend_pop st [] b Hloc Hstack) as (st' & Hun & Hk & Hs & Hd).
  destruct Hk as (_ & Ho & _ & _ & _ & _ & Hobj). cbn [last] in Hd.
  exists st'. split; [done|]. split; [done|]. split; [done|]. split; [|split; [|done]].
  - intros k v Hkv. rewrite Hd, get_restore_fold by done.
    by rewrite (get_NoDup _ _ _ Hnd Hkv).
  - intros k Hk. rewrite Hd, get_restore_fold by done.
    by rewrite (get_keys_None _ _ Hk).
Qed.

(** X3.  Unsetting a backend above another one makes that one active again:
    every name it defines that is also a name of the snapshot is bound in
    the package to the wrapped implementation of that backend; every other
    name keeps its binding. *)
Theorem unset_backend_rebinds_previous st stack previous b :
  is_local st = false -> backend_stack st = stack ++ [previous; b] ->
  NoDup (PyDict.keys (o_dict (obj previous st))) ->
  exists st',
    unset_backend st = (Ret (Some b), st') /\
    backend_stack st' = stack ++ [previous] /\
    (forall k v orig,
       PyDict.get k (o_dict (obj previous st)) = Some v ->
       PyDict.get k (ivy_original_dict st) = Some orig ->
       PyDict.get k (o_dict (obj ivy st')) =
         Some (_wrap_function k v orig compositional_default)) /\
    (forall k,
       PyDict.get k (o_dict (obj previous st)) = None \/
       PyDict.get k (ivy_original_dict st) = None ->
       PyDict.get k (o_dict (obj ivy st')) = PyDict.get k (o_dict (obj ivy st))).
Proof.
  intros Hloc Hstack Hnd.
  destruct (unset_backend_pop st (stack ++ [previous]) b Hloc) as (st' & Hun & Hk & Hs & Hd).
  { by rewrite <- app_assoc. }
  rewrite last_snoc in Hd.
  exists st'. split; [done|]. split; [done|]. split.
  - intros k v orig Hv Horig. rewrite Hd, get_restore_fold by done. by rewrite Hv, Horig.
  - intros k Hk'. rewrite Hd, get_restore_fold by done.
    destruct Hk' as [-> | ->]; [done|]. by destruct (PyDict.get k _).
Qed.

(** X4.  [clear_backend_stack] always returns, with an empty stack; when the
    stack was not empty, every name of the snapshot is bound in the package
    to what the snapshot holds. *)
Theorem clear_backend_stack_restores st :
  is_local st = false ->
  NoDup (PyDict.keys (ivy_original_dict st)) ->
  exists st',
    clear_backend_stack st = (Ret tt, st') /\
    backend_stack st' = [] /\
    ivy_original_dict st' = ivy_original_dict st /\
    implicit_backend st' = implicit_backend st /\
    (backend_stack st <> [] ->
     forall k v, (k, v) ∈ ivy_original_dict st ->
                 PyDict.get k (o_dict (obj ivy st')) = Some v).
Proof.
  intros Hloc Hnd.
  destruct (unwind_stack_restores (backend_stack st) [] st Hloc eq_refl Hnd)
    as (out & st' & Hrun & Hs & Hk & _ & Hrest).
  destruct Hk as (Hi & Ho & _).
  exists st'. split; [|done].
  unfold clear_backend_stack. rewrite prevent_access_locally_global by done.
  unfold bind at 1, gets at 1. unfold bind at 1. by rewrite Hrun.
Qed.

(** X5.  [set_backend] takes the snapshot of the package namespace only when
    the stack is empty; above another backend it keeps the snapshot it has. *)
Theorem set_backend_snapshot backend dynamic st st' :
  set_backend backend dynamic st = (Ret tt, st') ->
  (backend_stack st = [] -> ivy_original_dict st' = o_dict (obj ivy st)) /\
  (backend_stack st <> [] -> ivy_original_dict st' = ivy_original_dict st).
Proof.
  intros Hrun. rewrite (set_backend_snapshot_of _ _ _ _ Hrun).
  destruct (backend_stack st); by split.
Qed.

(** X6.  Setting a backend on an empty stack and unsetting it again gives
    every name of the package namespace the binding it had before. *)
Theorem set_then_unset_restores backend dynamic st st1 :
  backend_stack st = [] ->
  NoDup (PyDict.keys (o_dict (obj ivy st))) ->
  set_backend backend dynamic st = (Ret tt, st1) ->
  exists m st2,
    resolves (sys_modules st) backend m /\
    unset_backend st1 = (Ret (Some m), st2) /\
    backend_stack st2 = [] /\
    forall k v, PyDict.get k (o_dict (obj ivy st)) = Some v ->
                PyDict.get k (o_dict (obj ivy st2)) = Some v.
Proof.
  intros Hstack Hnd Hrun.
  pose proof (set_backend_snapshot_of _ _ _ _ Hrun) as Hsnap. rewrite Hstack in Hsnap.
  destruct (set_backend_returns_inv _ _ _ _ Hrun) as [Hloc Hlock].
  pose proof (set_backend_spec backend dynamic st Hloc Hlock) as Hspec.
  apply (post_intro _ _ _ _ _ Hrun) in Hspec.
  destruct Hspec as [(Hl1 & _) (m & Hres & Hs1)]. rewrite Hstack in Hs1.
  destruct (unset_backend_pop st1 [] m Hl1 Hs1) as (st2 & Hun & _ & Hs2 & Hd).
  exists m, st2. split; [done|]. split; [done|]. split; [done|].
  intros k v Hkv. cbn [last] in Hd. rewrite Hd, Hsnap, get_restore_fold by done.
  by rewrite Hkv.
Qed.

(** X7.  When the module of a registered name cannot be imported,
    [set_backend] raises the import error after the stack was unwound and
    before it is replayed: the stack is left empty, and the lock held. *)
Theorem set_backend_import_failure st name path :
  is_local st = false -> lock_held st = false ->
  PyDict.get name _backend_dict = Some path ->
  sys_modules st !! path = None ->
  exists st',
    set_backend (BName name) false st = (Raise (ImportError path), st') /\
    backend_stack st' = [] /\
    lock_held st' = true.
Proof.
  intros Hloc Hlock Hname Hpath.
  pose (P := fun s => is_local s = false /\ sys_modules s = sys_modules st /\
                      lock_held s = true).
  assert (HP : closed P) by (by split).
  assert (HPs : stack_closed P) by (by intros s stk H).
  unfold set_backend. rewrite prevent_access_locally_global by done.
  unfold bind at 1, set_backend_export, bind at 1, check_false.
  assert (Hmem : PyDict.mem name _backend_dict = true) by (apply mem_true; by exists path).
  rewrite Hmem. cbn [negb]. unfold ret at 1 2.
  unfold bind at 1, acquire. rewrite Hlock.
  unfold bind at 1, set_backend_push, bind at 1, gets at 1. unfold bind at 1.
  cbn [backend_stack set_lock_held].
  set (st1 := set_lock_held true st).
  assert (Hsnap : exists st2,
    (match backend_stack st with
     | [] => modify (fun st => set_ivy_original_dict (o_dict (obj ivy st)) st)
     | _ :: _ => ret tt
     end) st1 = (Ret tt, st2) /\ P st2 /\ backend_stack st2 = backend_stack st).
  { destruct (backend_stack st) eqn:Hs; eexists; (split; [reflexivity|]); by split. }
  destruct Hsnap as (st2 & -> & HP2 & Hs2).
  unfold bind at 1. unfold bind at 1, gets at 1. unfold bind at 1.
  destruct (unwind_stack_spec P HP HPs (fun s H => proj1 H) (backend_stack st2) [] st2 HP2 eq_refl)
    as (st3 & Hun & Hs3 & (_ & Hsm3 & Hl3)).
  rewrite Hun. unfold bind at 1. rewrite Hname. unfold import_module.
  rewrite Hsm3, Hpath. by exists st3.
Qed.

(** X8.  A [ContextManager] leaves the stack as it found it: once
    [__enter__] has returned, the module is the active backend, and
    [__exit__] returns with the stack of before, whatever the body raised. *)
Theorem context_manager_restores_stack (self : ContextManager) exc st st1 :
  __enter__ self st = (Ret tt, st1) ->
  exists m st2,
    resolves (sys_modules st) (module self) m /\
    last (backend_stack st1) = Some m /\
    __exit__ self exc st1 = (Ret tt, st2) /\
    backend_stack st2 = backend_stack st /\
    lock_held st2 = false.
Proof.
  intros Hrun. unfold __enter__ in Hrun.
  destruct (set_backend_returns_inv _ _ _ _ Hrun) as [Hloc Hlock].
  pose proof (set_backend_spec (module self) false st Hloc Hlock) as Hspec.
  apply (post_intro _ _ _ _ _ Hrun) in Hspec.
  destruct Hspec as [(Hl1 & _ & _ & Hlk1 & _) (m & Hres & Hs1)].
  destruct (unset_backend_pop st1 (backend_stack st) m Hl1 Hs1) as (st2 & Hun & Hk & Hs2 & _).
  exists m, st2. split; [done|]. split; [by rewrite Hs1, last_snoc|].
  split; [|split; [done|]].
  - unfold __exit__, bind. by rewrite Hun.
  - destruct Hk as (_ & _ & -> & _). done.
Qed.

(** X9.  A local package refuses every call that would change the global
    backend, and is its own backend. *)
Theorem local_package_guard st backend dynamic draw excluded args kwargs requested :
  is_local st = true ->
  set_backend backend dynamic st =
    (Raise (RuntimeError "Calling set_backend is not allowed on this object."), st) /\
  unset_backend st =
    (Raise (RuntimeError "Calling unset_backend is not allowed on this object."), st) /\
  clear_backend_stack st =
    (Raise (RuntimeError "Calling clear_backend_stack is not allowed on this object."), st) /\
  choose_random_backend draw excluded st =
    (Raise (RuntimeError "Calling choose_random_backend is not allowed on this object."), st) /\
  current_backend args kwargs st = (Ret ivy, st) /\
  get_backend requested st = (Ret (AModule ivy), st).
Proof.
  intros Hloc.
  unfold set_backend, unset_backend, clear_backend_stack, choose_random_backend,
    current_backend, get_backend, prevent_access_locally, bind, gets.
  by rewrite Hloc.
Qed.

End StackMore.

(** ** Inference and the current backend *)

Section InferenceMore.
Context {E : Externals}.

Lemma determine_cons_list arg rest :
  _determine_backend_from_args (PList (arg :: rest)) =
  (lib <- _determine_backend_from_args arg ;;
   match lib with
   | Some f => ret (Some f)
   | None => _determine_backend_from_args (PList rest)
   end).
Proof. reflexivity. Qed.

Lemma determine_cons_tuple arg rest :
  _determine_backend_from_args (PTuple (arg :: rest)) =
  (lib <- _determine_backend_from_args arg ;;
   match lib with
   | Some f => ret (Some f)
   | None => _determine_backend_from_args (PTuple rest)
   end).
Proof. reflexivity. Qed.

Lemma determine_cons_dict key value rest :
  _determine_backend_from_args (PDict ((key, value) :: rest)) =
  (lib <- _determine_backend_from_args value ;;
   match lib with
   | Some f => ret (Some f)
   | None => _determine_backend_from_args (PDict rest)
   end).
Proof. reflexivity. Qed.

(** Every outcome of the inference is an outcome of its last branch, on
    some class module, or "nothing found". *)
Lemma determine_backend_from_args_outcome st (Q : outcome (option ref) -> Prop) :
  Q (Ret None) ->
  (forall m, Q ((backend_of_class_module m st).1)) ->
  forall args, Q ((_determine_backend_from_args args st).1).
Proof.
  intros Hnone Hleaf. fix IH 1. intros args.
  assert (Hvalues : forall items : list (string * pyval),
            Q ((_determine_backend_from_args (PDict items) st).1)).
  { fix IHl 1. intros [|[key value] rest]; [exact Hnone|].
    rewrite determine_cons_dict. unfold bind.
    pose proof (IH value) as Hv.
    pose proof (determine_backend_from_args_state value st) as Hst.
    destruct (_determine_backend_from_args value st) as [[[f|]|e|] st1];
      simpl in Hv, Hst; subst; try exact Hv.
    apply IHl. }
  assert (Helements : forall xs : list pyval,
            Q ((_determine_backend_from_args (PList xs) st).1)).
  { fix IHl 1. intros [|arg rest]; [exact Hnone|].
    rewrite determine_cons_list. unfold bind.
    pose proof (IH arg) as Hv.
    pose proof (determine_backend_from_args_state arg st) as Hst.
    destruct (_determine_backend_from_args arg st) as [[[f|]|e|] st1];
      simpl in Hv, Hst; subst; try exact Hv.
    apply IHl. }
  destruct args as [m data|items|xs|xs|m].
  - destruct data as [m' d'|items|xs|xs|m']; try apply Hleaf. apply Hvalues.
  - apply Hvalues.
  - apply Helements.
  - apply Helements.
  - apply Hleaf.
Qed.

Lemma array_types_registered cm path :
  PyDict.get cm _array_types = Some path ->
  exists name, PyDict.get name _backend_dict = Some path /\
               PyDict.get path _backend_reverse_dict = Some name.
Proof.
  intros Hcm. apply get_Some_elem in Hcm.
  assert (Hall : Forall (fun kv : string * string =>
            exists name, PyDict.get name _backend_dict = Some (snd kv) /\
                         PyDict.get (snd kv) _backend_reverse_dict = Some name)
            _array_types).
  { unfold _array_types.
    repeat (constructor;
      [first [by exists "numpy" | by exists "jax" | by exists "tensorflow"
             | by exists "torch" | by exists "mindspore"]|]).
    constructor. }
  rewrite Forall_forall in Hall. exact (Hall (cm, path) Hcm).
Qed.

(** How the last branch ends on a class module. *)
Lemma backend_of_class_module_ends m st :
  match (backend_of_class_module m st).1 with
  | Ret None => True
  | Ret (Some f) => registered_backend (sys_modules st) f
  | Raise e =>
      exists cm path, PyDict.get cm _array_types = Some path /\
                      sys_modules st !! path = None /\ e = ImportError path
  | Hang => False
  end.
Proof.
  unfold backend_of_class_module.
  destruct (PyDict.get m _array_types) as [path|] eqn:Hm; [|done].
  unfold bind, import_module.
  destruct (sys_modules st !! path) as [f|] eqn:Hpath; cbn [fst].
  - destruct (array_types_registered m path Hm) as (name & Hname & Hrev).
    by exists m, path, name.
  - by exists m, path.
Qed.

(** The inference raises only the import error of a module that is not
    installed, and always ends. *)
Lemma determine_backend_from_args_raises args st :
  match (_determine_backend_from_args args st).1 with
  | Ret _ => True
  | Raise e => exists path, e = ImportError path /\ sys_modules st !! path = None
  | Hang => False
  end.
Proof.
  apply (determine_backend_from_args_outcome st (fun o =>
    match o with
    | Ret _ => True
    | Raise e => exists path, e = ImportError path /\ sys_modules st !! path = None
    | Hang => False
    end)); [done|].
  intros m. pose proof (backend_of_class_module_ends m st) as Hleaf.
  destruct (backend_of_class_module m st).1 as [lib|e|]; [done| |done].
  destruct Hleaf as (cm & path & _ & Hpath & ->). by exists path.
Qed.


(** X11.  A list, a tuple and the values of a dictionary are searched in
    order, and the first element a backend is found for decides: what comes
    after it is not looked at. *)
Theorem first_found_wins st f :
  (forall xs x ys,
     Forall (fun a => _determine_backend_from_args a st = (Ret None, st)) xs ->
     _determine_backend_from_args x st = (Ret (Some f), st) ->
     _determine_backend_from_args (PList (xs ++ x :: ys)) st = (Ret (Some f), st) /\
     _determine_backend_from_args (PTuple (xs ++ x :: ys)) st = (Ret (Some f), st)) /\
  (forall items key value rest,
     Forall (fun kv => _determine_backend_from_args (snd kv) st = (Ret None, st)) items ->
     _determine_backend_from_args value st = (Ret (Some f), st) ->
     _determine_backend_from_args (PDict (items ++ (key, value) :: rest)) st =
       (Ret (Some f), st)).
Proof.
  split.
  - intros xs x ys Hxs Hx. induction Hxs as [|a xs Ha Hxs IH]; cbn [app].
    + rewrite determine_cons_list, determine_cons_tuple. unfold bind. by rewrite Hx.
    + rewrite determine_cons_list, determine_cons_tuple. unfold bind. by rewrite Ha.
  - intros items key value rest Hitems Hv.
    induction Hitems as [|[k a] items Ha Hitems IH]; cbn [app].
    + rewrite determine_cons_dict. unfold bind. by rewrite Hv.
    + rewrite determine_cons_dict. unfold bind. simpl in Ha. by rewrite Ha.
Qed.


End InferenceMore.

(** ** The version resolver on other names *)

Section VersionMore.
Context {E : Externals}.

Lemma startswith_app p s :
  PyStr.startswith p s = true -> s = p +:+ PyStr.drop (String.length p) s.
Proof.
  revert s. induction p as [|a p IH]; intros s Hs; [by destruct s|].
  destruct s as [|b s]; [done|]. simpl in Hs.
  destruct (Ascii.eqb a b) eqn:Hab; [|done].
  apply Ascii.eqb_eq in Hab as ->.
  change (String b s = String b (p +:+ PyStr.drop (String.length p) s)).
  f_equal. by apply IH.
Qed.

(** Where [find] finds [p], there [p] is. *)
Lemma find_Some_split p s i :
  PyStr.find p s = Some i ->
  s = PyStr.take i s +:+ p +:+ PyStr.drop (i + String.length p) s /\
  String.length (PyStr.take i s) = i.
Proof.
  revert i. induction s as [|a s IH]; intros i.
  - cbn [PyStr.find]. destruct (PyStr.startswith p "") eqn:Hp; [|done].
    intros [= <-]. split; [|done]. by apply startswith_app in Hp.
  - cbn [PyStr.find]. destruct (PyStr.startswith p (String a s)) eqn:Hp.
    + intros [= <-]. split; [|done]. by apply startswith_app in Hp.
    + destruct (PyStr.find p s) as [j|]; [|done]. intros [= <-].
      destruct (IH j eq_refl) as [Hs Hl]. cbn [PyStr.take String.length Nat.add PyStr.drop].
      split; [|by rewrite Hl].
      change (String a s =
              String a (PyStr.take j s +:+ p +:+ PyStr.drop (j + String.length p) s)).
      by rewrite <- Hs.
Qed.

Lemma fn_name_is_take name version n :
  fn_name_from_version_specific_fn_name name version = Ret (Some n) ->
  exists i, PyStr.find "_v_" name = Some i /\ n = PyStr.take i name.
Proof.
  unfold fn_name_from_version_specific_fn_name, index, int_tuple. intros H.
  destruct (version_tuple version) as [v|e|]; cbn [obind] in H; [|done..].
  destruct (PyStr.find "_v_" name) as [i|]; [exists i|].
  - split; [done|].
    repeat match type of H with
    | context [if ?b then _ else _] => destruct b
    | context [match ?x with _ => _ end] => destruct x; cbn [obind] in H
    end; congruence.
  - repeat match type of H with
    | context [if ?b then _ else _] => destruct b
    end; done.
Qed.

(** X13.  The canonical name the resolver returns is the part of the name
    before its first [_v_]. *)
Theorem canonical_name_is_prefix name version n :
  fn_name_from_version_specific_fn_name name version = Ret (Some n) ->
  PyStr.find "_v_" name = Some (String.length n) /\
  exists range, name = n +:+ "_v_" +:+ range.
Proof.
  intros H. destruct (fn_name_is_take _ _ _ H) as (i & Hv & ->).
  destruct (find_Some_split _ _ _ Hv) as [Hs Hl]. split; [by rewrite Hl|].
  by exists (PyStr.drop (i + 3) name).
Qed.

(** A name without a range the resolver can read. *)
Lemma fn_name_unreadable name version :
  PyStr.find "_v_" name = None \/
  (PyStr.contains "_to_" name = false /\ PyStr.find "_and_" name = None) ->
  exists message,
    fn_name_from_version_specific_fn_name name version = Raise (ValueError message).
Proof.
  intros Hname. unfold fn_name_from_version_specific_fn_name, version_tuple, int_tuple at 1 2.
  assert (Hver : forall k : list Z -> outcome (option string),
    (forall v, exists message, k v = Raise (ValueError message)) ->
    exists message,
      obind (match PyStr.find "+" version with
             | Some i =>
                 match PyStr.ints (PyStr.split "." (PyStr.take i version)) with
                 | Some t => Ret t
                 | None => Raise (ValueError "invalid literal for int() with base 10")
                 end
             | None =>
                 match PyStr.ints (PyStr.split "." version) with
                 | Some t => Ret t
                 | None => Raise (ValueError "invalid literal for int() with base 10")
                 end
             end) k = Raise (ValueError message)).
  { intros k Hk. destruct (PyStr.find "+" version);
      (destruct (PyStr.ints _); [apply Hk | by eexists]). }
  apply Hver. intros v. unfold index.
  destruct Hname as [Hv | [Hto Hand]].
  - rewrite Hv. cbn [obind].
    destruct (PyStr.contains "_to_" name); [by eexists|].
    destruct (PyStr.contains "_and_above" name); by eexists.
  - rewrite Hto, Hand.
    destruct (PyStr.contains "_and_above" name);
      destruct (PyStr.find "_v_" name); by eexists.
Qed.

Lemma for_each_stops {A} (l : list A) body x :
  x ∈ l ->
  (forall st, exists e, body x st = (Raise e, st)) ->
  forall st, (for_each l body st).1 <> Ret tt.
Proof.
  intros Hx Hbody. induction l as [|y l IH]; intros st; [by apply elem_of_nil in Hx|].
  simpl. unfold bind.
  apply elem_of_cons in Hx as [<-|Hx].
  - destruct (Hbody st) as (e & ->). done.
  - destruct (body y st) as [[[]|e|] st1]; [by apply IH | done..].
Qed.

(** X14.  A name of the backend namespace that contains [_v_] but neither
    [_to_] nor [_and_] is not skipped: the resolver raises [ValueError] on
    it, and so does [set_backend_to_specific_version] on the whole backend,
    unless an earlier step already raised. *)
Theorem stray_version_marker st backend key :
  key ∈ PyDict.keys (o_dict (obj backend st)) ->
  PyStr.contains "_v_" key = true ->
  PyStr.contains "_to_" key = false ->
  PyStr.find "_and_" key = None ->
  (forall version, exists message,
     fn_name_from_version_specific_fn_name key version = Raise (ValueError message)) /\
  exists e, (set_backend_to_specific_version backend st).1 = Raise e.
Proof.
  intros Hin Hv Hto Hand.
  assert (Hres : forall version, exists message,
            fn_name_from_version_specific_fn_name key version = Raise (ValueError message)).
  { intros version. apply fn_name_unreadable. by right. }
  split; [exact Hres|].
  destruct (frame_set_backend_to_specific_version (fun _ => True) backend) with (st := st)
    as [_ Hhang]; [by split | done |].
  assert (Hret : (set_backend_to_specific_version backend st).1 <> Ret tt).
  { unfold set_backend_to_specific_version, bind at 1, gets at 1. unfold bind at 1, lift.
    destruct (index "backends" (o_name (obj backend st))) as [i|e|]; [|done..].
    unfold bind at 1, import_module.
    destruct (sys_modules st !! _) as [f|]; [|done].
    unfold bind at 1, gets at 1. unfold bind at 1, dict_of, gets.
    apply (for_each_stops _ _ key Hin). intros s.
    unfold bind_version_specific. rewrite Hv. unfold bind, lift.
    destruct (Hres (o_version (obj f st))) as (message & ->). by eexists. }
  destruct (set_backend_to_specific_version backend st) as [[[]|e|] st']; simpl in *;
    [done | by exists e | done].
Qed.

(** X15.  A name whose range starts with [_and_] and is not [_and_above] is
    read as a range open below, whatever follows [_and_]: it gives the
    canonical name exactly when the version is at most the bound. *)
Theorem range_open_below n sa suffix version a v :
  let name := n +:+ "_v_" +:+ sa +:+ "_and_" +:+ suffix in
  PyStr.contains "_to_" name = false ->
  PyStr.contains "_and_above" name = false ->
  PyStr.find "_v_" name = Some (String.length n) ->
  PyStr.find "_and_" name = Some (String.length n + 3 + String.length sa) ->
  PyStr.ints (PyStr.split "p" sa) = Some a ->
  version_tuple version = Ret v ->
  fn_name_from_version_specific_fn_name name version =
    Ret (if PyStr.tuple_le v a then Some n else None).
Proof.
  intros name Hto Habove Hv Hand Ha Hver. unfold fn_name_from_version_specific_fn_name.
  rewrite Hver. cbn [obind]. rewrite Hto, Habove. unfold index. rewrite Hv, Hand.
  cbn [obind].
  assert (Hstart : PyStr.slice (String.length n + 3) (String.length n + 3 + String.length sa) name = sa).
  { unfold PyStr.slice, name.
    replace (String.length n + 3 + String.length sa - (String.length n + 3))
      with (String.length sa) by lia.
    rewrite drop_add_app.
    change (PyStr.take (String.length sa) (sa +:+ "_and_" +:+ suffix) = sa).
    apply take_length_app. }
  rewrite Hstart. unfold int_tuple. rewrite Ha. cbn [obind].
  unfold name at 1. rewrite take_length_app. by destruct (PyStr.tuple_le v a).
Qed.

Lemma tuple_le_longer b z more : PyStr.tuple_le (b ++ z :: more) b = false.
Proof.
  induction b as [|x b IH]; simpl; [done|].
  by rewrite Z.ltb_irrefl, Z.eqb_refl.
Qed.

(** X16.  Versions are compared as tuples, so a version with more components
    than the upper bound of a range, and equal to it on the components of
    the bound, lies above the range: the name is not resolved. *)
Theorem longer_version_above_bound n sa sb version a b z more :
  let name := n +:+ "_v_" +:+ sa +:+ "_to_" +:+ sb in
  PyStr.find "_v_" name = Some (String.length n) ->
  PyStr.find "_to_" name = Some (String.length n + 3 + String.length sa) ->
  PyStr.ints (PyStr.split "p" sa) = Some a ->
  PyStr.ints (PyStr.split "p" sb) = Some b ->
  version_tuple version = Ret (b ++ z :: more) ->
  fn_name_from_version_specific_fn_name name version = Ret None.
Proof.
  intros name Hv Hto Ha Hb Hver.
  unfold name. rewrite (fn_name_closed_range n sa sb version a b (b ++ z :: more)) by done.
  by rewrite tuple_le_longer, andb_false_r.
Qed.

Lemma for_each_idle {A} (l : list A) body st :
  (forall x, x ∈ l -> body x st = (Ret tt, st)) -> for_each l body st = (Ret tt, st).
Proof.
  induction l as [|x l IH]; intros Hb; [done|].
  simpl. unfold bind. rewrite (Hb x) by apply list_elem_of_here.
  apply IH. intros y Hy. apply Hb. by apply list_elem_of_further.
Qed.


End VersionMore.

(** ** The two phases of the converter *)

Section ConverterMore.
Context {E : Externals}.

Lemma get_is_Some {K V} `{EqDecision K} (d : PyDict.t K V) k :
  k ∈ PyDict.keys d -> exists v, PyDict.get k d = Some v.
Proof.
  induction d as [|[k' v'] d IH]; simpl; intros Hk; [by apply elem_of_nil in Hk|].
  destruct (decide (k = k')) as [->|Hne]; [by eexists|].
  apply elem_of_cons in Hk as [?|Hk]; [done | by apply IH].
Qed.

(** Every object the export phase visits is a tracked object. *)
Lemma export_candidates_tracked gc r :
  r ∈ export_candidates gc -> r ∈ PyDict.keys gc.
Proof.
  unfold export_candidates. intros Hr. apply elem_of_app in Hr as [Hr|Hr].
  - apply list_elem_of_fmap in Hr as ([r1 a] & -> & Hr).
    apply remove_intermediate_arrays_elem in Hr as [Hr _].
    apply list_elem_of_filter in Hr as [_ Hr]. apply elem_of_arrays_of in Hr.
    by apply elem_of_keys in Hr.
  - apply list_elem_of_fmap in Hr as ([r1 c] & -> & Hr).
    apply elem_of_containers_of in Hr. by apply elem_of_keys in Hr.
Qed.

Lemma export_loop_idle cands variable_ids numpy_objs st :
  (forall r, r ∈ cands -> exists obj, PyDict.get r (gc_objects st) = Some obj /\
                                      dynamic_backend obj = false) ->
  export_loop cands variable_ids numpy_objs st = (Ret (variable_ids, numpy_objs), st).
Proof.
  induction cands as [|r rest IH]; intros Hc; [done|].
  simpl. unfold bind at 1, tracked_object, bind at 1, gets at 1.
  destruct (Hc r) as (obj & -> & Hdyn); [apply list_elem_of_here|].
  unfold ret at 1. rewrite Hdyn. apply IH.
  intros r' Hr'. apply Hc. by apply list_elem_of_further.
Qed.

(** X18.  When no tracked object has its [dynamic_backend] flag set, the
    export phase converts nothing and records nothing: it returns its
    arguments and leaves the state as it is. *)
Theorem export_nothing_dynamic st variable_ids numpy_objs :
  (forall r obj, (r, obj) ∈ gc_objects st -> dynamic_backend obj = false) ->
  convert_from_source_backend_to_numpy variable_ids numpy_objs st =
    (Ret (variable_ids, numpy_objs), st).
Proof.
  intros Hdyn. unfold convert_from_source_backend_to_numpy, bind, gets.
  apply export_loop_idle. intros r Hr.
  apply export_candidates_tracked, get_is_Some in Hr as (obj & Hobj).
  exists obj. split; [done|]. apply (Hdyn r). by apply get_Some_elem.
Qed.

Lemma variable_at_ext gc gc' r :
  PyDict.get r gc' = PyDict.get r gc -> variable_at gc' r = variable_at gc r.
Proof. unfold variable_at. by intros ->. Qed.

(** The identifiers the loop of the export phase records as variables. *)
Lemma export_loop_variables cands :
  NoDup cands ->
  forall variable_ids numpy_objs st variable_ids' numpy_objs' st',
  export_loop cands variable_ids numpy_objs st = (Ret (variable_ids', numpy_objs'), st') ->
  (NoDup variable_ids -> NoDup variable_ids') /\
  forall r, r ∈ variable_ids' <->
            r ∈ variable_ids \/ (r ∈ cands /\ variable_at (gc_objects st) r = true).
Proof.
  induction cands as [|r rest IH]; intros Hnd vids nobjs st vids' nobjs' st' Hrun.
  - injection Hrun as <- <- <-. split; [done|]. intros r. split; [by left|].
    intros [?|[Hr _]]; [done | by apply elem_of_nil in Hr].
  - apply NoDup_cons in Hnd as [Hr Hnd]. simpl in Hrun.
    unfold bind at 1, tracked_object, bind at 1, gets at 1 in Hrun.
    destruct (PyDict.get r (gc_objects st)) as [obj|] eqn:Hobj; simpl in Hrun; [|done].
    assert (Hat : variable_at (gc_objects st) r = dynamic_backend obj && _is_var obj).
    { unfold variable_at. by rewrite Hobj. }
    destruct (dynamic_backend obj) eqn:Hdyn.
    + assert (Hstep : exists st1 obj',
                export_loop rest
                  (if _is_var obj
                   then if bool_decide (r ∈ vids) then vids else vids ++ [r]
                   else vids) (nobjs ++ [r]) st1 = (Ret (vids', nobjs'), st') /\
                st1 = set_gc_objects (PyDict.set r obj' (gc_objects st)) st).
      { destruct (_is_var obj) eqn:Hvar; unfold bind at 1 in Hrun.
        - destruct (convert_in_place _ r obj st) as [[[]|e|] st1] eqn:Hconv; [|done..].
          apply (convert_in_place_spec (fun x => to_numpy (_variable_data x))) in Hconv
            as (obj' & -> & _).
          by eexists _, obj'.
        - destruct (convert_in_place _ r obj st) as [[[]|e|] st1] eqn:Hconv; [|done..].
          apply (convert_in_place_spec to_numpy) in Hconv as (obj' & -> & _).
          by eexists _, obj'. }
      destruct Hstep as (st1 & obj' & Hrest & ->).
      destruct (IH Hnd _ _ _ _ _ _ Hrest) as (Hnd' & Hin). simpl in Hin.
      assert (Hother : forall r', r' ∈ rest ->
                variable_at (PyDict.set r obj' (gc_objects st)) r' =
                variable_at (gc_objects st) r').
      { intros r' Hr'. apply variable_at_ext, get_set_ne. by intros ->. }
      split.
      * intros Hv. apply Hnd'. destruct (_is_var obj); [|done].
        case_bool_decide as Hrv; [done|].
        apply NoDup_app. split; [done|]. split; [|apply NoDup_singleton].
        intros x Hx Hx'. apply list_elem_of_singleton in Hx'. by subst.
      * intros r0. rewrite Hin. split.
        -- intros [H0|[H0 Hv0]].
           ++ destruct (_is_var obj) eqn:Hvar; [|by left]. case_bool_decide; [by left|].
              apply elem_of_app in H0 as [?|H0]; [by left|].
              apply list_elem_of_singleton in H0 as ->. right.
              split; [apply list_elem_of_here | by rewrite Hat].
           ++ right. split; [by apply list_elem_of_further|]. by rewrite <- Hother.
        -- intros [H0|[H0 Hv0]].
           ++ left. destruct (_is_var obj); [|done]. case_bool_decide; [done|].
              apply elem_of_app. by left.
           ++ apply elem_of_cons in H0 as [->|H0].
              ** left. rewrite Hat in Hv0. cbn [andb] in Hv0. rewrite Hv0.
                 case_bool_decide; [done|]. apply elem_of_app. right. apply list_elem_of_here.
              ** right. split; [done|]. by rewrite Hother.
    + destruct (IH Hnd _ _ _ _ _ _ Hrun) as (Hnd' & Hin).
      split; [done|]. intros r0. rewrite Hin. split.
      * intros [?|[H0 Hv0]]; [by left|]. right. split; [by apply list_elem_of_further | done].
      * intros [?|[H0 Hv0]]; [by left|].
        apply elem_of_cons in H0 as [->|H0]; [|by right].
        rewrite Hat in Hv0. done.
Qed.

(** X19.  What a call of the export phase with empty arguments records: the
    visited objects whose flag is set, each once and in the order of the
    visit, and, as variables, exactly those of them that [_is_var] holds
    for. *)
Theorem export_records st variable_ids numpy_objs st' :
  NoDup (PyDict.keys (gc_objects st)) ->
  convert_from_source_backend_to_numpy [] [] st = (Ret (variable_ids, numpy_objs), st') ->
  numpy_objs =
    filter (fun r => dynamic_at (gc_objects st) r = true) (export_candidates (gc_objects st)) /\
  NoDup numpy_objs /\
  NoDup variable_ids /\
  forall r, r ∈ variable_ids <->
            r ∈ numpy_objs /\
            exists obj, PyDict.get r (gc_objects st) = Some obj /\ _is_var obj = true.
Proof.
  intros Hnd Hrun.
  unfold convert_from_source_backend_to_numpy, bind at 1, gets at 1 in Hrun.
  pose proof (export_candidates_NoDup _ Hnd) as Hcands.
  destruct (export_loop_spec _ Hcands _ _ _ _ _ _ Hrun) as (Hn & _ & _).
  destruct (export_loop_variables _ Hcands _ _ _ _ _ _ Hrun) as (Hv & Hin).
  simpl in Hn. subst numpy_objs.
  split; [done|]. split; [by apply NoDup_filter|]. split; [apply Hv; constructor|].
  intros r. rewrite Hin, list_elem_of_filter. unfold variable_at, dynamic_at. split.
  - intros [Hr|[Hr Hvar]]; [by apply elem_of_nil in Hr|].
    destruct (PyDict.get r (gc_objects st)) as [obj|]; [|done].
    apply andb_true_iff in Hvar as [Hd Hvar]. split; [done|]. by exists obj.
  - intros ([Hd Hr] & obj & Hobj & Hvar). right. split; [done|].
    rewrite Hobj in *. by rewrite Hd, Hvar.
Qed.

Lemma new_objs_from_keys ids pairs : forall d k,
  k ∈ PyDict.keys d \/ ((k ∉ ids) /\ exists v, (k, v) ∈ pairs) ->
  k ∈ PyDict.keys (new_objs_from ids pairs d).
Proof.
  induction pairs as [|[k0 v0] pairs IH]; intros d k Hk.
  - destruct Hk as [?|[_ [v Hv]]]; [done | by apply elem_of_nil in Hv].
  - change (new_objs_from ids ((k0, v0) :: pairs) d)
      with (new_objs_from ids pairs
              (if bool_decide (k0 ∈ ids) then d else PyDict.set k0 v0 d)).
    apply IH.
    assert (Hmono : k ∈ PyDict.keys d ->
              k ∈ PyDict.keys (if bool_decide (k0 ∈ ids) then d else PyDict.set k0 v0 d)).
    { intros Hd. case_bool_decide; [done|]. rewrite keys_set.
      destruct (PyDict.mem k0 d); [done|]. apply elem_of_app. by left. }
    destruct Hk as [Hd|[Hids [v Hv]]]; [left; by apply Hmono|].
    apply elem_of_cons in Hv as [[= -> ->]|Hv]; [|right; split; [done | by exists v]].
    left. rewrite bool_decide_eq_false_2 by done. rewrite keys_set.
    destruct (PyDict.mem k0 d) eqn:Hmem.
    + apply mem_true in Hmem as [x Hx]. by apply get_Some_elem, elem_of_keys in Hx.
    + apply elem_of_app. right. apply list_elem_of_here.
Qed.

Lemma remove_intermediate_arrays_payloads arr_list cont_list :
  NoDup (map (fun x : ref * ivy_array => n_id (a_data (snd x)))
             (_remove_intermediate_arrays arr_list cont_list)) /\
  forall x, x ∈ arr_list -> n_id (a_data (snd x)) ∉ cont_ids cont_list ->
    exists y, y ∈ _remove_intermediate_arrays arr_list cont_list /\
              n_id (a_data (snd y)) = n_id (a_data (snd x)).
Proof.
  set (pairs := zip (map (fun item : ref * ivy_array => n_id (a_data (snd item))) arr_list)
                    arr_list).
  change (_remove_intermediate_arrays arr_list cont_list)
    with (PyDict.values (new_objs_from (cont_ids cont_list) pairs [])).
  set (d := new_objs_from (cont_ids cont_list) pairs []).
  assert (Hkeys : NoDup (PyDict.keys d)).
  { apply (new_objs_from_NoDup (cont_ids cont_list) pairs []). constructor. }
  assert (Hinv : forall kv, kv ∈ d -> fst kv = n_id (a_data (snd (snd kv)))).
  { apply (new_objs_from_inv (cont_ids cont_list)
             (fun kv => fst kv = n_id (a_data (snd (snd kv))))).
    - intros kv Hkv. by apply elem_of_nil in Hkv.
    - intros [k v] Hkv _. by apply elem_of_zip_map in Hkv as [-> _]. }
  split.
  - unfold PyDict.values. rewrite map_map.
    rewrite (map_ext_in _ fst); [exact Hkeys|].
    intros kv Hkv. symmetry. apply Hinv. by apply list_elem_of_In.
  - intros x Hx Hid.
    assert (Hk : n_id (a_data (snd x)) ∈ PyDict.keys d).
    { apply new_objs_from_keys. right. split; [done|]. exists x. unfold pairs.
      clear -Hx. induction arr_list as [|z l IH]; [by apply elem_of_nil in Hx|].
      simpl. apply elem_of_cons in Hx as [->|Hx]; [apply list_elem_of_here|].
      apply list_elem_of_further. by apply IH. }
    apply get_is_Some in Hk as [y Hy]. apply get_Some_elem in Hy.
    exists y. split.
    + unfold PyDict.values. apply list_elem_of_fmap. by exists (n_id (a_data (snd x)), y).
    + symmetry. exact (Hinv _ Hy).
Qed.

(** X20.  [_remove_intermediate_arrays] keeps one array for every payload
    that is no leaf of a container: the payloads of the arrays it returns
    are pairwise distinct, every array it returns is one of its list with
    such a payload, and every such payload of its list is the payload of an
    array it returns. *)
Theorem standalone_payloads_once arr_list cont_list :
  let kept := _remove_intermediate_arrays arr_list cont_list in
  NoDup (map (fun x : ref * ivy_array => n_id (a_data (snd x))) kept) /\
  (forall y, y ∈ kept -> y ∈ arr_list /\ n_id (a_data (snd y)) ∉ cont_ids cont_list) /\
  (forall x, x ∈ arr_list -> n_id (a_data (snd x)) ∉ cont_ids cont_list ->
     exists y, y ∈ kept /\ n_id (a_data (snd y)) = n_id (a_data (snd x))).
Proof.
  intros kept. destruct (remove_intermediate_arrays_payloads arr_list cont_list) as [H1 H2].
  split; [done|]. split; [|done]. intros y. apply remove_intermediate_arrays_elem.
Qed.

(** X21.  Two array objects that hold the same payload are not both
    exported: at most one of them is recorded and converted, and an object
    that is not recorded keeps its payload. *)
Theorem duplicate_payload_exported_once st variable_ids numpy_objs st' r1 a1 r2 a2 :
  NoDup (PyDict.keys (gc_objects st)) ->
  convert_from_source_backend_to_numpy [] [] st = (Ret (variable_ids, numpy_objs), st') ->
  PyDict.get r1 (gc_objects st) = Some (TArray a1) ->
  PyDict.get r2 (gc_objects st) = Some (TArray a2) ->
  r1 <> r2 ->
  n_id (a_data a1) = n_id (a_data a2) ->
  ~ (r1 ∈ numpy_objs /\ r2 ∈ numpy_objs) /\
  (forall r, r ∉ numpy_objs ->
             PyDict.get r (gc_objects st') = PyDict.get r (gc_objects st)).
Proof.
  intros Hnd Hrun H1 H2 Hne Hid.
  unfold convert_from_source_backend_to_numpy, bind at 1, gets at 1 in Hrun.
  pose proof (export_candidates_NoDup _ Hnd) as Hcands.
  destruct (export_loop_spec _ Hcands _ _ _ _ _ _ Hrun) as (Hn & Hsame & _).
  simpl in Hn. subst numpy_objs.
  set (kept := _remove_intermediate_arrays
                 (filter (fun arr => a_initialized (snd arr) = true) (arrays_of (gc_objects st)))
                 (containers_of (gc_objects st))).
  assert (Hkept : forall r a, PyDict.get r (gc_objects st) = Some (TArray a) ->
            r ∈ export_candidates (gc_objects st) -> (r, a) ∈ kept).
  { intros r a Hr Hc. unfold export_candidates in Hc. fold kept in Hc.
    apply elem_of_app in Hc as [Hc|Hc].
    - apply list_elem_of_fmap in Hc as ([r' a'] & -> & Hc).
      pose proof Hc as Hc'. apply remove_intermediate_arrays_elem in Hc' as [Hc' _].
      apply list_elem_of_filter in Hc' as [_ Hc']. apply elem_of_arrays_of in Hc'.
      apply (get_NoDup _ _ _ Hnd) in Hc'. simpl in Hr. by simplify_eq.
    - apply list_elem_of_fmap in Hc as ([r' c] & -> & Hc).
      apply elem_of_containers_of, (get_NoDup _ _ _ Hnd) in Hc. simpl in Hr. congruence. }
  split.
  - intros [Hr1 Hr2]. apply list_elem_of_filter in Hr1 as [_ Hr1], Hr2 as [_ Hr2].
    apply (Hkept _ _ H1) in Hr1. apply (Hkept _ _ H2) in Hr2.
    destruct (remove_intermediate_arrays_payloads
                (filter (fun arr => a_initialized (snd arr) = true) (arrays_of (gc_objects st)))
                (containers_of (gc_objects st))) as [Hpay _].
    fold kept in Hpay.
    pose proof (NoDup_fmap_eq _ kept (r1, a1) (r2, a2) Hpay Hr1 Hr2 Hid). congruence.
  - intros r Hr. apply Hsame.
    destruct (decide (r ∈ export_candidates (gc_objects st))) as [Hc|Hc]; [|by left].
    right. destruct (dynamic_at (gc_objects st) r) eqn:Hd; [|done].
    exfalso. apply Hr. by apply list_elem_of_filter.
Qed.

(** The loop of the import phase, under an active backend [f]. *)
Lemma import_loop_spec variable_ids stack f numpy_objs : forall st st',
  NoDup numpy_objs ->
  is_local st = false -> backend_stack st = stack ++ [f] ->
  convert_from_numpy_to_target_backend variable_ids numpy_objs st = (Ret tt, st') ->
  is_local st' = false /\ backend_stack st' = stack ++ [f] /\ objects st' = objects st /\
  (forall r, r ∉ numpy_objs -> PyDict.get r (gc_objects st') = PyDict.get r (gc_objects st)) /\
  (forall r, r ∈ numpy_objs ->
     exists obj obj', PyDict.get r (gc_objects st) = Some obj /\
                      PyDict.get r (gc_objects st') = Some obj' /\
                      imported f variable_ids r obj obj').
Proof.
  induction numpy_objs as [|r rest IH]; intros st st' Hnd Hloc Hstack Hrun.
  - injection Hrun as <-. repeat (split; [done|]). intros r Hr. by apply elem_of_nil in Hr.
  - apply NoDup_cons in Hnd as [Hr Hnd].
    unfold convert_from_numpy_to_target_backend in Hrun. simpl in Hrun.
    unfold bind at 1 in Hrun. unfold bind at 1, tracked_object, bind at 1, gets at 1 in Hrun.
    destruct (PyDict.get r (gc_objects st)) as [obj|] eqn:Hobj; simpl in Hrun; [|done].
    unfold bind at 1 in Hrun.
    rewrite (current_backend_top st [] [] stack f Hloc Hstack) in Hrun.
    destruct (convert_in_place _ r obj st) as [[[]|e|] st1] eqn:Hconv; [|done..].
    apply (convert_in_place_spec (import_conversion f variable_ids r)) in Hconv
      as (obj' & -> & Himp).
    destruct (IH (set_gc_objects (PyDict.set r obj' (gc_objects st)) st) st' Hnd Hloc Hstack Hrun)
      as (Hl' & Hs' & Ho' & Hsame & Hconv).
    simpl in Ho', Hsame, Hconv.
    split; [done|]. split; [done|]. split; [done|]. split.
    + intros r' Hr'. apply not_elem_of_cons in Hr' as [Hne Hr'].
      rewrite Hsame by done. by apply get_set_ne.
    + intros r' Hr'. apply elem_of_cons in Hr' as [->|Hr'].
      * exists obj, obj'. split; [done|]. split; [|by destruct obj, obj'].
        rewrite Hsame by done. apply get_set_eq.
      * destruct (Hconv r' Hr') as (o & o' & Ho & Ho2 & Hi).
        exists o, o'. split; [|done]. rewrite <- Ho. symmetry. apply get_set_ne.
        by intros ->.
Qed.

(** X22.  The import phase converts every recorded object with [asarray] of
    the active backend, puts the payloads of recorded variables through
    [_variable], and leaves every other tracked object, the stack and the
    namespaces as they are. *)
Theorem import_phase_converts st st' stack f variable_ids numpy_objs :
  NoDup numpy_objs ->
  is_local st = false -> backend_stack st = stack ++ [f] ->
  convert_from_numpy_to_target_backend variable_ids numpy_objs st = (Ret tt, st') ->
  backend_stack st' = backend_stack st /\ objects st' = objects st /\
  (forall r, r ∉ numpy_objs -> PyDict.get r (gc_objects st') = PyDict.get r (gc_objects st)) /\
  (forall r, r ∈ numpy_objs ->
     exists obj obj', PyDict.get r (gc_objects st) = Some obj /\
                      PyDict.get r (gc_objects st') = Some obj' /\
                      imported f variable_ids r obj obj').
Proof.
  intros Hnd Hloc Hstack Hrun.
  destruct (import_loop_spec _ _ _ _ _ _ Hnd Hloc Hstack Hrun) as (_ & Hs & Ho & H1 & H2).
  split; [congruence|]. by split.
Qed.

End ConverterMore.

(** ** [get_backend] and the random choice *)

Section GetBackend.
Context {E : Externals}.

(** A name the backend has keeps its binding; a name it lacks gets the
    binding of the snapshot. *)
Lemma get_fill_fold (l d : PyDict.t string ref) k :
  PyDict.get k (fold_left fill_step l d) =
  match PyDict.get k d with
  | Some v => Some v
  | None => PyDict.get k l
  end.
Proof.
  revert d. induction l as [|[k0 v0] l IH]; intros d.
  - cbn. by destruct (PyDict.get k d).
  - cbn [fold_left PyDict.get]. rewrite IH. unfold fill_step, PyDict.mem. cbn [fst snd].
    destruct (decide (k = k0)) as [->|Hne].
    + destruct (PyDict.get k0 d) as [x|] eqn:Hx; [by rewrite Hx|]. by rewrite get_set_eq.
    + destruct (PyDict.get k0 d); [done|]. by rewrite get_set_ne.
Qed.

Lemma fill_from_original_spec backend st :
  exists st',
    fill_from_original backend st = (Ret tt, st') /\
    set_objects (objects st) st' = set_objects (objects st) st /\
    (forall r, r <> backend -> obj r st' = obj r st) /\
    o_dict (obj backend st') = fold_left fill_step (ivy_original_dict st) (o_dict (obj backend st)).
Proof.
  unfold fill_from_original, bind at 1, gets at 1.
  apply (for_each_inv (fun seen s =>
    set_objects (objects st) s = set_objects (objects st) st /\
    (forall r, r <> backend -> obj r s = obj r st) /\
    o_dict (obj backend s) = fold_left fill_step seen (o_dict (obj backend st)))).
  { done. }
  intros seen [k v] s (Hf & Ho & Hd).
  unfold bind, dict_of, gets. cbn [fst snd].
  rewrite fold_left_app. cbn [fold_left]. unfold fill_step at 1. cbn [fst snd]. rewrite <- Hd.
  destruct (PyDict.mem k (o_dict (obj backend s))); [by exists s|].
  eexists. split; [reflexivity|]. split; [|split].
  - exact Hf.
  - intros r Hr. rewrite obj_update_obj. rewrite decide_False by done. by apply Ho.
  - by rewrite obj_update_obj, decide_True.
Qed.

Lemma snapshot_step st :
  exists st1,
    (match backend_stack st with
     | [] => modify (fun st => set_ivy_original_dict (o_dict (obj ivy st)) st)
     | _ :: _ => ret tt
     end) st = (Ret tt, st1) /\
    st1 = match backend_stack st with
          | [] => set_ivy_original_dict (o_dict (obj ivy st)) st
          | _ :: _ => st
          end /\
    ivy_original_dict st1 = snapshot_for st /\
    set_ivy_original_dict (ivy_original_dict st) st1 = st.
Proof.
  unfold snapshot_for. destruct (backend_stack st) eqn:Hs; eexists; (split; [reflexivity|]);
    (split; [reflexivity|]); (split; [reflexivity|]); by destruct st.
Qed.

Lemma get_backend_filled st st1 m :
  is_local st = false ->
  st1 = match backend_stack st with
        | [] => set_ivy_original_dict (o_dict (obj ivy st)) st
        | _ :: _ => st
        end ->
  exists st',
    (fill_from_original m ;;; ret (AModule m)) st1 = (Ret (AModule m), st') /\
    backend_stack st' = backend_stack st /\
    ivy_original_dict st' = snapshot_for st /\
    (forall k, PyDict.get k (o_dict (obj m st')) =
               match PyDict.get k (o_dict (obj m st)) with
               | Some v => Some v
               | None => PyDict.get k (snapshot_for st)
               end) /\
    (forall r, r <> m -> obj r st' = obj r st).
Proof.
  intros Hloc Hst1.
  destruct (fill_from_original_spec m st1) as (st' & Hrun & Hf & Ho & Hd).
  assert (Hobj : forall r, obj r st1 = obj r st).
  { intros r. subst st1. by destruct (backend_stack st). }
  assert (Hsnap : ivy_original_dict st1 = snapshot_for st).
  { subst st1. unfold snapshot_for. by destruct (backend_stack st). }
  assert (Hstack : backend_stack st1 = backend_stack st).
  { subst st1. by destruct (backend_stack st) eqn:Hs. }
  exists st'. split; [unfold bind; by rewrite Hrun|].
  split; [|split; [|split]].
  - apply (f_equal backend_stack) in Hf. simpl in Hf. congruence.
  - apply (f_equal ivy_original_dict) in Hf. simpl in Hf. congruence.
  - intros k. by rewrite Hd, get_fill_fold, Hobj, Hsnap.
  - intros r Hr. by rewrite Ho, Hobj.
Qed.

(** X23.  [get_backend] with a backend given, by name or as a module: it
    returns the module, after adding to its namespace every name of the
    snapshot that it lacks.  A name the module has keeps its binding; the
    stack and every other object are as before. *)
Theorem get_backend_fills st backend m :
  is_local st = false ->
  resolves (sys_modules st) backend m ->
  exists st',
    get_backend (Some backend) st = (Ret (AModule m), st') /\
    backend_stack st' = backend_stack st /\
    ivy_original_dict st' = snapshot_for st /\
    (forall k, PyDict.get k (o_dict (obj m st')) =
               match PyDict.get k (o_dict (obj m st)) with
               | Some v => Some v
               | None => PyDict.get k (snapshot_for st)
               end) /\
    (forall r, r <> m -> obj r st' = obj r st).
Proof.
  intros Hloc Hres.
  destruct (snapshot_step st) as (st1 & Hstep & Hst1 & Hsnap & Hback).
  destruct (get_backend_filled st st1 m Hloc Hst1) as (st' & Hrun & Hrest).
  exists st'. split; [|exact Hrest].
  unfold get_backend, bind at 1, gets at 1. rewrite Hloc.
  unfold bind at 1, gets at 1. unfold bind at 1. rewrite Hstep.
  destruct backend as [name|m0].
  - destruct Hres as (path & Hname & Hpath). rewrite Hname.
    unfold bind at 1, import_module.
    assert (Hsm : sys_modules st1 = sys_modules st).
    { rewrite Hst1. by destruct (backend_stack st). }
    by rewrite Hsm, Hpath.
  - simpl in Hres. by subst m0.
Qed.

(** X24.  For a name that is not registered, [get_backend] raises the
    [KeyError] of the registry lookup, after it has taken the snapshot when
    the stack is empty. *)
Theorem get_backend_unregistered st name :
  is_local st = false ->
  name ∉ PyDict.keys _backend_dict ->
  get_backend (Some (BName name)) st =
    (Raise (KeyError name),
     match backend_stack st with
     | [] => set_ivy_original_dict (o_dict (obj ivy st)) st
     | _ :: _ => st
     end).
Proof.
  intros Hloc Hname.
  destruct (snapshot_step st) as (st1 & Hstep & Hst1 & _).
  unfold get_backend, bind at 1, gets at 1. rewrite Hloc.
  unfold bind at 1, gets at 1. unfold bind at 1. rewrite Hstep.
  rewrite (get_keys_None _ _ Hname). unfold bind, raise. by rewrite Hst1.
Qed.

(** X25.  [get_backend] without a backend given.  (1) With an empty stack it
    returns the empty string, once the module of the implicit backend was
    imported; the snapshot is taken anew.  (2) With a backend set it returns
    the top of the stack, after adding to its namespace every name of the
    snapshot that it lacks. *)
Theorem get_backend_default st :
  is_local st = false ->
  (forall path r,
     backend_stack st = [] ->
     PyDict.get (implicit_backend st) _backend_dict = Some path ->
     sys_modules st !! path = Some r ->
     get_backend None st =
       (Ret (AStr ""), set_ivy_original_dict (o_dict (obj ivy st)) st)) /\
  (forall stack m,
     backend_stack st = stack ++ [m] ->
     exists st',
       get_backend None st = (Ret (AModule m), st') /\
       backend_stack st' = backend_stack st /\
       ivy_original_dict st' = ivy_original_dict st /\
       (forall k, PyDict.get k (o_dict (obj m st')) =
                  match PyDict.get k (o_dict (obj m st)) with
                  | Some v => Some v
                  | None => PyDict.get k (ivy_original_dict st)
                  end) /\
       (forall r, r <> m -> obj r st' = obj r st)).
Proof.
  intros Hloc. split.
  - intros path r Hstack Hpath Hr.
    unfold get_backend, bind at 1, gets at 1. rewrite Hloc.
    unfold bind at 1, gets at 1. rewrite Hstack. unfold bind at 1, modify.
    unfold bind at 1.
    rewrite (current_backend_default _ path r); [|done..].
    unfold bind, gets. cbn [backend_stack set_ivy_original_dict]. by rewrite Hstack.
  - intros stack m Hstack.
    destruct (snapshot_step st) as (st1 & Hstep & Hst1 & Hsnap & Hback).
    assert (Hst1' : st1 = st).
    { rewrite Hst1, Hstack. by destruct stack. }
    destruct (get_backend_filled st st1 m Hloc Hst1) as (st' & Hrun & H1 & H2 & H3 & H4).
    assert (Hsf : snapshot_for st = ivy_original_dict st).
    { unfold snapshot_for. rewrite Hstack. by destruct stack. }
    rewrite Hsf in H2, H3.
    exists st'. split; [|done].
    unfold get_backend, bind at 1, gets at 1. rewrite Hloc.
    rewrite Hst1' in Hstep, Hrun.
    unfold bind at 1, gets at 1. unfold bind at 1. rewrite Hstep.
    unfold bind at 1.
    rewrite (current_backend_top st [] [] stack m Hloc Hstack).
    unfold bind at 1, gets at 1. rewrite Hstack.
    destruct (stack ++ [m]) eqn:Hsm; [by destruct stack|]. exact Hrun.
Qed.

Lemma nth_elem_of {A} (l : list A) i d : i < length l -> nth i l d ∈ l.
Proof. intros Hi. apply list_elem_of_In. by apply nth_In. Qed.

(** X26.  [choose_random_backend] when the number of excluded names is not
    four: it returns a registered name that is not excluded, whatever the
    draw, and fails only when every registered name is excluded, with the
    error of the random choice on an empty list.  The state is unchanged. *)
Theorem choose_random_backend_not_four draw excluded st :
  is_local st = false ->
  length excluded <> 4 ->
  match choose_random_backend draw excluded st with
  | (Ret f, st') => st' = st /\ f ∈ PyDict.keys _backend_dict /\ f ∉ excluded
  | (Raise e, st') =>
      st' = st /\ (exists message, e = ValueError message) /\
      forall f, f ∈ PyDict.keys _backend_dict -> f ∈ excluded
  | (Hang, _) => False
  end.
Proof.
  intros Hloc Hlen. unfold choose_random_backend.
  rewrite prevent_access_locally_global by done.
  unfold bind, check_false. apply Nat.eqb_neq in Hlen. rewrite Hlen. unfold ret at 1. cbv iota beta. unfold random_choice.
  destruct (filter (fun f_srt => f_srt ∉ excluded) (PyDict.keys _backend_dict))
    as [|x l] eqn:Hf.
  - split; [done|]. split; [by eexists|]. intros f Hin.
    destruct (decide (f ∈ excluded)) as [?|Hex]; [done|]. exfalso.
    assert (Hfl : f ∈ filter (fun f_srt => f_srt ∉ excluded) (PyDict.keys _backend_dict))
      by by apply list_elem_of_filter.
    rewrite Hf in Hfl. by apply elem_of_nil in Hfl.
  - split; [done|].
    assert (Hin : nth (draw mod length (x :: l)) (x :: l) x ∈ x :: l).
    { apply nth_elem_of. apply Nat.mod_upper_bound. done. }
    set (f := nth _ _ _) in *. clearbody f.
    rewrite <- Hf in Hin. apply list_elem_of_filter in Hin as [Hex Hin]. by split.
Qed.

End GetBackend.

(** ** The rebinding pass on a flat namespace *)

Section DictMore.
Context {K V : Type} `{EqDecision K}.
Implicit Types (d : PyDict.t K V) (k : K) (v : V).

Lemma keys_del_subset d k k' : k' ∈ PyDict.keys (PyDict.del k d) -> k' ∈ PyDict.keys d.
Proof.
  induction d as [|[k0 v0] d IH]; simpl; [done|].
  destruct (decide (k = k0)) as [->|Hne]; simpl.
  - intros Hin. by apply list_elem_of_further.
  - intros Hin. apply elem_of_cons in Hin as [->|Hin]; [apply list_elem_of_here|].
    apply list_elem_of_further. by apply IH.
Qed.

Lemma keys_del_NoDup d k : NoDup (PyDict.keys d) -> NoDup (PyDict.keys (PyDict.del k d)).
Proof.
  induction d as [|[k0 v0] d IH]; simpl; intros Hnd; [done|].
  apply NoDup_cons in Hnd as [Hk Hnd].
  destruct (decide (k = k0)) as [->|Hne]; simpl; [done|].
  apply NoDup_cons. split; [|by apply IH].
  intros Hin. apply Hk. by apply keys_del_subset in Hin.
Qed.

Lemma get_del_eq d k : NoDup (PyDict.keys d) -> PyDict.get k (PyDict.del k d) = None.
Proof.
  induction d as [|[k0 v0] d IH]; simpl; intros Hnd; [done|].
  apply NoDup_cons in Hnd as [Hk Hnd].
  destruct (decide (k = k0)) as [->|Hne]; simpl.
  - by apply get_keys_None.
  - rewrite decide_False by done. by apply IH.
Qed.

End DictMore.

Section RebinderMore.
Context {E : Externals}.

Lemma for_each_inv_at {A} (I : list A -> state -> Prop) (l : list A) body st :
  I [] st ->
  (forall seen x rest st1, l = seen ++ x :: rest -> I seen st1 ->
     exists st2, body x st1 = (Ret tt, st2) /\ I (seen ++ [x]) st2) ->
  exists st', for_each l body st = (Ret tt, st') /\ I l st'.
Proof.
  intros H0 Hstep.
  assert (Hgen : forall rest seen st0, l = seen ++ rest -> I seen st0 ->
            exists st', for_each rest body st0 = (Ret tt, st') /\ I l st').
  { induction rest as [|x rest IH]; intros seen st0 Hl HI.
    - exists st0. rewrite app_nil_r in Hl. by subst.
    - destruct (Hstep seen x rest st0 Hl HI) as (st2 & Hb & HI2).
      destruct (IH (seen ++ [x]) st2) as (st' & Hrun & HI'); [by rewrite <- app_assoc | done |].
      exists st'. simpl. unfold bind at 1. by rewrite Hb. }
  exact (Hgen l [] st eq_refl H0).
Qed.

Lemma same_attrs_refl st : same_attrs st st.
Proof. done. Qed.

Lemma same_attrs_update st s r d :
  same_attrs st s -> same_attrs st (update_obj r (fun o => with_dict (d o) o) s).
Proof.
  intros Hs r'. rewrite obj_update_obj. destruct (decide (r = r')) as [->|Hne]; [|apply Hs].
  rewrite <- (Hs r'). done.
Qed.

Lemma same_attrs_nested st s bstr v :
  same_attrs st s -> is_nested_module bstr v s = is_nested_module bstr v st.
Proof.
  intros Hs. unfold is_nested_module. specialize (Hs v).
  pose proof (f_equal o_is_module Hs) as H1.
  pose proof (f_equal o_name Hs) as H2.
  pose proof (f_equal o_file Hs) as H3.
  simpl in H1, H2, H3. by rewrite H1, H2, H3.
Qed.

Lemma keys_snoc (seen : PyDict.t string ref) k0 v0 k :
  k ∈ PyDict.keys (seen ++ [(k0, v0)]) <-> k ∈ PyDict.keys seen \/ k = k0.
Proof.
  unfold PyDict.keys. rewrite map_app, elem_of_app. simpl.
  by rewrite list_elem_of_singleton.
Qed.

Lemma update_fields st s r f :
  set_objects (objects st) s = set_objects (objects st) st ->
  set_objects (objects st) (update_obj r f s) = set_objects (objects st) st.
Proof. done. Qed.

(** One turn of a rebinding pass of the package, for an item that is no
    nested module. *)
Lemma rebind_entry_flat nested backend invalid bstr k0 v0 s :
  backend <> ivy ->
  NoDup (PyDict.keys (o_dict (obj ivy s))) ->
  is_nested_module bstr v0 s = false ->
  exists s2,
    rebind_entry nested ivy backend invalid bstr k0 v0 s = (Ret tt, s2) /\
    same_attrs s s2 /\
    set_objects (objects s) s2 = set_objects (objects s) s /\
    (forall r, r <> ivy -> r <> backend -> obj r s2 = obj r s) /\
    NoDup (PyDict.keys (o_dict (obj ivy s2))) /\
    (forall k, k <> k0 ->
       PyDict.get k (o_dict (obj ivy s2)) = PyDict.get k (o_dict (obj ivy s)) /\
       PyDict.get k (o_dict (obj backend s2)) = PyDict.get k (o_dict (obj backend s))) /\
    PyDict.get k0 (o_dict (obj ivy s2)) =
      match PyDict.get k0 (o_dict (obj backend s)) with
      | Some impl => Some (_wrap_function k0 impl v0 false)
      | None =>
          if bool_decide (k0 ∈ invalid) && PyDict.mem k0 (o_dict (obj ivy s)) then None
          else Some (_wrap_function k0 v0 v0 true)
      end /\
    PyDict.get k0 (o_dict (obj backend s2)) =
      match PyDict.get k0 (o_dict (obj backend s)) with
      | Some impl => Some impl
      | None =>
          if bool_decide (k0 ∈ invalid) && PyDict.mem k0 (o_dict (obj ivy s)) then None
          else Some v0
      end.
Proof.
  intros Hne Hnd Hflat.
  unfold rebind_entry, bind at 1, dict_of at 1, gets at 1.
  unfold bind at 1, dict_of at 1, gets at 1.
  unfold PyDict.mem.
  destruct (PyDict.get k0 (o_dict (obj backend s))) as [impl|] eqn:Hb; cbn [negb andb].
  - (* the backend defines the name *)
    unfold bind at 1, ret at 1. unfold bind at 1, dict_of at 1, gets at 1. rewrite Hb.
    unfold bind at 1, setitem at 1, modify at 1.
    set (s2 := update_obj ivy _ s).
    unfold bind at 1, gets at 1.
    assert (Hattr : same_attrs s s2).
    { apply (same_attrs_update s s ivy (fun o => PyDict.set k0 _ (o_dict o))), same_attrs_refl. }
    fold (is_nested_module bstr v0 s2). rewrite (same_attrs_nested s s2) by done.
    rewrite Hflat. exists s2. split; [done|]. split; [done|]. split; [done|].
    assert (Hivy : o_dict (obj ivy s2) =
                   PyDict.set k0 (_wrap_function k0 impl v0 false) (o_dict (obj ivy s))).
    { unfold s2. by rewrite obj_update_obj, decide_True. }
    assert (Hback : obj backend s2 = obj backend s).
    { unfold s2. by rewrite obj_update_obj, decide_False. }
    split; [|split; [|split; [|split]]].
    + intros r Hr _. unfold s2. by rewrite obj_update_obj, decide_False.
    + rewrite Hivy. by apply keys_set_NoDup.
    + intros k Hk. rewrite Hivy, Hback. split; [|done]. by apply get_set_ne.
    + rewrite Hivy. apply get_set_eq.
    + by rewrite Hback.
  - destruct (bool_decide (k0 ∈ invalid) &&
              match PyDict.get k0 (o_dict (obj ivy s)) with Some _ => true | None => false end)
      eqn:Hdel.
    + (* an invalid dtype the package has: removed *)
      unfold delitem, modify. set (s2 := update_obj ivy _ s).
      exists s2. split; [done|].
      assert (Hivy : o_dict (obj ivy s2) = PyDict.del k0 (o_dict (obj ivy s))).
      { unfold s2. by rewrite obj_update_obj, decide_True. }
      assert (Hback : obj backend s2 = obj backend s).
      { unfold s2. by rewrite obj_update_obj, decide_False. }
      split.
      { apply (same_attrs_update s s ivy (fun o => PyDict.del k0 (o_dict o))), same_attrs_refl. }
      split; [done|].
      split; [|split; [|split; [|split]]].
      * intros r Hr _. unfold s2. by rewrite obj_update_obj, decide_False.
      * rewrite Hivy. by apply keys_del_NoDup.
      * intros k Hk. rewrite Hivy, Hback. split; [|done]. by apply get_del_ne.
      * rewrite Hivy. by apply get_del_eq.
      * by rewrite Hback.
    + (* the original becomes the implementation *)
      unfold bind at 1, setitem at 1, modify at 1.
      set (s1 := update_obj backend _ s).
      assert (Hb1 : o_dict (obj backend s1) = PyDict.set k0 v0 (o_dict (obj backend s))).
      { unfold s1. by rewrite obj_update_obj, decide_True. }
      assert (Hi1 : obj ivy s1 = obj ivy s).
      { unfold s1. by rewrite obj_update_obj, decide_False. }
      unfold bind at 1, dict_of at 1, gets at 1. rewrite Hb1, get_set_eq.
      unfold bind at 1, setitem at 1, modify at 1.
      set (s2 := update_obj ivy _ s1).
      unfold bind at 1, gets at 1.
      assert (Hattr : same_attrs s s2).
      { apply (same_attrs_update s s1 ivy (fun o => PyDict.set k0 _ (o_dict o))).
        apply (same_attrs_update s s backend (fun o => PyDict.set k0 _ (o_dict o))), same_attrs_refl. }
      fold (is_nested_module bstr v0 s2). rewrite (same_attrs_nested s s2) by done.
      rewrite Hflat. exists s2. split; [done|]. split; [done|]. split; [done|].
      assert (Hivy : o_dict (obj ivy s2) =
                     PyDict.set k0 (_wrap_function k0 v0 v0 true) (o_dict (obj ivy s))).
      { unfold s2. by rewrite obj_update_obj, decide_True, Hi1. }
      assert (Hback : o_dict (obj backend s2) = PyDict.set k0 v0 (o_dict (obj backend s))).
      { unfold s2. by rewrite obj_update_obj, decide_False. }
      split; [|split; [|split; [|split]]].
      * intros r Hr Hr'. unfold s2, s1. by rewrite !obj_update_obj, !decide_False.
      * rewrite Hivy. by apply keys_set_NoDup.
      * intros k Hk. rewrite Hivy, Hback. split; by apply get_set_ne.
      * rewrite Hivy. apply get_set_eq.
      * rewrite Hback. apply get_set_eq.
Qed.

Lemma same_attrs_trans st1 st2 st3 :
  same_attrs st1 st2 -> same_attrs st2 st3 -> same_attrs st1 st3.
Proof. intros H1 H2 r. by rewrite H2, H1. Qed.

(** A rebinding pass of the package over a dictionary without nested
    modules: it returns, and every name has the binding that its own turn
    gives it. *)
Lemma rebind_flat_pass nested original backend invalid bstr st :
  backend <> ivy ->
  NoDup (PyDict.keys original) ->
  NoDup (PyDict.keys (o_dict (obj ivy st))) ->
  (forall k v, (k, v) ∈ original -> is_nested_module bstr v st = false) ->
  exists st',
    for_each original
      (fun kv => rebind_entry nested ivy backend invalid bstr (fst kv) (snd kv)) st =
      (Ret tt, st') /\
    same_attrs st st' /\
    set_objects (objects st) st' = set_objects (objects st) st /\
    (forall r, r <> ivy -> r <> backend -> obj r st' = obj r st) /\
    forall k,
      PyDict.get k (o_dict (obj ivy st')) =
        rebound_target original (o_dict (obj backend st)) (o_dict (obj ivy st)) invalid k /\
      PyDict.get k (o_dict (obj backend st')) =
        rebound_backend original (o_dict (obj backend st)) (o_dict (obj ivy st)) invalid k.
Proof.
  intros Hne Hnd Hndi Hflat.
  set (bd := o_dict (obj backend st)). set (td := o_dict (obj ivy st)).
  destruct (for_each_inv_at (fun seen s =>
    same_attrs st s /\
    set_objects (objects st) s = set_objects (objects st) st /\
    (forall r, r <> ivy -> r <> backend -> obj r s = obj r st) /\
    NoDup (PyDict.keys (o_dict (obj ivy s))) /\
    forall k,
      (k ∈ PyDict.keys seen ->
       PyDict.get k (o_dict (obj ivy s)) = rebound_target original bd td invalid k /\
       PyDict.get k (o_dict (obj backend s)) = rebound_backend original bd td invalid k) /\
      (k ∉ PyDict.keys seen ->
       PyDict.get k (o_dict (obj ivy s)) = PyDict.get k td /\
       PyDict.get k (o_dict (obj backend s)) = PyDict.get k bd))
    original
    (fun kv => rebind_entry nested ivy backend invalid bstr (fst kv) (snd kv)) st)
    as (st' & Hrun & Ha & Hf & Ho & _ & Hk).
  { split; [apply same_attrs_refl|]. split; [done|]. split; [done|]. split; [done|].
    intros k. split; [intros Hin; by apply elem_of_nil in Hin | done]. }
  { intros seen [k0 v0] rest s Hl (Ha & Hf & Ho & Hndi' & Hk). cbn [fst snd].
    assert (Hin0 : (k0, v0) ∈ original).
    { rewrite Hl. apply elem_of_app. right. apply list_elem_of_here. }
    assert (Hnew : k0 ∉ PyDict.keys seen).
    { rewrite Hl in Hnd. unfold PyDict.keys in Hnd. rewrite map_app in Hnd.
      apply NoDup_app in Hnd as (_ & Hdis & _). intros Hin. apply (Hdis k0 Hin).
      simpl. apply list_elem_of_here. }
    destruct (rebind_entry_flat nested backend invalid bstr k0 v0 s Hne Hndi')
      as (s2 & Hrun & Ha2 & Hf2 & Ho2 & Hnd2 & Hother & Hivy & Hback).
    { rewrite (same_attrs_nested st s) by done. by apply (Hflat k0 v0). }
    exists s2. split; [exact Hrun|].
    split; [by eapply same_attrs_trans|]. split.
    { apply (f_equal (set_objects (objects st))) in Hf2.
      change (set_objects (objects st) s2 = set_objects (objects st) s) in Hf2.
      by rewrite Hf2. }
    split; [intros r Hr Hr'; by rewrite Ho2, Ho|]. split; [done|].
    destruct (Hk k0) as [_ Hk0]. destruct (Hk0 Hnew) as [Hi0 Hb0].
    intros k. rewrite keys_snoc. destruct (decide (k = k0)) as [->|Hkk].
    - split; [intros _|intros Hn; exfalso; apply Hn; by right].
      rewrite Hivy, Hback, Hb0. unfold PyDict.mem. rewrite Hi0.
      unfold rebound_target, rebound_backend, PyDict.mem.
      rewrite (get_NoDup _ _ _ Hnd Hin0). by destruct (PyDict.get k0 bd).
    - destruct (Hother k Hkk) as [-> ->]. destruct (Hk k) as [Hk1 Hk2]. split.
      + intros [Hin|?]; [by apply Hk1 | done].
      + intros Hn. apply Hk2. intros Hin. apply Hn. by left. }
  exists st'. split; [exact Hrun|]. split; [done|]. split; [done|]. split; [done|].
  intros k. destruct (Hk k) as [Hk1 Hk2].
  destruct (decide (k ∈ PyDict.keys original)) as [Hin|Hn]; [by apply Hk1|].
  destruct (Hk2 Hn) as [-> ->]. unfold rebound_target, rebound_backend.
  rewrite (get_keys_None _ _ Hn). split; [done|]. by destruct (PyDict.get k bd).
Qed.

(** X27.  The rebinding pass on a namespace without nested modules.  The
    pass returns.  A name the backend defines is bound in the package to the
    wrapped implementation of the backend.  A name it does not define is
    added to the backend with the original as its implementation, and bound
    in the package to the wrapped original, marked compositional; unless the
    name is one of the invalid dtypes of the backend and the package has it:
    then the name is removed from the package and the backend does not get
    it.  Names outside the walked dictionary and all other objects are
    untouched. *)
Theorem flat_namespace_rebound depth original backend st :
  backend <> ivy ->
  NoDup (PyDict.keys original) ->
  NoDup (PyDict.keys (o_dict (obj ivy st))) ->
  (forall k v, (k, v) ∈ original ->
     is_nested_module (o_backend_str (obj backend st)) v st = false) ->
  exists st',
    _set_backend_as_ivy (S depth) (Detached original) ivy backend None None st = (Ret tt, st') /\
    (forall k v impl,
       (k, v) ∈ original -> PyDict.get k (o_dict (obj backend st)) = Some impl ->
       PyDict.get k (o_dict (obj ivy st')) = Some (_wrap_function k impl v false) /\
       PyDict.get k (o_dict (obj backend st')) = Some impl) /\
    (forall k v,
       (k, v) ∈ original -> PyDict.get k (o_dict (obj backend st)) = None ->
       (k ∉ o_invalid_dtypes (obj backend st)) \/ PyDict.get k (o_dict (obj ivy st)) = None ->
       PyDict.get k (o_dict (obj ivy st')) = Some (_wrap_function k v v true) /\
       PyDict.get k (o_dict (obj backend st')) = Some v) /\
    (forall k v x,
       (k, v) ∈ original -> PyDict.get k (o_dict (obj backend st)) = None ->
       k ∈ o_invalid_dtypes (obj backend st) -> PyDict.get k (o_dict (obj ivy st)) = Some x ->
       PyDict.get k (o_dict (obj ivy st')) = None /\
       PyDict.get k (o_dict (obj backend st')) = None) /\
    (forall k, k ∉ PyDict.keys original ->
       PyDict.get k (o_dict (obj ivy st')) = PyDict.get k (o_dict (obj ivy st)) /\
       PyDict.get k (o_dict (obj backend st')) = PyDict.get k (o_dict (obj backend st))) /\
    (forall r, r <> ivy -> r <> backend -> obj r st' = obj r st).
Proof.
  intros Hne Hnd Hndi Hflat.
  destruct (rebind_flat_pass (_set_backend_as_ivy depth) original backend
              (o_invalid_dtypes (obj backend st)) (o_backend_str (obj backend st)) st
              Hne Hnd Hndi Hflat) as (st' & Hrun & _ & _ & Ho & Hk).
  exists st'. split; [exact Hrun|].
  split; [|split; [|split; [|split; [|done]]]].
  - intros k v impl Hin Hb. destruct (Hk k) as [-> ->].
    unfold rebound_target, rebound_backend. by rewrite (get_NoDup _ _ _ Hnd Hin), Hb.
  - intros k v Hin Hb Hcase. destruct (Hk k) as [-> ->].
    unfold rebound_target, rebound_backend, PyDict.mem.
    rewrite (get_NoDup _ _ _ Hnd Hin), Hb.
    destruct Hcase as [Hinv| ->].
    + by rewrite bool_decide_eq_false_2.
    + by rewrite andb_false_r.
  - intros k v x Hin Hb Hinv Hx. destruct (Hk k) as [-> ->].
    unfold rebound_target, rebound_backend, PyDict.mem.
    rewrite (get_NoDup _ _ _ Hnd Hin), Hb, Hx. by rewrite bool_decide_eq_true_2.
  - intros k Hn. destruct (Hk k) as [-> ->]. unfold rebound_target, rebound_backend.
    rewrite (get_keys_None _ _ Hn). split; [done|].
    by destruct (PyDict.get k (o_dict (obj backend st))).
Qed.

(** The critical section up to the push, on an empty stack. *)
Lemma set_backend_push_empty backend m st :
  is_local st = false -> backend_stack st = [] ->
  resolves (sys_modules st) backend m ->
  exists g,
    set_backend_push backend st =
      (Ret m, set_backend_stack [m]
                (set_globals g (set_ivy_original_dict (o_dict (obj ivy st)) st))).
Proof.
  intros Hloc Hstack Hres.
  unfold set_backend_push, bind at 1, gets at 1. rewrite Hstack.
  unfold bind at 1, modify at 1. set (s1 := set_ivy_original_dict _ st).
  assert (Hb : (match backend with
                | BName name =>
                    stack <- gets backend_stack ;;
                    temp_stack <- unwind_stack (length stack) [] ;;
                    backend <-
                      match PyDict.get name _backend_dict with
                      | Some path => import_module path
                      | None => raise (KeyError name)
                      end ;;
                    modify (fun st => set_backend_stack (backend_stack st ++ rev temp_stack) st) ;;;
                    ret backend
                | BModule m => ret m
                end) s1 = (Ret m, s1)).
  { destruct backend as [name|m0]; [|simpl in Hres; by subst].
    destruct Hres as (path & Hname & Hpath).
    unfold bind at 1, gets at 1. cbn [backend_stack s1 set_ivy_original_dict].
    rewrite Hstack. cbn [length unwind_stack].
    unfold bind at 1. unfold bind at 1, gets at 1.
    cbn [backend_stack s1 set_ivy_original_dict]. rewrite Hstack.
    unfold ret at 1. unfold bind at 1. rewrite Hname. unfold import_module.
    cbn [sys_modules s1 set_ivy_original_dict]. rewrite Hpath.
    unfold bind, modify, ret. cbn [backend_stack s1 set_ivy_original_dict].
    rewrite Hstack. cbn [rev app]. f_equal. unfold s1. by destruct st; simpl in *; subst. }
  unfold bind at 1. rewrite Hb. unfold bind at 1, gets at 1.
  assert (Hreg : exists g, register_backend_globals (o_backend_str (obj m s1)) s1 =
                           (Ret tt, set_globals g s1)).
  { unfold register_backend_globals. destruct (decide _); [by eexists|].
    destruct (decide _); [by eexists|]. exists (globals s1). by rewrite set_globals_same. }
  destruct Hreg as (g & Hreg). exists g. unfold bind at 1. rewrite Hreg.
  unfold bind, modify, ret. cbn [backend_stack set_globals s1 set_ivy_original_dict].
  by rewrite Hstack.
Qed.

Lemma set_backend_to_specific_version_idle backend st i f :
  PyStr.find "backends" (o_name (obj backend st)) = Some i ->
  sys_modules st !! PyStr.drop (i + 9) (o_name (obj backend st)) = Some f ->
  (forall key, key ∈ PyDict.keys (o_dict (obj backend st)) ->
               PyStr.contains "_v_" key = false) ->
  set_backend_to_specific_version backend st = (Ret tt, st).
Proof.
  intros Hi Hf Hkeys. unfold set_backend_to_specific_version, bind at 1, gets at 1.
  unfold bind at 1, lift, index. rewrite Hi.
  unfold bind at 1, import_module. rewrite Hf.
  unfold bind at 1, gets at 1. unfold bind at 1, dict_of, gets.
  induction (PyDict.keys (o_dict (obj backend st))) as [|key l IH]; [done|].
  simpl. unfold bind at 1, bind_version_specific.
  rewrite (Hkeys key) by apply list_elem_of_here.
  apply IH. intros key' Hk. apply Hkeys. by apply list_elem_of_further.
Qed.

(** X28.  [set_backend] on an empty stack, for a package namespace without
    nested modules and a backend without version-specific names: the call
    returns, with the backend as the only entry of the stack and the lock
    free.  A name of the package that the backend defines is bound to the
    wrapped implementation of the backend; a name it does not define is
    bound to the wrapped original, marked compositional, unless it is an
    invalid dtype of the backend: then it is removed. *)
Theorem set_backend_flat backend m i framework depth st :
  is_local st = false -> lock_held st = false -> backend_stack st = [] ->
  resolves (sys_modules st) backend m -> m <> ivy ->
  recursion_limit = S depth ->
  PyStr.find "backends" (o_name (obj m st)) = Some i ->
  sys_modules st !! PyStr.drop (i + 9) (o_name (obj m st)) = Some framework ->
  (forall key, key ∈ PyDict.keys (o_dict (obj m st)) -> PyStr.contains "_v_" key = false) ->
  NoDup (PyDict.keys (o_dict (obj ivy st))) ->
  (forall k v, (k, v) ∈ o_dict (obj ivy st) ->
     is_nested_module (o_backend_str (obj m st)) v st = false) ->
  exists st',
    set_backend backend false st = (Ret tt, st') /\
    backend_stack st' = [m] /\
    lock_held st' = false /\
    ivy_original_dict st' = o_dict (obj ivy st) /\
    forall k v, PyDict.get k (o_dict (obj ivy st)) = Some v ->
      match PyDict.get k (o_dict (obj m st)) with
      | Some impl =>
          PyDict.get k (o_dict (obj ivy st')) = Some (_wrap_function k impl v false)
      | None =>
          if bool_decide (k ∈ o_invalid_dtypes (obj m st))
          then PyDict.get k (o_dict (obj ivy st')) = None
          else PyDict.get k (o_dict (obj ivy st')) = Some (_wrap_function k v v true) /\
               PyDict.get k (o_dict (obj m st')) = Some v
      end.
Proof.
  intros Hloc Hlock Hstack Hres Hne Hdepth Hi Hfw Hkeys Hnd Hflat.
  unfold set_backend. rewrite prevent_access_locally_global by done.
  unfold bind at 1, set_backend_export, bind at 1, check_false.
  assert (Hcheck : match backend with
                   | BName name => negb (PyDict.mem name _backend_dict)
                   | BModule _ => false
                   end = false).
  { destruct backend as [name|]; [|done]. destruct Hres as (path & Hname & _).
    unfold PyDict.mem. by rewrite Hname. }
  rewrite Hcheck. unfold ret at 1 2. unfold bind at 1, acquire. rewrite Hlock.
  set (s1 := set_lock_held true st).
  destruct (set_backend_push_empty backend m s1 Hloc Hstack Hres) as (g & Hpush).
  unfold bind at 1. rewrite Hpush.
  set (s3 := set_backend_stack [m] _).
  assert (Hobj : forall r, obj r s3 = obj r st) by done.
  unfold bind at 1, set_backend_rebind, bind at 1.
  rewrite (set_backend_to_specific_version_idle m s3 i framework);
    [|by rewrite Hobj..].
  unfold bind at 1, gets at 1. unfold bind at 1. rewrite Hdepth.
  cbn [_set_backend_as_ivy]. unfold bind at 1, gets at 1. unfold bind at 1, gets at 1.
  cbn [for_items]. cbn [ivy_original_dict s3 set_backend_stack set_globals set_ivy_original_dict].
  change (o_dict (obj ivy s1)) with (o_dict (obj ivy st)).
  destruct (rebind_flat_pass (_set_backend_as_ivy depth) (o_dict (obj ivy st)) m
              (o_invalid_dtypes (obj m s3)) (o_backend_str (obj m s3)) s3
              Hne Hnd Hnd) as (st4 & Hrun & _ & Hf & _ & Hk).
  { intros k v Hkv. rewrite Hobj. unfold is_nested_module. rewrite Hobj.
    by apply (Hflat k v). }
  rewrite Hrun. unfold ret at 1. unfold release.
  assert (Hl4 : lock_held st4 = true).
  { apply (f_equal lock_held) in Hf. exact Hf. }
  rewrite Hl4. eexists. split; [reflexivity|].
  split; [apply (f_equal backend_stack) in Hf; exact Hf|].
  split; [done|].
  split; [apply (f_equal ivy_original_dict) in Hf; exact Hf|].
  intros k v Hv.
  change (obj ivy (set_lock_held false st4)) with (obj ivy st4).
  change (obj m (set_lock_held false st4)) with (obj m st4).
  destruct (Hk k) as [-> ->]. rewrite !Hobj. unfold rebound_target, rebound_backend, PyDict.mem.
  rewrite Hv. destruct (PyDict.get k (o_dict (obj m st))); [done|].
  by destruct (bool_decide _).
Qed.

End RebinderMore.

(** ** A dynamic switch, end to end *)

Section DynamicSwitch.
Context {E : Externals}.

Lemma frame_setitem_store P r k v : store_closed P -> frame P (setitem r k v).
Proof. intros HP. apply frame_modify. intros st. apply HP. Qed.

Lemma frame_delitem_store P r k : store_closed P -> frame P (delitem r k).
Proof. intros HP. apply frame_modify. intros st. apply HP. Qed.

Lemma frame_set_backend_to_specific_version_store P backend :
  store_closed P -> frame P (set_backend_to_specific_version backend).
Proof.
  intros HP. unfold set_backend_to_specific_version.
  apply frame_bind; [apply frame_gets | intros f].
  apply frame_bind; [apply frame_lift, index_ends | intros i].
  apply frame_bind; [apply frame_import_module | intros fm].
  apply frame_bind; [apply frame_gets | intros ver].
  apply frame_bind; [apply frame_dict_of | intros d].
  apply frame_for_each. intros key. unfold bind_version_specific.
  destruct (PyStr.contains "_v_" key); [|apply frame_ret].
  apply frame_bind; [apply frame_lift, fn_name_ends | intros [[|a n]|]]; try apply frame_ret.
  apply frame_bind; [apply frame_dict_of | intros d'].
  destruct (PyDict.get key d') as [v|]; [|apply frame_raise].
  apply frame_bind; [by apply frame_setitem_store | intros _].
  apply frame_modify. intros st. apply HP.
Qed.

Lemma frame_rebind_entry_store P nested target backend invalid bstr k v :
  store_closed P ->
  (forall src t b i s, frame P (nested src t b i s)) ->
  frame P (rebind_entry nested target backend invalid bstr k v).
Proof.
  intros HP Hn. unfold rebind_entry.
  apply frame_bind; [apply frame_dict_of | intros bd].
  apply frame_bind; [apply frame_dict_of | intros td].
  destruct (_ && _ && _); [by apply frame_delitem_store|].
  apply frame_bind.
  { destruct (negb _); [by apply frame_setitem_store | apply frame_ret]. }
  intros _. apply frame_bind; [apply frame_dict_of | intros bd'].
  destruct (PyDict.get k bd') as [to_wrap|]; [|apply frame_raise].
  apply frame_bind; [by apply frame_setitem_store | intros _].
  apply frame_bind; [apply frame_gets | intros vo].
  destruct (_ && _ && _); [|apply frame_ret].
  apply frame_bind; [apply frame_dict_of | intros td'].
  apply frame_bind; [apply frame_dict_of | intros bd''].
  destruct (PyDict.get k td'), (PyDict.get k bd''); try apply frame_raise.
  apply Hn.
Qed.

Lemma frame_set_backend_as_ivy_store P depth src target backend invalid bstr :
  store_closed P -> frame P (_set_backend_as_ivy depth src target backend invalid bstr).
Proof.
  intros HP. revert src target backend invalid bstr.
  induction depth as [|depth IH]; intros src target backend invalid bstr; simpl.
  - apply frame_raise.
  - apply frame_bind.
    { destruct invalid; [apply frame_ret | apply frame_gets]. }
    intros invalid'. apply frame_bind.
    { destruct bstr; [apply frame_ret | apply frame_gets]. }
    intros bstr'. apply frame_for_items. intros k v.
    by apply frame_rebind_entry_store.
Qed.

(** The unwinding loop touches the stack, the registry and the package
    namespace only. *)
Lemma unwind_stack_keeps stack : forall temp st,
  is_local st = false -> backend_stack st = stack ->
  exists out st',
    unwind_stack (length stack) temp st = (Ret out, st') /\
    keeps_but_namespace st st'.
Proof.
  induction stack as [|b stack IH] using rev_ind; intros temp st Hloc Hstack.
  - exists temp, st. simpl. unfold bind, gets. rewrite Hstack.
    split; [done | apply keeps_but_namespace_refl].
  - rewrite length_app, Nat.add_comm. simpl.
    destruct (unset_backend_pop st stack b Hloc Hstack) as (st1 & Hun & Hk1 & Hs1 & _).
    pose proof Hk1 as (_ & _ & _ & Hl1 & _).
    destruct (IH (temp ++ [b]) st1) as (out & st' & Hrun & Hk'); [congruence | done |].
    exists out, st'. split; [|by eapply keeps_but_namespace_trans].
    unfold bind at 1, gets at 1. rewrite Hstack.
    destruct (stack ++ [b]) eqn:Hsb; [by destruct stack|].
    unfold bind at 1. by rewrite Hun.
Qed.

(** The critical section leaves the tracked tensors alone up to the import
    phase. *)
Lemma set_backend_push_tracked backend st m st' :
  is_local st = false ->
  set_backend_push backend st = (Ret m, st') ->
  gc_objects st' = gc_objects st.
Proof.
  intros Hloc Hrun. unfold set_backend_push in Hrun.
  apply bind_Ret_inv in Hrun as (stack & st0 & Hg & Hrun). injection Hg as <- <-.
  apply bind_Ret_inv in Hrun as ([] & st1 & Hsnap & Hrun).
  assert (H1 : gc_objects st1 = gc_objects st /\ is_local st1 = false).
  { destruct (backend_stack st); injection Hsnap as <-; by split. }
  destruct H1 as [Hgc1 Hloc1].
  apply bind_Ret_inv in Hrun as (m' & st2 & Hres & Hrun).
  assert (Hgc2 : gc_objects st2 = gc_objects st1).
  { destruct backend as [name|m0]; [|by injection Hres as <- <-].
    apply bind_Ret_inv in Hres as (stack1 & st1' & Hg1 & Hres). injection Hg1 as <- <-.
    apply bind_Ret_inv in Hres as (temp & st3 & Hun & Hres).
    destruct (unwind_stack_keeps (backend_stack st1) [] st1 Hloc1 eq_refl)
      as (out & st3' & Hun' & Hk).
    rewrite Hun' in Hun. injection Hun as <- <-.
    destruct Hk as (_ & _ & _ & _ & _ & Hgc3 & _).
    apply bind_Ret_inv in Hres as (bk & st4 & Himp & Hres).
    assert (st4 = st3') as ->.
    { destruct (PyDict.get name _backend_dict); [|done].
      unfold import_module in Himp. destruct (sys_modules st3' !! _); [|done].
      by injection Himp as <- <-. }
    apply bind_Ret_inv in Hres as ([] & st5 & Hmod & Hres).
    injection Hmod as <-. injection Hres as <- <-. done. }
  apply bind_Ret_inv in Hrun as (s & st2' & Hg & Hrun). injection Hg as <- <-.
  apply bind_Ret_inv in Hrun as ([] & st3 & Hreg & Hrun).
  assert (Hgc3 : gc_objects st3 = gc_objects st2).
  { unfold register_backend_globals in Hreg.
    destruct (decide _); [by injection Hreg as <-|].
    destruct (decide _); by injection Hreg as <-. }
  apply bind_Ret_inv in Hrun as ([] & st4 & Hmod & Hrun).
  injection Hmod as <-. injection Hrun as <- <-. simpl. congruence.
Qed.

Lemma frame_run {A} P (m : M A) st o st' :
  frame P m -> P st -> m st = (o, st') -> P st'.
Proof. intros Hm HP Hrun. destruct (Hm st HP) as [HP' _]. by rewrite Hrun in HP'. Qed.

(** X29.  A dynamic switch that returns has put every tracked object whose
    flag is set, and that the export phase visits, through both conversions:
    its payloads were converted to numpy by the export phase and from there
    to the new backend by the import phase, variables through [_variable].
    Every other tracked object holds what it held. *)
Theorem dynamic_switch_converts backend st st' :
  NoDup (PyDict.keys (gc_objects st)) ->
  set_backend backend true st = (Ret tt, st') ->
  exists m variable_ids numpy_objs,
    resolves (sys_modules st) backend m /\
    numpy_objs =
      filter (fun r => dynamic_at (gc_objects st) r = true)
             (export_candidates (gc_objects st)) /\
    (forall r, r ∈ variable_ids <-> r ∈ numpy_objs /\ variable_at (gc_objects st) r = true) /\
    (forall r, r ∉ numpy_objs ->
               PyDict.get r (gc_objects st') = PyDict.get r (gc_objects st)) /\
    (forall r obj, r ∈ numpy_objs -> PyDict.get r (gc_objects st) = Some obj ->
       exists mid obj',
         exported obj mid /\ imported m variable_ids r mid obj' /\
         PyDict.get r (gc_objects st') = Some obj').
Proof.
  intros Hnd Hrun.
  destruct (set_backend_returns_inv _ _ _ _ Hrun) as [Hloc Hlock].
  unfold set_backend in Hrun. rewrite prevent_access_locally_global in Hrun by done.
  apply bind_Ret_inv in Hrun as ([vids nobjs] & st1 & Hexp & Hrun).
  apply bind_Ret_inv in Hrun as ([] & st2 & Hacq & Hrun).
  apply bind_Ret_inv in Hrun as (m & st3 & Hpush & Hrun).
  apply bind_Ret_inv in Hrun as ([] & st6 & Hrebind & Hrel).
  cbn [fst snd] in Hrebind.
  (* the export phase *)
  pose (P0 := fun s => same_env st false s /\ backend_stack s = backend_stack st).
  assert (HP1 : P0 st1).
  { apply (frame_run P0 (set_backend_export backend true) st (Ret (vids, nobjs)) st1);
      [apply frame_set_backend_export; by intros s l H | | exact Hexp].
    split; [|done]. rewrite <- Hlock. by apply same_env_refl. }
  destruct HP1 as [Henv1 Hstack1].
  unfold set_backend_export in Hexp.
  apply bind_Ret_inv in Hexp as ([] & st0 & Hcheck & Hexp).
  assert (st0 = st) as ->.
  { unfold check_false in Hcheck. destruct (match backend with BName _ => _ | BModule _ => _ end);
      [done | by injection Hcheck as <-]. }
  pose proof Hexp as Hexp'.
  unfold convert_from_source_backend_to_numpy, bind at 1, gets at 1 in Hexp'.
  pose proof (export_candidates_NoDup _ Hnd) as Hcands.
  destruct (export_loop_spec _ Hcands _ _ _ _ _ _ Hexp') as (Hn & Hsame & Hconv).
  destruct (export_loop_variables _ Hcands _ _ _ _ _ _ Hexp') as (_ & Hvids).
  simpl in Hn.
  (* the critical section up to the import phase *)
  unfold acquire in Hacq. destruct Henv1 as (E1 & E2 & E3 & E4 & E5).
  rewrite E4 in Hacq. injection Hacq as <-.
  assert (Henv2 : same_env st true (set_lock_held true st1)) by done.
  pose proof (set_backend_push_spec (same_env st true) (sys_modules st)
                (same_env_closed st true) (same_env_stack_closed st true)
                (same_env_original_closed st true)
                (fun s H => conj (proj1 H) (proj1 (proj2 H)))
                backend (set_lock_held true st1) Henv2) as Hpost.
  apply (post_intro _ _ _ _ _ Hpush) in Hpost. destruct Hpost as (Henv3 & Hres & Hstack3).
  simpl in Hstack3. rewrite Hstack1 in Hstack3.
  pose proof (set_backend_push_tracked backend (set_lock_held true st1) m st3 E1 Hpush) as Hgc3.
  simpl in Hgc3.
  unfold set_backend_rebind in Hrebind.
  apply bind_Ret_inv in Hrebind as ([] & st4 & Hver & Hrebind).
  apply bind_Ret_inv in Hrebind as (original & st4' & Hg & Hrebind). injection Hg as <- <-.
  apply bind_Ret_inv in Hrebind as ([] & st5 & Hwalk & Himport).
  pose (P3 := fun s => same_env st true s /\ backend_stack s = backend_stack st ++ [m]).
  assert (HP3 : closed P3) by apply closed_and_stack, same_env_closed.
  pose (G := fun s => gc_objects s = gc_objects st1).
  assert (HG : store_closed G) by (by intros s r f H).
  assert (H4 : P3 st4 /\ G st4).
  { split.
    - eapply (frame_run P3); [by apply frame_set_backend_to_specific_version| |exact Hver]. done.
    - eapply (frame_run G); [by apply frame_set_backend_to_specific_version_store| |exact Hver].
      done. }
  destruct H4 as [HP4 HG4].
  assert (H5 : P3 st5 /\ G st5).
  { split.
    - eapply (frame_run P3); [by apply frame_set_backend_as_ivy| |exact Hwalk]. done.
    - eapply (frame_run G); [by apply frame_set_backend_as_ivy_store| |exact Hwalk]. done. }
  destruct H5 as [[(Hl5 & _) Hstack5] HG5]. unfold G in HG5.
  (* the import phase *)
  assert (Hndn : NoDup nobjs) by (subst nobjs; by apply NoDup_filter).
  destruct (import_loop_spec vids (backend_stack st) m nobjs st5 st6 Hndn Hl5 Hstack5 Himport)
    as (_ & _ & _ & Hkeep & Himp).
  unfold release in Hrel. destruct (lock_held st6); [|done]. injection Hrel as <-.
  cbn [gc_objects set_lock_held].
  exists m, vids, nobjs. split; [done|]. split; [done|]. split; [|split].
  - intros r. rewrite Hvids. subst nobjs. rewrite list_elem_of_filter.
    unfold variable_at, dynamic_at. split.
    + intros [Hr|[Hr Hv]]; [by apply elem_of_nil in Hr|].
      split; [|done]. split; [|done].
      destruct (PyDict.get r (gc_objects st)); [|done]. by apply andb_true_iff in Hv as [? _].
    + intros [[_ Hr] Hv]. by right.
  - intros r Hr. rewrite (Hkeep r Hr), HG5. apply Hsame.
    destruct (decide (r ∈ export_candidates (gc_objects st))) as [Hc|Hc]; [|by left].
    right. destruct (dynamic_at (gc_objects st) r) eqn:Hd; [|done].
    exfalso. apply Hr. subst nobjs. by apply list_elem_of_filter.
  - intros r obj Hr Hobj. destruct (Himp r Hr) as (mid & obj' & Hmid & Hobj' & Himported).
    exists mid, obj'. split; [|by split].
    subst nobjs. apply list_elem_of_filter in Hr as [Hd Hc].
    destruct (Hconv r obj Hc Hobj) as (mid' & Hmid' & Hexported).
    { unfold dynamic_at in Hd. by rewrite Hobj in Hd. }
    rewrite HG5 in Hmid. congruence.
Qed.

End DynamicSwitch.

(** ** The registry of the package *)

Section RegistryMore.
Context {E : Externals}.

Lemma register_backend_globals_registered s st :
  register_backend_globals s st = (Ret tt, set_globals (registered s (globals st)) st).
Proof.
  unfold register_backend_globals, registered.
  destruct (decide _); [done|]. destruct (decide _); [done|].
  unfold ret. by rewrite set_globals_same.
Qed.

(** The registry after the push, on an empty stack. *)
Lemma set_backend_push_empty_globals backend m st st' :
  is_local st = false -> backend_stack st = [] ->
  set_backend_push backend st = (Ret m, st') ->
  globals st' = registered (o_backend_str (obj m st)) (globals st) /\
  forall r, obj r st' = obj r st.
Proof.
  intros Hloc Hstack Hrun. unfold set_backend_push in Hrun.
  apply bind_Ret_inv in Hrun as (stack & st0 & Hg & Hrun). injection Hg as <- <-.
  rewrite Hstack in Hrun.
  apply bind_Ret_inv in Hrun as ([] & st1 & Hsnap & Hrun). injection Hsnap as <-.
  set (s1 := set_ivy_original_dict _ st) in Hrun.
  apply bind_Ret_inv in Hrun as (m' & st2 & Hres & Hrun).
  assert (st2 = s1) as ->.
  { destruct backend as [name|m0]; [|by injection Hres as <- <-].
    apply bind_Ret_inv in Hres as (stack1 & st1' & Hg1 & Hres). injection Hg1 as <- <-.
    cbn [backend_stack s1 set_ivy_original_dict] in Hres. rewrite Hstack in Hres.
    cbn [length unwind_stack] in Hres.
    apply bind_Ret_inv in Hres as (temp & st3 & Hun & Hres).
    unfold bind, gets in Hun. cbn [backend_stack s1 set_ivy_original_dict] in Hun.
    rewrite Hstack in Hun. injection Hun as <- <-.
    apply bind_Ret_inv in Hres as (bk & st4 & Himp & Hres).
    assert (st4 = s1) as ->.
    { destruct (PyDict.get name _backend_dict); [|done].
      unfold import_module in Himp. destruct (sys_modules s1 !! _); [|done].
      by injection Himp as <- <-. }
    apply bind_Ret_inv in Hres as ([] & st5 & Hmod & Hres).
    injection Hmod as <-. injection Hres as <- <-.
    cbn [backend_stack s1 set_ivy_original_dict rev app]. rewrite Hstack.
    unfold s1. by destruct st; simpl in *; subst. }
  apply bind_Ret_inv in Hrun as (s & st2' & Hg & Hrun). injection Hg as <- <-.
  apply bind_Ret_inv in Hrun as ([] & st3 & Hreg & Hrun).
  rewrite register_backend_globals_registered in Hreg. injection Hreg as <-.
  apply bind_Ret_inv in Hrun as ([] & st4 & Hmod & Hrun).
  injection Hmod as <-. injection Hrun as <- <-. by split.
Qed.

(** What the rest of the critical section and the pop leave of the
    registry. *)
Lemma set_backend_rebind_globals m dynamic variable_ids numpy_objs st st' :
  set_backend_rebind m dynamic variable_ids numpy_objs st = (Ret tt, st') ->
  globals st' = globals st.
Proof.
  intros Hrun. unfold set_backend_rebind in Hrun.
  apply bind_Ret_inv in Hrun as ([] & st1 & Hver & Hrun).
  apply bind_Ret_inv in Hrun as (original & st1' & Hg & Hrun). injection Hg as <- <-.
  apply bind_Ret_inv in Hrun as ([] & st2 & Hwalk & Himport).
  pose (P := fun s => globals s = globals st).
  assert (HP : store_closed P) by (by intros s r f H).
  assert (H1 : P st1).
  { eapply (frame_run P); [by apply frame_set_backend_to_specific_version_store| |exact Hver].
    done. }
  assert (H2 : P st2).
  { eapply (frame_run P); [by apply frame_set_backend_as_ivy_store| |exact Hwalk]. done. }
  destruct dynamic; [|by injection Himport as <-].
  eapply (frame_run P); [|exact H2|exact Himport].
  apply frame_convert_from_numpy_to_target_backend. by intros s l H.
Qed.

Lemma unset_last_backend_globals st b :
  is_local st = false -> backend_stack st = [b] ->
  exists st',
    unset_backend st = (Ret (Some b), st') /\
    globals st' = unregistered (o_backend_str (obj b st)) (globals st).
Proof.
  intros Hloc Hstack.
  destruct (unset_backend_pop st [] b Hloc Hstack) as (st' & Hun & _).
  exists st'. split; [exact Hun|].
  unfold unset_backend in Hun. rewrite prevent_access_locally_global in Hun by done.
  unfold unset_backend_body in Hun.
  apply bind_Ret_inv in Hun as (stack & s0' & Hg & Hun). injection Hg as <- <-.
  rewrite Hstack in Hun. cbn [last removelast] in Hun.
  apply bind_Ret_inv in Hun as ([] & s0 & Hmod & Hun). injection Hmod as <-.
  apply bind_Ret_inv in Hun as ([] & s3 & Hres & Hret). injection Hret as <-.
  unfold restore_namespace in Hres.
  apply bind_Ret_inv in Hres as (s & s0' & Hg & Hres). injection Hg as <- <-.
  apply bind_Ret_inv in Hres as ([] & s1 & Hpre & Hres).
  assert (Hs1 : globals s1 = unregistered (o_backend_str (obj b st)) (globals st) /\
                backend_stack s1 = []).
  { unfold unregistered. change (obj b (set_backend_stack [] st)) with (obj b st) in Hpre.
    destruct (decide _); [by injection Hpre as <-|].
    destruct (decide _); by injection Hpre as <-. }
  destruct Hs1 as [Hg1 Hst1].
  apply bind_Ret_inv in Hres as (stack' & s1' & Hg & Hres). injection Hg as <- <-.
  rewrite Hst1 in Hres. cbn [last] in Hres.
  apply bind_Ret_inv in Hres as ([] & s2 & Hreg & Hres). injection Hreg as <-.
  apply bind_Ret_inv in Hres as (d & s2 & Hd & Hloop). injection Hd as <- <-.
  rewrite <- Hg1.
  apply (frame_run (fun s => globals s = globals s1) _ s1 _ _) with (3 := Hloop); [|done].
  apply frame_for_each. intros kv. apply frame_bind; [apply frame_gets | intros orig].
  destruct (PyDict.get _ orig); [|apply frame_ret].
  apply frame_setitem_store. by intros ? ? ? ?.
Qed.

(** X30.  The registry of the package around a backend.  A call of
    [set_backend] on an empty stack that returns has made the registrations
    of the new backend and no other change to the registry: the default
    device "cpu" for numpy, the global attribute RNG for jax, nothing for
    another backend.  The [unset_backend] that follows takes the same
    registration back, and nothing else. *)
Theorem backend_registrations backend dynamic st st1 :
  backend_stack st = [] ->
  set_backend backend dynamic st = (Ret tt, st1) ->
  exists m st2,
    resolves (sys_modules st) backend m /\
    globals st1 = registered (o_backend_str (obj m st)) (globals st) /\
    unset_backend st1 = (Ret (Some m), st2) /\
    globals st2 = unregistered (o_backend_str (obj m st)) (globals st1).
Proof.
  intros Hstack Hrun.
  destruct (set_backend_returns_inv _ _ _ _ Hrun) as [Hloc Hlock].
  unfold set_backend in Hrun. rewrite prevent_access_locally_global in Hrun by done.
  apply bind_Ret_inv in Hrun as (exported & s1 & Hexp & Hrun).
  apply bind_Ret_inv in Hrun as ([] & s2 & Hacq & Hrun).
  apply bind_Ret_inv in Hrun as (m & s3 & Hpush & Hrun).
  apply bind_Ret_inv in Hrun as ([] & s4 & Hrebind & Hrel).
  pose (P0 := fun s => same_env st false s /\ globals s = globals st /\
                       objects s = objects st /\ backend_stack s = []).
  assert (HP1 : P0 s1).
  { apply (frame_run P0 (set_backend_export backend dynamic) st (Ret exported) s1);
      [apply frame_set_backend_export; by intros s l H | | exact Hexp].
    split; [|done]. rewrite <- Hlock. by apply same_env_refl. }
  destruct HP1 as (Henv1 & Hg1 & Ho1 & Hst1).
  pose proof Henv1 as (Hloc1 & _ & _ & Hlk1 & _).
  unfold acquire in Hacq. rewrite Hlk1 in Hacq. injection Hacq as <-.
  assert (Henv2 : same_env st true (set_lock_held true s1)).
  { destruct Henv1 as (E1 & E2 & E3 & E4 & E5). done. }
  pose proof (set_backend_push_spec (same_env st true) (sys_modules st)
                (same_env_closed st true) (same_env_stack_closed st true)
                (same_env_original_closed st true)
                (fun s H => conj (proj1 H) (proj1 (proj2 H)))
                backend (set_lock_held true s1) Henv2) as Hpost.
  apply (post_intro _ _ _ _ _ Hpush) in Hpost. destruct Hpost as (Henv3 & Hres & Hs3).
  cbn [backend_stack set_lock_held] in Hs3. rewrite Hst1 in Hs3.
  destruct (set_backend_push_empty_globals backend m (set_lock_held true s1) s3 Hloc1 Hst1 Hpush)
    as (Hg3 & Ho3).
  pose proof (set_backend_rebind_globals _ _ _ _ _ _ Hrebind) as Hg4.
  pose (P3 := fun s => same_env st true s /\ backend_stack s = [] ++ [m]).
  assert (HP4 : P3 s4).
  { eapply (frame_run P3); [| | exact Hrebind].
    - apply frame_set_backend_rebind.
      apply closed_and_stack, same_env_closed.
    - by split. }
  destruct HP4 as [(Hl4 & _ & _ & Hlk4 & Hattr) Hs4].
  unfold release in Hrel. rewrite Hlk4 in Hrel. injection Hrel as <-.
  destruct (unset_last_backend_globals (set_lock_held false s4) m Hl4 Hs4) as (st2 & Hun & Hg2).
  assert (Hstr : o_backend_str (obj m (set_lock_held false s4)) = o_backend_str (obj m st)).
  { apply Hattr. }
  exists m, st2. split; [done|]. split; [|split; [done|]].
  - cbn [globals set_lock_held]. rewrite Hg4, Hg3. cbn [globals set_lock_held].
    rewrite Hg1. f_equal. f_equal. unfold obj. cbn [objects set_lock_held]. by rewrite Ho1.
  - by rewrite Hg2, Hstr.
Qed.

End RegistryMore.

(** * The claims at the example installation *)

Section Witnesses.
#[local] Existing Instance Examples.demo_externals.
Import Examples.

Lemma stack_lifo_witness :
  let calls := [("torch", false); ("numpy", true)] in
  let st1 := (set_backends calls start).2 in
  is_local start = false /\
  backend_stack start = [] /\
  set_backends calls start = (Ret tt, st1) /\
  exists mods st2,
    Forall2 (fun c m => resolves (sys_modules start) (BName (fst c)) m) calls mods /\
    unset_backends (length calls) st1 = (Ret (map Some (rev mods)), st2) /\
    backend_stack st2 = [] /\
    forall path r,
      PyDict.get (implicit_backend start) _backend_dict = Some path ->
      sys_modules start !! path = Some r ->
      current_backend [] [] st2 = (Ret r, st2).
Proof.
  intros calls st1.
  assert (Hrun : set_backends calls start = (Ret tt, st1)) by (by vm_compute).
  split; [done|]. split; [done|]. split; [exact Hrun|].
  exact (stack_lifo calls start st1 eq_refl eq_refl Hrun).
Defined.

Lemma set_backend_unregistered_witness :
  is_local start = false /\
  ("paddle" ∉ PyDict.keys _backend_dict) /\
  set_backend (BName "paddle") true start = (Raise InvalidBackendError, start).
Proof.
  assert (Hname : "paddle" ∉ PyDict.keys _backend_dict) by (by apply (bool_decide_unpack _)).
  split; [done|]. split; [exact Hname|].
  exact (set_backend_unregistered start "paddle" true eq_refl Hname).
Defined.


Lemma inference_precedence_witness :
  let st' := (set_backend (BName "numpy") false start).2 in
  (is_local start = false /\ backend_stack start = [] /\
   PyDict.get "torch" _array_types = Some "ivy.functional.backends.torch" /\
   sys_modules start !! "ivy.functional.backends.torch" = Some 20 /\
   (current_backend [PObj "torch"] [] start).1 = Ret 20) /\
  (set_backend (BName "numpy") false start = (Ret tt, st') /\
   exists m, resolves (sys_modules start) (BName "numpy") m /\
             current_backend [PObj "torch"] [] st' = (Ret m, st')) /\
  ((_determine_backend_from_args (PList ([PObj "builtins"] ++ map snd ([] : list (string * pyval)))) start).1 = Ret None /\
   PyDict.get (implicit_backend start) _backend_dict = Some "ivy.functional.backends.numpy" /\
   sys_modules start !! "ivy.functional.backends.numpy" = Some 10 /\
   current_backend [PObj "builtins"] [] start = (Ret 10, start)).
Proof.
  intros st'.
  assert (Hrun : set_backend (BName "numpy") false start = (Ret tt, st')) by (by vm_compute).
  destruct inference_precedence as (H1 & H2 & H3).
  split; [|split].
  - split; [done|]. split; [done|]. split; [done|]. split; [done|].
    exact (H1 start "torch" "ivy.functional.backends.torch" 20 eq_refl eq_refl eq_refl eq_refl).
  - split; [exact Hrun|]. exact (H2 start (BName "numpy") false st' [PObj "torch"] [] Hrun).
  - split; [done|]. split; [done|]. split; [done|].
    exact (H3 start [PObj "builtins"] [] "ivy.functional.backends.numpy" 10
             eq_refl eq_refl eq_refl eq_refl eq_refl).
Defined.

Lemma inference_sets_implicit_default_witness :
  is_local start = false /\ backend_stack start = [] /\
  implicit_backend start = "numpy" /\
  (_determine_backend_from_args (PList ([PObj "torch"] ++ map snd ([] : list (string * pyval)))) start).1 = Ret (Some 20) /\
  exists st1,
    current_backend [PObj "torch"] [] start = (Ret 20, st1) /\
    implicit_backend st1 = o_backend_str (obj 20 start) /\
    forall n, current_backends n st1 = (Ret (replicate n 20), st1).
Proof.
  split; [done|]. split; [done|]. split; [done|]. split; [done|].
  exact (inference_sets_implicit_default start [PObj "torch"] [] 20
           "ivy.functional.backends.torch" eq_refl eq_refl eq_refl eq_refl eq_refl).
Defined.





(** C9 fails on the code.  The array 50 and the container 51 share the
    payload 60, and the flag of the container is not set: the export phase
    records neither, and the payload is converted not once but never. *)
Lemma shared_payload_never_converted :
  let run := convert_from_source_backend_to_numpy [] [] start in
  PyDict.get 50 (gc_objects start) = Some (array_object 60 "numpy" true) /\
  PyDict.get 51 (gc_objects start) =
    Some (TContainer {| c_leaves := [LeafNative {| n_id := 60; n_class_module := "numpy" |}];
                        c_dynamic_backend := false |}) /\
  run.1 = Ret ([], [52]) /\
  PyDict.get 50 (gc_objects run.2) = PyDict.get 50 (gc_objects start) /\
  PyDict.get 51 (gc_objects run.2) = PyDict.get 51 (gc_objects start).
Proof. by vm_compute. Qed.

Lemma shared_payload_export_witness :
  let run := convert_from_source_backend_to_numpy [] [] start in
  let a := {| a_initialized := true;
              a_data := {| n_id := 60; n_class_module := "numpy" |};
              a_dynamic_backend := true |} in
  let item := LeafNative {| n_id := 60; n_class_module := "numpy" |} in
  let c := {| c_leaves := [item]; c_dynamic_backend := false |} in
  NoDup (PyDict.keys (gc_objects start)) /\
  run = (Ret ([], [52]), run.2) /\
  (50 ∉ map fst (_remove_intermediate_arrays
                   (filter (fun arr => a_initialized (snd arr) = true)
                           (arrays_of (gc_objects start)))
                   (containers_of (gc_objects start)))) /\
  (50 ∉ [52]) /\
  PyDict.get 50 (gc_objects run.2) = Some (TArray a) /\
  NoDup [52] /\
  (51 ∈ [52] <-> c_dynamic_backend c = true) /\
  (c_dynamic_backend c = false ->
   PyDict.get 51 (gc_objects run.2) = Some (TContainer c)) /\
  (c_dynamic_backend c = true ->
   exists c', PyDict.get 51 (gc_objects run.2) = Some (TContainer c') /\
              exported (TContainer c) (TContainer c')).
Proof.
  intros run a item c.
  assert (Hnd : NoDup (PyDict.keys (gc_objects start))).
  { apply (bool_decide_unpack _). by vm_compute. }
  assert (Hrun : run = (Ret ([], [52]), run.2)) by (by vm_compute).
  split; [exact Hnd|]. split; [exact Hrun|].
  exact (shared_payload_export start [] [52] run.2 50 a 51 c item Hnd Hrun
           eq_refl eq_refl (list_elem_of_here _ _) eq_refl).
Defined.

Lemma choose_random_backend_four_excluded_witness :
  is_local start = false /\
  ("mindspore" ∈ PyDict.keys _backend_dict) /\
  ("mindspore" ∉ ["numpy"; "jax"; "tensorflow"; "torch"]) /\
  (choose_random_backend 7 ["numpy"; "jax"; "tensorflow"; "torch"] start =
    (Raise (IvyException
       "Unable to select backend, all backends are excluded,            or not installed."),
     start)).
Proof.
  split; [done|].
  exact (choose_random_backend_four_excluded 7 start eq_refl).
Defined.


End Witnesses.

(** * The further properties at the example installation *)

Section MoreWitnesses.
#[local] Existing Instance Examples.demo_externals.
Import Examples MoreExamples.

Lemma unset_backend_pops_witness :
  is_local torch_set = false /\
  exists st',
    unset_backend torch_set = (Ret (last (backend_stack torch_set)), st') /\
    backend_stack st' = removelast (backend_stack torch_set) /\
    keeps_but_namespace torch_set st' /\
    (backend_stack torch_set = [] -> st' = torch_set).
Proof.
  assert (Hloc : is_local torch_set = false) by (by vm_compute).
  split; [exact Hloc|]. exact (unset_backend_pops torch_set Hloc).
Defined.

Lemma unset_last_backend_restores_witness :
  is_local torch_set = false /\ backend_stack torch_set = [20] /\
  NoDup (PyDict.keys (ivy_original_dict torch_set)) /\
  exists st',
    unset_backend torch_set = (Ret (Some 20), st') /\
    backend_stack st' = [] /\
    ivy_original_dict st' = ivy_original_dict torch_set /\
    (forall k v, (k, v) ∈ ivy_original_dict torch_set ->
                 PyDict.get k (o_dict (obj ivy st')) = Some v) /\
    (forall k, k ∉ PyDict.keys (ivy_original_dict torch_set) ->
               PyDict.get k (o_dict (obj ivy st')) =
               PyDict.get k (o_dict (obj ivy torch_set))) /\
    (forall r, r <> ivy -> obj r st' = obj r torch_set).
Proof.
  assert (Hloc : is_local torch_set = false) by (by vm_compute).
  assert (Hstack : backend_stack torch_set = [20]) by (by vm_compute).
  assert (Hnd : NoDup (PyDict.keys (ivy_original_dict torch_set))).
  { apply (bool_decide_unpack _). by vm_compute. }
  split; [exact Hloc|]. split; [exact Hstack|]. split; [exact Hnd|].
  exact (unset_last_backend_restores torch_set 20 Hloc Hstack Hnd).
Defined.

Lemma unset_backend_rebinds_previous_witness :
  is_local numpy_on_torch = false /\ backend_stack numpy_on_torch = [] ++ [20; 10] /\
  NoDup (PyDict.keys (o_dict (obj 20 numpy_on_torch))) /\
  exists st',
    unset_backend numpy_on_torch = (Ret (Some 10), st') /\
    backend_stack st' = [] ++ [20] /\
    (forall k v orig,
       PyDict.get k (o_dict (obj 20 numpy_on_torch)) = Some v ->
       PyDict.get k (ivy_original_dict numpy_on_torch) = Some orig ->
       PyDict.get k (o_dict (obj ivy st')) =
         Some (_wrap_function k v orig compositional_default)) /\
    (forall k,
       PyDict.get k (o_dict (obj 20 numpy_on_torch)) = None \/
       PyDict.get k (ivy_original_dict numpy_on_torch) = None ->
       PyDict.get k (o_dict (obj ivy st')) = PyDict.get k (o_dict (obj ivy numpy_on_torch))).
Proof.
  assert (Hloc : is_local numpy_on_torch = false) by (by vm_compute).
  assert (Hstack : backend_stack numpy_on_torch = [] ++ [20; 10]) by (by vm_compute).
  assert (Hnd : NoDup (PyDict.keys (o_dict (obj 20 numpy_on_torch)))).
  { apply (bool_decide_unpack _). by vm_compute. }
  split; [exact Hloc|]. split; [exact Hstack|]. split; [exact Hnd|].
  exact (unset_backend_rebinds_previous numpy_on_torch [] 20 10 Hloc Hstack Hnd).
Defined.

Lemma clear_backend_stack_restores_witness :
  is_local numpy_on_torch = false /\
  NoDup (PyDict.keys (ivy_original_dict numpy_on_torch)) /\
  exists st',
    clear_backend_stack numpy_on_torch = (Ret tt, st') /\
    backend_stack st' = [] /\
    ivy_original_dict st' = ivy_original_dict numpy_on_torch /\
    implicit_backend st' = implicit_backend numpy_on_torch /\
    (backend_stack numpy_on_torch <> [] ->
     forall k v, (k, v) ∈ ivy_original_dict numpy_on_torch ->
                 PyDict.get k (o_dict (obj ivy st')) = Some v).
Proof.
  assert (Hloc : is_local numpy_on_torch = false) by (by vm_compute).
  assert (Hnd : NoDup (PyDict.keys (ivy_original_dict numpy_on_torch))).
  { apply (bool_decide_unpack _). by vm_compute. }
  split; [exact Hloc|]. split; [exact Hnd|].
  exact (clear_backend_stack_restores numpy_on_torch Hloc Hnd).
Defined.

Lemma set_backend_snapshot_witness :
  set_backend (BName "torch") false start = (Ret tt, torch_set) /\
  (backend_stack start = [] -> ivy_original_dict torch_set = o_dict (obj ivy start)) /\
  (backend_stack start <> [] -> ivy_original_dict torch_set = ivy_original_dict start).
Proof.
  assert (Hrun : set_backend (BName "torch") false start = (Ret tt, torch_set))
    by (by vm_compute).
  split; [exact Hrun|].
  exact (set_backend_snapshot (BName "torch") false start torch_set Hrun).
Defined.

Lemma set_then_unset_restores_witness :
  backend_stack start = [] /\
  NoDup (PyDict.keys (o_dict (obj ivy start))) /\
  set_backend (BName "torch") false start = (Ret tt, torch_set) /\
  exists m st2,
    resolves (sys_modules start) (BName "torch") m /\
    unset_backend torch_set = (Ret (Some m), st2) /\
    backend_stack st2 = [] /\
    forall k v, PyDict.get k (o_dict (obj ivy start)) = Some v ->
                PyDict.get k (o_dict (obj ivy st2)) = Some v.
Proof.
  assert (Hnd : NoDup (PyDict.keys (o_dict (obj ivy start)))).
  { apply (bool_decide_unpack _). by vm_compute. }
  assert (Hrun : set_backend (BName "torch") false start = (Ret tt, torch_set))
    by (by vm_compute).
  split; [reflexivity|]. split; [exact Hnd|]. split; [exact Hrun|].
  exact (set_then_unset_restores (BName "torch") false start torch_set eq_refl Hnd Hrun).
Defined.

Lemma set_backend_import_failure_witness :
  is_local torch_set = false /\ lock_held torch_set = false /\
  PyDict.get "jax" _backend_dict = Some "ivy.functional.backends.jax" /\
  sys_modules torch_set !! "ivy.functional.backends.jax" = None /\
  exists st',
    set_backend (BName "jax") false torch_set =
      (Raise (ImportError "ivy.functional.backends.jax"), st') /\
    backend_stack st' = [] /\
    lock_held st' = true.
Proof.
  assert (Hloc : is_local torch_set = false) by (by vm_compute).
  assert (Hlock : lock_held torch_set = false) by (by vm_compute).
  assert (Hmod : sys_modules torch_set !! "ivy.functional.backends.jax" = None)
    by (by vm_compute).
  split; [exact Hloc|]. split; [exact Hlock|]. split; [reflexivity|]. split; [exact Hmod|].
  exact (set_backend_import_failure torch_set "jax" "ivy.functional.backends.jax"
           Hloc Hlock eq_refl Hmod).
Defined.

Lemma context_manager_restores_stack_witness :
  let self := {| module := BName "numpy" |} in
  __enter__ self torch_set = (Ret tt, numpy_on_torch) /\
  exists m st2,
    resolves (sys_modules torch_set) (module self) m /\
    last (backend_stack numpy_on_torch) = Some m /\
    __exit__ self (Some ConversionError) numpy_on_torch = (Ret tt, st2) /\
    backend_stack st2 = backend_stack torch_set /\
    lock_held st2 = false.
Proof.
  intros self.
  assert (Hrun : __enter__ self torch_set = (Ret tt, numpy_on_torch)) by (by vm_compute).
  split; [exact Hrun|].
  exact (context_manager_restores_stack self (Some ConversionError) torch_set numpy_on_torch Hrun).
Defined.

Lemma local_package_guard_witness :
  is_local local_start = true /\
  set_backend (BName "torch") true local_start =
    (Raise (RuntimeError "Calling set_backend is not allowed on this object."), local_start) /\
  unset_backend local_start =
    (Raise (RuntimeError "Calling unset_backend is not allowed on this object."), local_start) /\
  clear_backend_stack local_start =
    (Raise (RuntimeError "Calling clear_backend_stack is not allowed on this object."),
     local_start) /\
  choose_random_backend 3 [] local_start =
    (Raise (RuntimeError "Calling choose_random_backend is not allowed on this object."),
     local_start) /\
  current_backend [PObj "torch"] [] local_start = (Ret ivy, local_start) /\
  get_backend (Some (BName "torch")) local_start = (Ret (AModule ivy), local_start).
Proof.
  split; [reflexivity|].
  exact (local_package_guard local_start (BName "torch") true 3 [] [PObj "torch"] []
           (Some (BName "torch")) eq_refl).
Defined.

Lemma first_found_wins_witness :
  (Forall (fun a => _determine_backend_from_args a start = (Ret None, start)) [PObj "builtins"] /\
   _determine_backend_from_args (PObj "torch") start = (Ret (Some 20), start) /\
   _determine_backend_from_args (PList ([PObj "builtins"] ++ PObj "torch" :: [PObj "numpy"])) start =
     (Ret (Some 20), start) /\
   _determine_backend_from_args (PTuple ([PObj "builtins"] ++ PObj "torch" :: [PObj "numpy"])) start =
     (Ret (Some 20), start)) /\
  (Forall (fun kv => _determine_backend_from_args (snd kv) start = (Ret None, start))
          [("n", PObj "builtins")] /\
   _determine_backend_from_args (PObj "torch") start = (Ret (Some 20), start) /\
   _determine_backend_from_args
     (PDict ([("n", PObj "builtins")] ++ ("x", PObj "torch") :: [("y", PObj "numpy")])) start =
     (Ret (Some 20), start)).
Proof.
  destruct (first_found_wins start 20) as [H1 H2].
  assert (Hx : _determine_backend_from_args (PObj "torch") start = (Ret (Some 20), start))
    by reflexivity.
  assert (Hxs : Forall (fun a => _determine_backend_from_args a start = (Ret None, start))
                       [PObj "builtins"]).
  { constructor; [reflexivity | constructor]. }
  assert (Hitems : Forall (fun kv : string * pyval =>
                     _determine_backend_from_args (snd kv) start = (Ret None, start))
                          [("n", PObj "builtins")]).
  { constructor; [reflexivity | constructor]. }
  split.
  - split; [exact Hxs|]. split; [exact Hx|].
    exact (H1 [PObj "builtins"] (PObj "torch") [PObj "numpy"] Hxs Hx).
  - split; [exact Hitems|]. split; [exact Hx|].
    exact (H2 [("n", PObj "builtins")] "x" (PObj "torch") [("y", PObj "numpy")] Hitems Hx).
Defined.

Lemma canonical_name_is_prefix_witness :
  fn_name_from_version_specific_fn_name "op_v_1p0_to_1p5" "1.4.0" = Ret (Some "op") /\
  PyStr.find "_v_" "op_v_1p0_to_1p5" = Some (String.length "op") /\
  exists range, "op_v_1p0_to_1p5" = "op" +:+ "_v_" +:+ range.
Proof.
  split; [reflexivity|].
  exact (canonical_name_is_prefix "op_v_1p0_to_1p5" "1.4.0" "op" eq_refl).
Defined.

Lemma stray_version_marker_witness :
  ("op_v_2" ∈ PyDict.keys (o_dict (obj 45 odd_backends))) /\
  PyStr.contains "_v_" "op_v_2" = true /\
  PyStr.contains "_to_" "op_v_2" = false /\
  PyStr.find "_and_" "op_v_2" = None /\
  (forall version, exists message,
     fn_name_from_version_specific_fn_name "op_v_2" version = Raise (ValueError message)) /\
  exists e, (set_backend_to_specific_version 45 odd_backends).1 = Raise e.
Proof.
  assert (Hin : "op_v_2" ∈ PyDict.keys (o_dict (obj 45 odd_backends))).
  { apply (bool_decide_unpack _). by vm_compute. }
  split; [exact Hin|]. split; [reflexivity|]. split; [reflexivity|]. split; [reflexivity|].
  exact (stray_version_marker odd_backends 45 "op_v_2" Hin eq_refl eq_refl eq_refl).
Defined.

Lemma range_open_below_witness :
  PyStr.contains "_to_" "op_v_1p5_and_below" = false /\
  PyStr.contains "_and_above" "op_v_1p5_and_below" = false /\
  PyStr.find "_v_" "op_v_1p5_and_below" = Some 2 /\
  PyStr.find "_and_" "op_v_1p5_and_below" = Some 8 /\
  PyStr.ints (PyStr.split "p" "1p5") = Some [1; 5]%Z /\
  version_tuple "1.4.0" = Ret [1; 4; 0]%Z /\
  fn_name_from_version_specific_fn_name "op_v_1p5_and_below" "1.4.0" = Ret (Some "op").
Proof.
  repeat (split; [reflexivity|]).
  exact (range_open_below "op" "1p5" "below" "1.4.0" [1; 5]%Z [1; 4; 0]%Z
           eq_refl eq_refl eq_refl eq_refl eq_refl eq_refl).
Defined.

Lemma longer_version_above_bound_witness :
  PyStr.find "_v_" "op_v_1p0_to_1p5" = Some 2 /\
  PyStr.find "_to_" "op_v_1p0_to_1p5" = Some 8 /\
  PyStr.ints (PyStr.split "p" "1p0") = Some [1; 0]%Z /\
  PyStr.ints (PyStr.split "p" "1p5") = Some [1; 5]%Z /\
  version_tuple "1.5.1" = Ret ([1; 5] ++ 1 :: [])%Z /\
  fn_name_from_version_specific_fn_name "op_v_1p0_to_1p5" "1.5.1" = Ret None.
Proof.
  repeat (split; [reflexivity|]).
  exact (longer_version_above_bound "op" "1p0" "1p5" "1.5.1" [1; 0]%Z [1; 5]%Z 1%Z []
           eq_refl eq_refl eq_refl eq_refl eq_refl).
Defined.


Lemma export_nothing_dynamic_witness :
  (forall r obj, (r, obj) ∈ gc_objects all_static -> dynamic_backend obj = false) /\
  convert_from_source_backend_to_numpy [] [] all_static = (Ret ([], []), all_static).
Proof.
  assert (Hdyn : forall r obj, (r, obj) ∈ gc_objects all_static -> dynamic_backend obj = false).
  { intros r obj Hin. simpl in Hin.
    apply elem_of_cons in Hin as [[= -> ->]|Hin]; [done|].
    apply list_elem_of_singleton in Hin as [= -> ->]. done. }
  split; [exact Hdyn|].
  exact (export_nothing_dynamic all_static [] [] Hdyn).
Defined.

Lemma export_records_witness :
  let run := convert_from_source_backend_to_numpy [] [] start in
  NoDup (PyDict.keys (gc_objects start)) /\
  run = (Ret ([], [52]), run.2) /\
  [52] =
    filter (fun r => dynamic_at (gc_objects start) r = true)
           (export_candidates (gc_objects start)) /\
  NoDup [52] /\
  NoDup ([] : list ref) /\
  forall r, r ∈ ([] : list ref) <->
            r ∈ [52] /\
            exists obj, PyDict.get r (gc_objects start) = Some obj /\ _is_var obj = true.
Proof.
  intros run.
  assert (Hnd : NoDup (PyDict.keys (gc_objects start))).
  { apply (bool_decide_unpack _). by vm_compute. }
  assert (Hrun : run = (Ret ([], [52]), run.2)) by (by vm_compute).
  split; [exact Hnd|]. split; [exact Hrun|].
  exact (export_records start [] [52] run.2 Hnd Hrun).
Defined.

Lemma standalone_payloads_once_witness :
  let arr_list := arrays_of (gc_objects twins) in
  let kept := _remove_intermediate_arrays arr_list [] in
  let x := (50, {| a_initialized := true;
                   a_data := {| n_id := 60; n_class_module := "numpy" |};
                   a_dynamic_backend := true |}) in
  NoDup (map (fun x : ref * ivy_array => n_id (a_data (snd x))) kept) /\
  (forall y, y ∈ kept -> y ∈ arr_list /\ n_id (a_data (snd y)) ∉ cont_ids []) /\
  (x ∈ arr_list) /\ (n_id (a_data (snd x)) ∉ cont_ids []) /\
  exists y, y ∈ kept /\ n_id (a_data (snd y)) = n_id (a_data (snd x)).
Proof.
  intros arr_list kept x.
  destruct (standalone_payloads_once arr_list []) as (H1 & H2 & H3).
  assert (Hx : x ∈ arr_list) by apply list_elem_of_here.
  assert (Hid : n_id (a_data (snd x)) ∉ cont_ids []) by apply not_elem_of_nil.
  split; [exact H1|]. split; [exact H2|]. split; [exact Hx|]. split; [exact Hid|].
  exact (H3 x Hx Hid).
Defined.

Lemma duplicate_payload_exported_once_witness :
  let run := convert_from_source_backend_to_numpy [] [] twins in
  let a := {| a_initialized := true;
              a_data := {| n_id := 60; n_class_module := "numpy" |};
              a_dynamic_backend := true |} in
  NoDup (PyDict.keys (gc_objects twins)) /\
  run = (Ret ([], [53]), run.2) /\
  PyDict.get 50 (gc_objects twins) = Some (TArray a) /\
  PyDict.get 53 (gc_objects twins) = Some (TArray a) /\
  50 <> 53 /\
  ~ (50 ∈ [53] /\ 53 ∈ [53]) /\
  (forall r, r ∉ [53] ->
             PyDict.get r (gc_objects run.2) = PyDict.get r (gc_objects twins)).
Proof.
  intros run a.
  assert (Hnd : NoDup (PyDict.keys (gc_objects twins))).
  { apply (bool_decide_unpack _). by vm_compute. }
  assert (Hrun : run = (Ret ([], [53]), run.2)) by (by vm_compute).
  assert (Hne : 50 <> 53) by done.
  split; [exact Hnd|]. split; [exact Hrun|]. split; [reflexivity|]. split; [reflexivity|].
  split; [exact Hne|].
  exact (duplicate_payload_exported_once twins [] [53] run.2 50 a 53 a
           Hnd Hrun eq_refl eq_refl Hne eq_refl).
Defined.

Lemma import_phase_converts_witness :
  let run := convert_from_numpy_to_target_backend [] [52] torch_set in
  NoDup [52] /\ is_local torch_set = false /\ backend_stack torch_set = [] ++ [20] /\
  run = (Ret tt, run.2) /\
  backend_stack run.2 = backend_stack torch_set /\ objects run.2 = objects torch_set /\
  (forall r, r ∉ [52] ->
             PyDict.get r (gc_objects run.2) = PyDict.get r (gc_objects torch_set)) /\
  (forall r, r ∈ [52] ->
     exists obj obj', PyDict.get r (gc_objects torch_set) = Some obj /\
                      PyDict.get r (gc_objects run.2) = Some obj' /\
                      imported 20 [] r obj obj').
Proof.
  intros run.
  assert (Hnd : NoDup [52]) by apply NoDup_singleton.
  assert (Hloc : is_local torch_set = false) by (by vm_compute).
  assert (Hstack : backend_stack torch_set = [] ++ [20]) by (by vm_compute).
  assert (Hrun : run = (Ret tt, run.2)) by (by vm_compute).
  split; [exact Hnd|]. split; [exact Hloc|]. split; [exact Hstack|]. split; [exact Hrun|].
  exact (import_phase_converts torch_set run.2 [] 20 [] [52] Hnd Hloc Hstack Hrun).
Defined.

Lemma get_backend_fills_witness :
  is_local start = false /\
  resolves (sys_modules start) (BName "torch") 20 /\
  exists st',
    get_backend (Some (BName "torch")) start = (Ret (AModule 20), st') /\
    backend_stack st' = backend_stack start /\
    ivy_original_dict st' = snapshot_for start /\
    (forall k, PyDict.get k (o_dict (obj 20 st')) =
               match PyDict.get k (o_dict (obj 20 start)) with
               | Some v => Some v
               | None => PyDict.get k (snapshot_for start)
               end) /\
    (forall r, r <> 20 -> obj r st' = obj r start).
Proof.
  assert (Hres : resolves (sys_modules start) (BName "torch") 20).
  { exists "ivy.functional.backends.torch". by split. }
  split; [reflexivity|]. split; [exact Hres|].
  exact (get_backend_fills start (BName "torch") 20 eq_refl Hres).
Defined.

Lemma get_backend_unregistered_witness :
  is_local start = false /\
  ("paddle" ∉ PyDict.keys _backend_dict) /\
  get_backend (Some (BName "paddle")) start =
    (Raise (KeyError "paddle"),
     match backend_stack start with
     | [] => set_ivy_original_dict (o_dict (obj ivy start)) start
     | _ :: _ => start
     end).
Proof.
  assert (Hname : "paddle" ∉ PyDict.keys _backend_dict) by (by apply (bool_decide_unpack _)).
  split; [reflexivity|]. split; [exact Hname|].
  exact (get_backend_unregistered start "paddle" eq_refl Hname).
Defined.

Lemma get_backend_default_witness :
  (is_local start = false /\ backend_stack start = [] /\
   PyDict.get (implicit_backend start) _backend_dict = Some "ivy.functional.backends.numpy" /\
   sys_modules start !! "ivy.functional.backends.numpy" = Some 10 /\
   get_backend None start =
     (Ret (AStr ""), set_ivy_original_dict (o_dict (obj ivy start)) start)) /\
  (is_local torch_set = false /\ backend_stack torch_set = [] ++ [20] /\
   exists st',
     get_backend None torch_set = (Ret (AModule 20), st') /\
     backend_stack st' = backend_stack torch_set /\
     ivy_original_dict st' = ivy_original_dict torch_set /\
     (forall k, PyDict.get k (o_dict (obj 20 st')) =
                match PyDict.get k (o_dict (obj 20 torch_set)) with
                | Some v => Some v
                | None => PyDict.get k (ivy_original_dict torch_set)
                end) /\
     (forall r, r <> 20 -> obj r st' = obj r torch_set)).
Proof.
  assert (Hloc : is_local torch_set = false) by (by vm_compute).
  assert (Hstack : backend_stack torch_set = [] ++ [20]) by (by vm_compute).
  destruct (get_backend_default start eq_refl) as [H1 _].
  destruct (get_backend_default torch_set Hloc) as [_ H2].
  split.
  - repeat (split; [reflexivity|]).
    exact (H1 "ivy.functional.backends.numpy" 10 eq_refl eq_refl eq_refl).
  - split; [exact Hloc|]. split; [exact Hstack|]. exact (H2 [] 20 Hstack).
Defined.

Lemma choose_random_backend_not_four_witness :
  is_local start = false /\
  length ["numpy"] <> 4 /\
  match choose_random_backend 7 ["numpy"] start with
  | (Ret f, st') => st' = start /\ f ∈ PyDict.keys _backend_dict /\ f ∉ ["numpy"]
  | (Raise e, st') =>
      st' = start /\ (exists message, e = ValueError message) /\
      forall f, f ∈ PyDict.keys _backend_dict -> f ∈ ["numpy"]
  | (Hang, _) => False
  end.
Proof.
  assert (Hlen : length ["numpy"] <> 4) by (simpl; lia).
  split; [reflexivity|]. split; [exact Hlen|].
  exact (choose_random_backend_not_four 7 ["numpy"] start eq_refl Hlen).
Defined.

Lemma flat_namespace_rebound_witness :
  let original := o_dict (obj ivy start) in
  20 <> ivy /\
  NoDup (PyDict.keys original) /\
  (forall k v, (k, v) ∈ original ->
     is_nested_module (o_backend_str (obj 20 start)) v start = false) /\
  exists st',
    _set_backend_as_ivy 1 (Detached original) ivy 20 None None start = (Ret tt, st') /\
    (forall k v impl,
       (k, v) ∈ original -> PyDict.get k (o_dict (obj 20 start)) = Some impl ->
       PyDict.get k (o_dict (obj ivy st')) = Some (_wrap_function k impl v false) /\
       PyDict.get k (o_dict (obj 20 st')) = Some impl) /\
    (forall k v,
       (k, v) ∈ original -> PyDict.get k (o_dict (obj 20 start)) = None ->
       (k ∉ o_invalid_dtypes (obj 20 start)) \/ PyDict.get k (o_dict (obj ivy start)) = None ->
       PyDict.get k (o_dict (obj ivy st')) = Some (_wrap_function k v v true) /\
       PyDict.get k (o_dict (obj 20 st')) = Some v) /\
    (forall k v x,
       (k, v) ∈ original -> PyDict.get k (o_dict (obj 20 start)) = None ->
       k ∈ o_invalid_dtypes (obj 20 start) -> PyDict.get k (o_dict (obj ivy start)) = Some x ->
       PyDict.get k (o_dict (obj ivy st')) = None /\
       PyDict.get k (o_dict (obj 20 st')) = None) /\
    (forall k, k ∉ PyDict.keys original ->
       PyDict.get k (o_dict (obj ivy st')) = PyDict.get k (o_dict (obj ivy start)) /\
       PyDict.get k (o_dict (obj 20 st')) = PyDict.get k (o_dict (obj 20 start))) /\
    (forall r, r <> ivy -> r <> 20 -> obj r st' = obj r start).
Proof.
  intros original.
  assert (Hne : 20 <> ivy) by done.
  assert (Hnd : NoDup (PyDict.keys original)).
  { apply (bool_decide_unpack _). by vm_compute. }
  assert (Hflat : forall k v, (k, v) ∈ original ->
            is_nested_module (o_backend_str (obj 20 start)) v start = false).
  { intros k v Hin.
    change original with [("add", 1); ("uint16", 2); ("mul", 3)] in Hin.
    repeat (apply elem_of_cons in Hin as [[= -> ->]|Hin]; [by vm_compute|]).
    by apply elem_of_nil in Hin. }
  split; [exact Hne|]. split; [exact Hnd|]. split; [exact Hflat|].
  exact (flat_namespace_rebound 0 original 20 start Hne Hnd Hnd Hflat).
Defined.

Lemma set_backend_flat_witness :
  is_local start = false /\ lock_held start = false /\ backend_stack start = [] /\
  resolves (sys_modules start) (BName "numpy") 10 /\ 10 <> ivy /\
  recursion_limit = 50 /\
  PyStr.find "backends" (o_name (obj 10 start)) = Some 15 /\
  sys_modules start !! PyStr.drop (15 + 9) (o_name (obj 10 start)) = Some 31 /\
  (forall key, key ∈ PyDict.keys (o_dict (obj 10 start)) -> PyStr.contains "_v_" key = false) /\
  NoDup (PyDict.keys (o_dict (obj ivy start))) /\
  (forall k v, (k, v) ∈ o_dict (obj ivy start) ->
     is_nested_module (o_backend_str (obj 10 start)) v start = false) /\
  exists st',
    set_backend (BName "numpy") false start = (Ret tt, st') /\
    backend_stack st' = [10] /\
    lock_held st' = false /\
    ivy_original_dict st' = o_dict (obj ivy start) /\
    forall k v, PyDict.get k (o_dict (obj ivy start)) = Some v ->
      match PyDict.get k (o_dict (obj 10 start)) with
      | Some impl =>
          PyDict.get k (o_dict (obj ivy st')) = Some (_wrap_function k impl v false)
      | None =>
          if bool_decide (k ∈ o_invalid_dtypes (obj 10 start))
          then PyDict.get k (o_dict (obj ivy st')) = None
          else PyDict.get k (o_dict (obj ivy st')) = Some (_wrap_function k v v true) /\
               PyDict.get k (o_dict (obj 10 st')) = Some v
      end.
Proof.
  assert (Hres : resolves (sys_modules start) (BName "numpy") 10).
  { exists "ivy.functional.backends.numpy". by split. }
  assert (Hne : 10 <> ivy) by done.
  assert (Hi : PyStr.find "backends" (o_name (obj 10 start)) = Some 15) by (by vm_compute).
  assert (Hf : sys_modules start !! PyStr.drop (15 + 9) (o_name (obj 10 start)) = Some 31)
    by (by vm_compute).
  assert (Hkeys : forall key, key ∈ PyDict.keys (o_dict (obj 10 start)) ->
                              PyStr.contains "_v_" key = false).
  { intros key Hkey. change (PyDict.keys (o_dict (obj 10 start))) with ["add"] in Hkey.
    apply list_elem_of_singleton in Hkey. by subst. }
  assert (Hnd : NoDup (PyDict.keys (o_dict (obj ivy start)))).
  { apply (bool_decide_unpack _). by vm_compute. }
  assert (Hflat : forall k v, (k, v) ∈ o_dict (obj ivy start) ->
            is_nested_module (o_backend_str (obj 10 start)) v start = false).
  { intros k v Hin.
    change (o_dict (obj ivy start)) with [("add", 1); ("uint16", 2); ("mul", 3)] in Hin.
    repeat (apply elem_of_cons in Hin as [[= -> ->]|Hin]; [by vm_compute|]).
    by apply elem_of_nil in Hin. }
  repeat (split; [reflexivity|]). split; [exact Hres|]. split; [exact Hne|].
  split; [reflexivity|]. split; [exact Hi|]. split; [exact Hf|]. split; [exact Hkeys|].
  split; [exact Hnd|]. split; [exact Hflat|].
  exact (set_backend_flat (BName "numpy") 10 15 31 49 start eq_refl eq_refl eq_refl
           Hres Hne eq_refl Hi Hf Hkeys Hnd Hflat).
Defined.

Lemma dynamic_switch_converts_witness :
  let st' := (set_backend (BName "torch") true start).2 in
  NoDup (PyDict.keys (gc_objects start)) /\
  set_backend (BName "torch") true start = (Ret tt, st') /\
  exists m variable_ids numpy_objs,
    resolves (sys_modules start) (BName "torch") m /\
    numpy_objs =
      filter (fun r => dynamic_at (gc_objects start) r = true)
             (export_candidates (gc_objects start)) /\
    (forall r, r ∈ variable_ids <->
               r ∈ numpy_objs /\ variable_at (gc_objects start) r = true) /\
    (forall r, r ∉ numpy_objs ->
               PyDict.get r (gc_objects st') = PyDict.get r (gc_objects start)) /\
    (forall r obj, r ∈ numpy_objs -> PyDict.get r (gc_objects start) = Some obj ->
       exists mid obj',
         exported obj mid /\ imported m variable_ids r mid obj' /\
         PyDict.get r (gc_objects st') = Some obj').
Proof.
  intros st'.
  assert (Hnd : NoDup (PyDict.keys (gc_objects start))).
  { apply (bool_decide_unpack _). by vm_compute. }
  assert (Hrun : set_backend (BName "torch") true start = (Ret tt, st')) by (by vm_compute).
  split; [exact Hnd|]. split; [exact Hrun|].
  exact (dynamic_switch_converts (BName "torch") start st' Hnd Hrun).
Defined.

Lemma backend_registrations_witness :
  let st1 := (set_backend (BName "numpy") false start).2 in
  backend_stack start = [] /\
  set_backend (BName "numpy") false start = (Ret tt, st1) /\
  exists m st2,
    resolves (sys_modules start) (BName "numpy") m /\
    globals st1 = registered (o_backend_str (obj m start)) (globals start) /\
    unset_backend st1 = (Ret (Some m), st2) /\
    globals st2 = unregistered (o_backend_str (obj m start)) (globals st1).
Proof.
  intros st1.
  assert (Hrun : set_backend (BName "numpy") false start = (Ret tt, st1)) by (by vm_compute).
  split; [reflexivity|]. split; [exact Hrun|].
  exact (backend_registrations (BName "numpy") false start st1 eq_refl Hrun).
Defined.

End MoreWitnesses.
